(** * SFCC Metadata Explorer: call resolution, tree materialisation, export

    A shallow embedding of the TypeScript sources of the extension:

    - [apiConfig] and [OCAPIService.getCallSetup]   (service/OCAPIService.ts)
    - [ObjectAttributeDefinition]                   (documents/)
    - [MetadataViewProvider], [SitePreferencesHelper]
    - [XMLHandler]

    JavaScript values are modelled by [JSValue]; object literals are
    association lists kept in insertion order, which is the order
    [Object.keys] reports.  A promise is modelled by its [outcome]: the
    value it resolves to, or the reason it rejects with. *)

From Stdlib Require Import String Ascii List ZArith Bool Lia.
From Stdlib Require Import Numbers.DecimalString.
Import ListNotations.

Local Open Scope list_scope.
Local Open Scope string_scope.

(* ====================================================================== *)
(** ** JavaScript strings *)
(* ====================================================================== *)

Module JSString.

(** [s.indexOf(sub) > -1] *)
Definition includes (sub s : string) : bool :=
  match String.index 0 sub s with
  | Some _ => true
  | None => false
  end.

(** [s.endsWith(suffix)], used to phrase properties of endpoints. *)
Definition endsWith (suffix s : string) : bool :=
  let n := String.length s in
  let k := String.length suffix in
  (k <=? n)%nat && String.eqb (String.substring (n - k) k s) suffix.

(** [s.split(sep)] for a one-character separator: [acc] holds the
    characters of the segment being read, in reverse. *)
Fixpoint split_aux (sep : ascii) (acc : string) (s : string) : list string :=
  match s with
  | EmptyString => [acc]
  | String c rest =>
      if Ascii.eqb c sep
      then acc :: split_aux sep EmptyString rest
      else split_aux sep (acc ++ String c EmptyString) rest
  end.

Definition split (sep : ascii) (s : string) : list string :=
  split_aux sep EmptyString s.

(** [xs.pop()] as an expression: the last element, [None] standing for
    [undefined] on an empty array. *)
Definition pop_value (xs : list string) : option string :=
  match rev xs with
  | [] => None
  | x :: _ => Some x
  end.

(** What is left of the array after [xs.pop()]. *)
Definition pop_rest (xs : list string) : list string :=
  removelast xs.

Definition lowerChar (c : ascii) : ascii :=
  let n := nat_of_ascii c in
  if ((65 <=? n) && (n <=? 90))%nat then ascii_of_nat (n + 32) else c.

(** [s.toLocaleLowerCase()] on the ASCII range. *)
Fixpoint toLocaleLowerCase (s : string) : string :=
  match s with
  | EmptyString => EmptyString
  | String c rest => String (lowerChar c) (toLocaleLowerCase rest)
  end.

(** [String(n)] for an integral number of the safe range (magnitude
    below 2^53), where it is the decimal numeral in full.  Larger
    numbers, which JavaScript prints rounded or in exponent form, and
    fractions are not among the values modelled. *)
Definition ofZ (n : Z) : string :=
  NilEmpty.string_of_int (Z.to_int n).

(** [s.replace(pattern, replacement)] with a string pattern: the first
    occurrence only. *)
Definition replace (pattern replacement s : string) : string :=
  match String.index 0 pattern s with
  | Some i =>
      String.substring 0 i s ++ replacement ++
      String.substring (i + String.length pattern)
                       (String.length s - (i + String.length pattern)) s
  | None => s
  end.

(** *** [encodeURIComponent] *)

Definition isAlphaNum (c : ascii) : bool :=
  let n := nat_of_ascii c in
  (((48 <=? n) && (n <=? 57)) ||
   ((65 <=? n) && (n <=? 90)) ||
   ((97 <=? n) && (n <=? 122)))%nat.

(** The marks the component encoder leaves alone: [- _ . ! ~ * ' ( )]. *)
Definition isUriMark (c : ascii) : bool :=
  existsb (Ascii.eqb c)
    ["-"; "_"; "."; "!"; "~"; "*"; "'"; "("; ")"]%char.

Definition isUriUnreserved (c : ascii) : bool :=
  isAlphaNum c || isUriMark c.

Definition hexDigit (n : nat) : ascii :=
  if (n <? 10)%nat then ascii_of_nat (48 + n) else ascii_of_nat (55 + n).

Definition percentEncode (c : ascii) : string :=
  let n := nat_of_ascii c in
  String "%" (String (hexDigit (n / 16)) (String (hexDigit (n mod 16)) EmptyString)).

(** Every octet of the (UTF-8) text that is not unreserved becomes
    [%XX]. *)
Fixpoint encodeURIComponent (s : string) : string :=
  match s with
  | EmptyString => EmptyString
  | String c rest =>
      (if isUriUnreserved c then String c EmptyString else percentEncode c)
      ++ encodeURIComponent rest
  end.

End JSString.

(* ====================================================================== *)
(** ** JavaScript values *)
(* ====================================================================== *)

#[local] Set Warnings "-register-all".

(** Numbers are the integral ones (counts, lengths, positions); an object
    carries the name of its class, ["Object"] for a literal. *)
Inductive JSValue : Type :=
| JUndefined
| JNull
| JBool (b : bool)
| JNum (n : Z)
| JStr (s : string)
| JArr (items : list JSValue)
| JObj (cls : string) (props : list (string * JSValue)).

Module JS.

Definition Props := list (string * JSValue).

Fixpoint lookup {A : Type} (k : string) (ps : list (string * A)) : option A :=
  match ps with
  | [] => None
  | (k', v) :: rest => if String.eqb k k' then Some v else lookup k rest
  end.

(** [ps.hasOwnProperty(k)] *)
Definition hasOwnProperty {A : Type} (k : string) (ps : list (string * A)) : bool :=
  match lookup k ps with Some _ => true | None => false end.

(** [o[k]] on the own properties of an object. *)
Definition getProp (k : string) (ps : Props) : JSValue :=
  match lookup k ps with Some v => v | None => JUndefined end.

(** [o[k] = v]: overwrite in place, or append a new key. *)
Fixpoint setProp (k : string) (v : JSValue) (ps : Props) : Props :=
  match ps with
  | [] => [(k, v)]
  | (k', v') :: rest =>
      if String.eqb k k' then (k, v) :: rest else (k', v') :: setProp k v rest
  end.

(** [Object.keys(o)] *)
Definition keys (ps : Props) : list string := map fst ps.

(** [v.k] for a value that is neither [null] nor [undefined]; the
    members of primitives that the sources read ([length]) are listed. *)
Definition member (k : string) (v : JSValue) : JSValue :=
  match v with
  | JObj _ ps => getProp k ps
  | JArr items =>
      if String.eqb k "length" then JNum (Z.of_nat (List.length items))
      else JUndefined
  | JStr s =>
      if String.eqb k "length" then JNum (Z.of_nat (String.length s))
      else JUndefined
  | _ => JUndefined
  end.

Definition truthy (v : JSValue) : bool :=
  match v with
  | JUndefined | JNull => false
  | JBool b => b
  | JNum n => negb (Z.eqb n 0)
  | JStr s => negb (String.eqb s "")
  | JArr _ | JObj _ _ => true
  end.

(** [a || b] *)
Definition or (a b : JSValue) : JSValue :=
  if truthy a then a else b.

Definition typeof (v : JSValue) : string :=
  match v with
  | JUndefined => "undefined"
  | JNull | JArr _ | JObj _ _ => "object"
  | JBool _ => "boolean"
  | JNum _ => "number"
  | JStr _ => "string"
  end.

Definition isArray (v : JSValue) : bool :=
  match v with JArr _ => true | _ => false end.

Definition isNullish (v : JSValue) : bool :=
  match v with JUndefined | JNull => true | _ => false end.

Definition joinWith (sep : string) (parts : list string) : string :=
  match parts with
  | [] => ""
  | p :: rest => fold_left (fun acc q => acc ++ sep ++ q) rest p
  end.

(** [String(v)], which is also what [+] does to its non-string operand
    when the other one is a string. *)
Fixpoint toString (v : JSValue) : string :=
  match v with
  | JUndefined => "undefined"
  | JNull => "null"
  | JBool true => "true"
  | JBool false => "false"
  | JNum n => JSString.ofZ n
  | JStr s => s
  | JArr items =>
      joinWith ","
        (map (fun x => match x with
                       | JUndefined | JNull => ""
                       | _ => toString x
                       end) items)
  | JObj _ _ => "[object Object]"
  end.

(** [a === b] on primitives; objects and arrays are compared by
    identity in JavaScript, which the sources never rely on. *)
Definition strictEq (a b : JSValue) : bool :=
  match a, b with
  | JUndefined, JUndefined => true
  | JNull, JNull => true
  | JBool x, JBool y => Bool.eqb x y
  | JNum x, JNum y => Z.eqb x y
  | JStr x, JStr y => String.eqb x y
  | _, _ => false
  end.

(** The indices [0 .. n-1] of an array or string, as property names. *)
Fixpoint indexed {A : Type} (from : nat) (xs : list A) : list (string * A) :=
  match xs with
  | [] => []
  | x :: rest => (JSString.ofZ (Z.of_nat from), x) :: indexed (S from) rest
  end.

Fixpoint characters (s : string) : list JSValue :=
  match s with
  | EmptyString => []
  | String c rest => JStr (String c EmptyString) :: characters rest
  end.

(** The own enumerable properties of a value that is neither [null] nor
    [undefined], in the order [Object.keys] lists them: the members of
    an object, the elements of an array, the characters of a string. *)
Definition entries (v : JSValue) : list (string * JSValue) :=
  match v with
  | JObj _ props => props
  | JArr items => indexed 0 items
  | JStr s => indexed 0 (characters s)
  | _ => []
  end.

(** The names that every object literal answers to without having them
    among its own properties: the members of [Object.prototype]. *)
Definition Object_prototype : list string :=
  ["constructor"; "__defineGetter__"; "__defineSetter__"; "hasOwnProperty";
   "__lookupGetter__"; "__lookupSetter__"; "isPrototypeOf";
   "propertyIsEnumerable"; "toString"; "valueOf"; "__proto__";
   "toLocaleString"].

(** [k in Object.prototype]: for such a name [o[k]] on an object literal
    is not [undefined] even when [o] has no property [k] of its own. *)
Definition inherited (k : string) : bool :=
  existsb (String.eqb k) Object_prototype.

End JS.

(* ====================================================================== *)
(** ** Outcomes of asynchronous calls *)
(* ====================================================================== *)

(** An [async] function either resolves ([Returned]) or rejects
    ([Thrown], carrying the error text). *)
Inductive outcome (A : Type) : Type :=
| Returned (a : A)
| Thrown (err : string).

Arguments Returned {A} a.
Arguments Thrown {A} err.

Definition obind {A B : Type} (m : outcome A) (k : A -> outcome B) : outcome B :=
  match m with
  | Returned a => k a
  | Thrown e => Thrown e
  end.

Declare Scope outcome_scope.
Delimit Scope outcome_scope with outcome.
Notation "'await' x <- m ; k" := (obind m (fun x => k))
  (at level 10, x name, m at level 100, k at level 200) : outcome_scope.

Definition didThrow {A : Type} (m : outcome A) : bool :=
  match m with Thrown _ => true | Returned _ => false end.

(** [xs.filter(test)] and [xs.map(f)] with a callback that may raise: the
    first exception ends the iteration. *)
Fixpoint filterM {A : Type} (test : A -> outcome bool) (xs : list A)
  : outcome (list A) :=
  match xs with
  | [] => Returned []
  | x :: rest =>
      (await keep <- test x;
       await rest' <- filterM test rest;
       Returned (if keep then x :: rest' else rest'))%outcome
  end.

Fixpoint mapM {A B : Type} (f : A -> outcome B) (xs : list A)
  : outcome (list B) :=
  match xs with
  | [] => Returned []
  | x :: rest =>
      (await y <- f x;
       await rest' <- mapM f rest;
       Returned (y :: rest'))%outcome
  end.

(* ====================================================================== *)
(** ** The endpoint catalog (apiConfig.ts) *)
(* ====================================================================== *)

Module ApiConfig.

(** One entry of a call's [params] array. *)
Record Param : Type := mkParam {
  id : string;
  type : string;
  use : string
}.

(** One entry of [availableCalls]. *)
Record Call : Type := mkCall {
  authorization : string;
  headers : JS.Props;
  method : string;
  params : list Param;
  path : string
}.

(** One entry of [resources]. *)
Record Resource : Type := mkResource {
  api : string;
  availableCalls : list (string * Call)
}.

Record Config : Type := mkConfig {
  clientId : string;
  clientPassword : string;
  resources : list (string * Resource);
  version : string
}.

Definition jsonHeaders : JS.Props :=
  [("Content-Type", JStr "application/json")].

Definition validatingHeaders : JS.Props :=
  [("Content-Type", JStr "application/json");
   ("x-dw-validate-existing", JBool true);
   ("Accept", JStr "application/json")].

Definition systemObjectDefinitions : Resource :=
  mkResource "data"
    [ ("get",
       mkCall "BM_USER" jsonHeaders "GET"
         [mkParam "objectType" "string" "PATH_PARAMETER"]
         "system_object_definitions/{objectType}");
      ("getAll",
       mkCall "BM_USER" jsonHeaders "GET"
         [mkParam "select" "string" "QUERY_PARAMETER";
          mkParam "count" "number" "QUERY_PARAMETER"]
         "system_object_definitions");
      ("getAttributes",
       mkCall "BM_USER" jsonHeaders "GET"
         [mkParam "select" "string" "QUERY_PARAMETER";
          mkParam "objectType" "string" "PATH_PARAMETER"]
         "system_object_definitions/{objectType}/attribute_definitions");
      ("createAttribute",
       mkCall "BM_USER" validatingHeaders "PUT"
         [mkParam "id" "string" "PATH_PARAMETER";
          mkParam "objectType" "string" "PATH_PARAMETER"]
         "system_object_definitions/{objectType}/attribute_definitions/{id}");
      ("deleteAttribute",
       mkCall "BM_USER" validatingHeaders "DELETE"
         [mkParam "id" "string" "PATH_PARAMETER";
          mkParam "objectType" "string" "PATH_PARAMETER"]
         "system_object_definitions/{objectType}/attribute_definitions/{id}");
      ("createAttributeGroup",
       mkCall "BM_USER" validatingHeaders "PUT"
         [mkParam "id" "string" "PATH_PARAMETER";
          mkParam "objectType" "string" "PATH_PARAMETER"]
         "system_object_definitions/{objectType}/attribute_groups/{id}");
      ("getAttributeGroups",
       mkCall "BM_USER" jsonHeaders "GET"
         [mkParam "select" "string" "QUERY_PARAMETER";
          mkParam "objectType" "string" "PATH_PARAMETER"]
         "system_object_definitions/{objectType}/attribute_groups");
      ("assignAttributeToGroup",
       mkCall "BM_USER" jsonHeaders "PUT"
         [mkParam "objectType" "string" "PATH_PARAMETER";
          mkParam "groupId" "string" "PATH_PARAMETER";
          mkParam "attributeId" "string" "PATH_PARAMETER"]
         "system_object_definitions/{objectType}/attribute_groups/{groupId}/attribute_definitions/{attributeId}")
    ].

Definition apiConfig : Config :=
  mkConfig "aaaaaaaaaaaaaaaaaaaaaaaaaaaaaa"
           "aaaaaaaaaaaaaaaaaaaaaaaaaaaaaa"
           [("systemObjectDefinitions", systemObjectDefinitions)]
           "v18_8".

(** The number of characters of [s] equal to [c]. *)
Fixpoint occurrences (c : ascii) (s : string) : nat :=
  match s with
  | EmptyString => 0
  | String x rest => (if Ascii.eqb x c then 1 else 0) + occurrences c rest
  end.

(** The test the resolver's callback makes for a path parameter:
    [path.indexOf('{' + param.id + '}') > -1]. *)
Definition placeholderIn (p : Param) (template : string) : bool :=
  JSString.includes ("{" ++ id p ++ "}") template.

Definition isPathParam (p : Param) : bool :=
  String.eqb (use p) "PATH_PARAMETER".

Definition isQueryParam (p : Param) : bool :=
  String.eqb (use p) "QUERY_PARAMETER".

(** A call whose path template and parameter list agree: every
    parameter is bound to the path or to the query, a path parameter has
    its placeholder in the template, a query parameter has none, and the
    template has as many placeholders as there are path parameters. *)
Definition callIsConsistent (c : Call) : bool :=
  forallb (fun p => if isPathParam p then placeholderIn p (path c)
                    else isQueryParam p && negb (placeholderIn p (path c)))
          (params c)
  && Nat.eqb (occurrences "{" (path c))
             (List.length (filter isPathParam (params c)))
  && Nat.eqb (occurrences "}" (path c))
             (List.length (filter isPathParam (params c))).

End ApiConfig.

(* ====================================================================== *)
(** ** The call resolver (service/OCAPIService.ts) *)
(* ====================================================================== *)

Module OCAPIService.

(** The verbs of [HTTP_VERB]; the resolver itself only ever writes
    [get]. *)
Inductive HTTP_VERB : Type := get | put | delete.

Record ICallSetup : Type := mkCallSetup {
  body : JS.Props;
  callName : string;
  endpoint : string;
  headers : JS.Props;
  method : HTTP_VERB;
  setupErrMsg : string;
  setupError : bool
}.

Record IDWConfig : Type := mkDWConfig {
  dw_endpoint : string;
  ok : bool;
  password : string;
  username : string
}.

(** The instance state that [getCallSetup] reads and writes. *)
Record Service : Type := mkService {
  dwConfig : IDWConfig
}.

(** A freshly constructed service. *)
Definition newService : Service :=
  mkService (mkDWConfig "" false "" "").

Definition nl : string := String (ascii_of_nat 10) EmptyString.

Definition withEndpoint (e : string) (r : ICallSetup) : ICallSetup :=
  mkCallSetup (body r) (callName r) e (headers r) (method r)
              (setupErrMsg r) (setupError r).

(** [setupError = true] followed by [setupErrMsg += msg]. *)
Definition failWith (msg : string) (r : ICallSetup) : ICallSetup :=
  mkCallSetup (body r) (callName r) (endpoint r) (headers r) (method r)
              (setupErrMsg r ++ msg) true.

(** [setupError = true] alone. *)
Definition flagError (r : ICallSetup) : ICallSetup :=
  mkCallSetup (body r) (callName r) (endpoint r) (headers r) (method r)
              (setupErrMsg r) true.

(** The default values [getCallSetup] starts from. *)
Definition initialSetup : ICallSetup :=
  mkCallSetup [] "" "" [("contentType", JStr "application/json")] get "" false.

(** The arrow function handed to [forEach]: one required parameter
    against the data bag.  [callData[param.id]] is read from the bag's
    own properties, which is what the expression gives for an id that
    is not [JS.inherited]; no parameter of the catalog is named after a
    member of [Object.prototype] (lemma [catalog_ids_are_not_inherited]),
    and for such a name the definition does not apply. *)
Definition paramCallback (resourceName callName : string) (callData : JS.Props)
           (param : ApiConfig.Param) (setupResult : ICallSetup) : ICallSetup :=
  let replaceMe := "{" ++ ApiConfig.id param ++ "}" in
  let value := JS.getProp (ApiConfig.id param) callData in
  if JS.truthy value && String.eqb (JS.typeof value) (ApiConfig.type param)
  then
    if String.eqb (ApiConfig.use param) "PATH_PARAMETER"
       && JSString.includes replaceMe (endpoint setupResult)
    then
      (* [setupResult.endpoint.replace(replaceMe, value)] is an expression
         statement: the string it builds is not stored anywhere. *)
      let _ := JSString.replace replaceMe (JS.toString value)
                                (endpoint setupResult) in
      setupResult
    else if String.eqb (ApiConfig.use param) "QUERY_PARAMETER"
    then
      let e1 := endpoint setupResult ++
                (if JSString.includes "?" (endpoint setupResult)
                 then "&" else "?") in
      withEndpoint
        (e1 ++ JSString.encodeURIComponent (ApiConfig.id param) ++ "=" ++
         JSString.encodeURIComponent (JS.toString value))
        setupResult
    else setupResult
  else
    failWith (nl ++ "- Call type: " ++ callName)
      (failWith (nl ++ "- Resource: " ++ resourceName)
         (failWith (nl ++ "Missing call parameter: " ++ "[object Object]")
            setupResult)).

(** [callConfig.forEach(callback)].  [callConfig] is the call's entry of
    the catalog, an object literal with the members [authorization],
    [headers], [method], [params] and [path]: it has no [forEach], and
    invoking the missing member raises before the callback is run. *)
Definition callConfig_forEach (callConfig : ApiConfig.Call)
           (callback : ApiConfig.Param -> ICallSetup -> ICallSetup)
           (setupResult : ICallSetup) : outcome ICallSetup :=
  Thrown "TypeError: callConfig.forEach is not a function".

(** [getDWConfig]: the cached configuration when it is complete,
    otherwise whatever the search for a dw.json file produces
    ([discovered]: the default record with [ok = false] when none is
    found, the file's content with [ok = true], or a rejection when
    the file cannot be read or parsed). *)
Definition getDWConfig (this : Service) (discovered : outcome IDWConfig)
  : outcome IDWConfig :=
  let c := dwConfig this in
  if negb (String.eqb (dw_endpoint c) "")
     && negb (String.eqb (username c) "")
     && negb (String.eqb (password c) "")
     && ok c
  then Returned c
  else discovered.

(** The catalog-driven part of [getCallSetup], up to the lookup of the
    connection. *)
Definition resolveStructure (cfg : ApiConfig.Config)
           (resourceName callName : string) (callData : JS.Props)
  : outcome ICallSetup :=
  let setupResult := initialSetup in
  match JS.lookup resourceName (ApiConfig.resources cfg) with
  | Some resConfig =>
      if negb (String.eqb (ApiConfig.api resConfig) "")
      then
        let setupResult :=
          withEndpoint (endpoint setupResult ++ "/dw/" ++
                        ApiConfig.api resConfig ++ "/") setupResult in
        match JS.lookup callName (ApiConfig.availableCalls resConfig) with
        | Some callConfig =>
            let setupResult :=
              if negb (String.eqb (ApiConfig.path callConfig) "")
              then withEndpoint (endpoint setupResult ++
                                 ApiConfig.path callConfig) setupResult
              else
                failWith (nl ++ "- Call type: " ++ callName)
                  (failWith (nl ++ "- OCAPI resource: " ++ resourceName)
                     (failWith (nl ++ "Missing call path in the apiConfig.")
                        setupResult)) in
            match ApiConfig.params callConfig with
            | [] => Returned setupResult
            | _ :: _ =>
                callConfig_forEach callConfig
                  (paramCallback resourceName callName callData)
                  setupResult
            end
        | None =>
            (* the test on [availableCalls] has no [else] branch *)
            Returned setupResult
        end
      else
        Returned
          (failWith (nl ++ "No API version was specified in the apiConfig object")
                    setupResult)
  | None =>
      Returned
        (failWith (nl ++ "No setup was found in apiConfig for the specified resource")
                  setupResult)
  end.

(** [getCallSetup]: the promise's outcome together with the service's
    state afterwards. *)
Definition getCallSetup (cfg : ApiConfig.Config) (discovered : outcome IDWConfig)
           (this : Service)
           (resourceName callName : string) (callData : JS.Props)
  : outcome ICallSetup * Service :=
  match resolveStructure cfg resourceName callName callData with
  | Thrown e => (Thrown e, this)
  | Returned setupResult =>
      if negb (setupError setupResult)
      then
        match getDWConfig this discovered with
        | Thrown e => (Thrown e, this)
        | Returned c =>
            let this' := mkService c in
            if negb (ok c)
            then (Returned (flagError setupResult), this')
            else (Returned (withEndpoint (dw_endpoint c ++ endpoint setupResult)
                                         setupResult), this')
        end
      else (Returned setupResult, this)
  end.

(** [Array.prototype.forEach] with this callback, for stating what the
    callback does over a whole [params] array. *)
Definition forEachParam (callback : ApiConfig.Param -> ICallSetup -> ICallSetup)
           (ps : list ApiConfig.Param) (setupResult : ICallSetup) : ICallSetup :=
  fold_left (fun acc p => callback p acc) ps setupResult.

(** [makeCall]: the three branches on the connection and the token are
    empty, and nothing is returned. *)
Definition makeCall (this : Service) (args : ICallSetup) : JSValue :=
  JUndefined.

End OCAPIService.

(* ====================================================================== *)
(** ** JSON text *)
(* ====================================================================== *)

Module JSON.

Definition hexLower (n : nat) : ascii :=
  if (n <? 10)%nat then ascii_of_nat (48 + n) else ascii_of_nat (87 + n).

Definition escapeChar (c : ascii) : string :=
  let n := nat_of_ascii c in
  if (n =? 34)%nat then "\" ++ String c EmptyString
  else if (n =? 92)%nat then "\\"
  else if (n =? 8)%nat then "\b"
  else if (n =? 9)%nat then "\t"
  else if (n =? 10)%nat then "\n"
  else if (n =? 12)%nat then "\f"
  else if (n =? 13)%nat then "\r"
  else if (n <? 32)%nat
       then "\u00" ++ String (hexLower (n / 16))
                        (String (hexLower (n mod 16)) EmptyString)
  else String c EmptyString.

Fixpoint escape (s : string) : string :=
  match s with
  | EmptyString => EmptyString
  | String c rest => escapeChar c ++ escape rest
  end.

Definition quote (s : string) : string :=
  String (ascii_of_nat 34) (escape s) ++ String (ascii_of_nat 34) EmptyString.

(** [JSON.stringify(v)] for a value that is not [undefined] itself: a
    member holding [undefined] is left out of an object and written as
    [null] inside an array. *)
Fixpoint stringify (v : JSValue) : string :=
  match v with
  | JUndefined | JNull => "null"
  | JBool true => "true"
  | JBool false => "false"
  | JNum n => JSString.ofZ n
  | JStr s => quote s
  | JArr items =>
      "[" ++
      (fix elements (xs : list JSValue) (first : bool) : string :=
         match xs with
         | [] => ""
         | x :: rest =>
             (if first then "" else ",") ++ stringify x ++ elements rest false
         end) items true
      ++ "]"
  | JObj _ props =>
      "{" ++
      (fix members (ps : list (string * JSValue)) (first : bool) : string :=
         match ps with
         | [] => ""
         | (k, x) :: rest =>
             match x with
             | JUndefined => members rest first
             | _ => (if first then "" else ",") ++ quote k ++ ":" ++
                    stringify x ++ members rest false
             end
         end) props true
      ++ "}"
  end.

End JSON.

(* ====================================================================== *)
(** ** Document model (documents/ObjectAttributeDefinition.ts) *)
(* ====================================================================== *)

Module ObjectAttributeDefinition.

(** Members that are renamed when the document is sent. *)
Definition MEMBER_MAP : list (string * string) :=
  [ ("defaultValue", "default_value");
    ("displayName", "display_name");
    ("effectiveId", "effective_id");
    ("externallyDefined", "externally_defined");
    ("externallyManaged", "externally_managed");
    ("fieldHeight", "field_height");
    ("fieldWidth", "field_width");
    ("maxValue", "max_value");
    ("minLength", "min_length");
    ("minValue", "min_value");
    ("multiValueType", "multi_value_type");
    ("orderRequired", "order_required");
    ("readOnly", "read_only");
    ("regularExpression", "regular_expression");
    ("requiresEncoding", "requires_encoding");
    ("setValueType", "set_value_type");
    ("siteSpecific", "site_specific");
    ("valueDefinitions", "value_definitions");
    ("valueType", "value_type") ].

(** [{ default: '' }] *)
Definition emptyLocalized : JSValue :=
  JObj "Object" [("default", JStr "")].

(** An object that has a [default] entry of its own. *)
Definition hasDefaultEntry (v : JSValue) : bool :=
  match v with
  | JObj _ props => JS.hasOwnProperty "default" props
  | _ => false
  end.

Section Instance.

(** The class [ObjectAttributeValueDefinition] is imported from a file
    that is not part of the sources at hand: [valueDefinitionFields]
    stands for the members its constructor gives an instance built
    from one raw argument. *)
Variable valueDefinitionFields : JSValue -> JS.Props.

(** [new ObjectAttributeValueDefinition(raw)] *)
Definition newValueDefinition (raw : JSValue) : JSValue :=
  JObj "ObjectAttributeValueDefinition" (valueDefinitionFields raw).

(** The constructor: the own properties of the new instance, in the
    order they are assigned (the initialiser of [MEMBER_MAP] runs
    before the constructor's body). *)
Definition new (args : JS.Props) : JS.Props :=
  let arg k := JS.getProp k args in
  [ ("MEMBER_MAP",
     JObj "Object" (map (fun kv => (fst kv, JStr (snd kv))) MEMBER_MAP));
    ("defaultValue",
     JS.or (newValueDefinition (arg "default_value"))
           (newValueDefinition (JObj "Object" [])));
    ("description", JS.or (arg "description") emptyLocalized);
    ("displayName", JS.or (arg "display_name") emptyLocalized);
    ("effectiveId", JS.or (arg "effective_id") (JStr ""));
    ("externallyDefined", JS.or (arg "externally_defined") (JBool false));
    ("externallyManaged", JS.or (arg "externally_managed") (JBool false));
    ("fieldHeight", JS.or (arg "field_height") (JNum (-1)));
    ("fieldWidth", JS.or (arg "field_width") (JNum (-1)));
    ("id", JS.or (arg "id") (JStr ""));
    ("key", JS.or (arg "key") (JBool false));
    ("link", JS.or (arg "link") (JStr ""));
    ("localizable", JS.or (arg "localizable") (JBool false));
    ("mandatory", JS.or (arg "mandatory") (JBool false));
    ("maxValue", JS.or (arg "max_value") JNull);
    ("minLength", JS.or (arg "min_length") (JNum (-1)));
    ("minValue", JS.or (arg "min_value") JNull);
    ("multiValueType", JS.or (arg "multi_value_type") (JBool false));
    ("orderRequired", JS.or (arg "order_required") (JBool false));
    ("queryable", JS.or (arg "queryable") (JBool false));
    ("readOnly", JS.or (arg "read_only") (JBool false));
    ("regularExpression", JS.or (arg "regular_expression") (JStr ""));
    ("requiresEncoding", JS.or (arg "requires_encoding") (JBool false));
    ("scale", JS.or (arg "scale") (JNum (-1)));
    ("searchable", JS.or (arg "searchable") (JBool false));
    ("setValueType", JS.or (arg "set_value_type") (JStr ""));
    ("siteSpecific", JS.or (arg "site_specific") (JBool false));
    ("system", JS.or (arg "system") (JBool false));
    ("unit", JS.or (arg "unit") emptyLocalized);
    ("valueDefinitions", JS.or (arg "value_definitions") (JArr []));
    ("valueType", JS.or (arg "value_type") (JStr ""));
    ("visible", JS.or (arg "visible") (JBool false));
    ("includedFields", JS.or (arg "includeFields") (JArr [])) ].

End Instance.

(** [haystack.indexOf(name) > -1] where [haystack] was read from a
    member of unknown type: arrays compare elements with [===], strings
    search for a substring, anything else has no [indexOf] to call. *)
Definition indexOfFound (name : string) (haystack : JSValue) : outcome bool :=
  match haystack with
  | JArr items => Returned (existsb (JS.strictEq (JStr name)) items)
  | JStr s => Returned (JSString.includes name s)
  | _ => Thrown "TypeError: this.includedFields.indexOf is not a function"
  end.

(** The member names [getDocument] goes through, after the optional
    restriction to a field subset. *)
Definition selectedMembers (this : JS.Props) (includeFields : list string)
  : outcome (list string) :=
  let memberNames := JS.keys this in
  match includeFields with
  | _ :: _ =>
      Returned (filter (fun name => existsb (String.eqb name) includeFields)
                       memberNames)
  | [] =>
      let includedFields := JS.getProp "includedFields" this in
      if JS.isNullish includedFields
      then Thrown "TypeError: Cannot read property 'length' of undefined"
      else if JS.truthy (JS.member "length" includedFields)
      then filterM (fun name => indexOfFound name includedFields) memberNames
      else Returned memberNames
  end.

(** The body of the [forEach] in [getDocument]: a mapped, truthy member
    is copied under its wire name. *)
Definition copyMember (this : JS.Props) (documentObj : JS.Props)
           (localPropName : string) : JS.Props :=
  match JS.lookup localPropName MEMBER_MAP with
  | Some wireName =>
      if JS.truthy (JS.getProp localPropName this)
      then JS.setProp wireName (JS.getProp localPropName this) documentObj
      else documentObj
  | None => documentObj
  end.

(** [documentObj] as it stands when [getDocument] serialises it. *)
Definition documentObj (this : JS.Props) (includeFields : list string)
  : outcome JS.Props :=
  (await memberNames <- selectedMembers this includeFields;
   Returned (fold_left (copyMember this) memberNames []))%outcome.

(** [getDocument(includeFields)]: the JSON text of [documentObj]. *)
Definition getDocument (this : JS.Props) (includeFields : list string)
  : outcome string :=
  (await doc <- documentObj this includeFields;
   Returned (JSON.stringify (JObj "Object" doc)))%outcome.

End ObjectAttributeDefinition.

(* ====================================================================== *)
(** ** Tree nodes (components/MetadataNode) *)
(* ====================================================================== *)

Module TreeItemCollapsibleState.
(** The host's [TreeItemCollapsibleState]. *)
Inductive t : Type := None | Collapsed | Expanded.

Definition eqb (a b : t) : bool :=
  match a, b with
  | None, None | Collapsed, Collapsed | Expanded, Expanded => true
  | _, _ => false
  end.
End TreeItemCollapsibleState.

(** Modelled from the spec: [ObjectTypeDefinition] is imported from a file
    that is not part of the sources at hand.  The spec lists its content
    as the object type name and the counts of attribute definitions and of
    attribute groups; the members below are the ones the tree provider
    reads. *)
Record ObjectTypeDefinition : Type := mkObjectTypeDefinition {
  objectType : string;
  attributeDefinitionCount : Z;
  attributeGroupCount : Z
}.

(** The [nodeData] literal handed to [new MetadataNode(...)]: every member
    but [parentId] is optional. *)
Record INodeData : Type := mkNodeData {
  parentId : string;
  baseNodeName : option string;
  displayDescription : option JSValue;
  groupAttribute : option string;
  objectAttributeDefinition : option JS.Props;
  objectAttributeGroup : option JSValue;
  objectAttributeValueDefinition : option JSValue;
  objectAttributeValueDefinitions : option JSValue;
  objectTypeDefinition : option ObjectTypeDefinition;
  parentContainer : option string;
  stringList : option (list JSValue)
}.

(** [{ parentId }] *)
Definition nodeDataOf (parent : string) : INodeData :=
  mkNodeData parent None None None None None None None None None None.

Definition withBaseNodeName (v : string) (d : INodeData) : INodeData :=
  mkNodeData (parentId d) (Some v) (displayDescription d) (groupAttribute d)
    (objectAttributeDefinition d) (objectAttributeGroup d)
    (objectAttributeValueDefinition d) (objectAttributeValueDefinitions d)
    (objectTypeDefinition d) (parentContainer d) (stringList d).

Definition withDisplayDescription (v : JSValue) (d : INodeData) : INodeData :=
  mkNodeData (parentId d) (baseNodeName d) (Some v) (groupAttribute d)
    (objectAttributeDefinition d) (objectAttributeGroup d)
    (objectAttributeValueDefinition d) (objectAttributeValueDefinitions d)
    (objectTypeDefinition d) (parentContainer d) (stringList d).

Definition withObjectAttributeDefinition (v : JS.Props) (d : INodeData) : INodeData :=
  mkNodeData (parentId d) (baseNodeName d) (displayDescription d) (groupAttribute d)
    (Some v) (objectAttributeGroup d)
    (objectAttributeValueDefinition d) (objectAttributeValueDefinitions d)
    (objectTypeDefinition d) (parentContainer d) (stringList d).

Definition withObjectAttributeGroup (v : JSValue) (d : INodeData) : INodeData :=
  mkNodeData (parentId d) (baseNodeName d) (displayDescription d) (groupAttribute d)
    (objectAttributeDefinition d) (Some v)
    (objectAttributeValueDefinition d) (objectAttributeValueDefinitions d)
    (objectTypeDefinition d) (parentContainer d) (stringList d).

Definition withObjectAttributeValueDefinition (v : JSValue) (d : INodeData) : INodeData :=
  mkNodeData (parentId d) (baseNodeName d) (displayDescription d) (groupAttribute d)
    (objectAttributeDefinition d) (objectAttributeGroup d)
    (Some v) (objectAttributeValueDefinitions d)
    (objectTypeDefinition d) (parentContainer d) (stringList d).

Definition withObjectAttributeValueDefinitions (v : JSValue) (d : INodeData) : INodeData :=
  mkNodeData (parentId d) (baseNodeName d) (displayDescription d) (groupAttribute d)
    (objectAttributeDefinition d) (objectAttributeGroup d)
    (objectAttributeValueDefinition d) (Some v)
    (objectTypeDefinition d) (parentContainer d) (stringList d).

Definition withObjectTypeDefinition (v : ObjectTypeDefinition) (d : INodeData) : INodeData :=
  mkNodeData (parentId d) (baseNodeName d) (displayDescription d) (groupAttribute d)
    (objectAttributeDefinition d) (objectAttributeGroup d)
    (objectAttributeValueDefinition d) (objectAttributeValueDefinitions d)
    (Some v) (parentContainer d) (stringList d).

Definition withParentContainer (v : string) (d : INodeData) : INodeData :=
  mkNodeData (parentId d) (baseNodeName d) (displayDescription d) (groupAttribute d)
    (objectAttributeDefinition d) (objectAttributeGroup d)
    (objectAttributeValueDefinition d) (objectAttributeValueDefinitions d)
    (objectTypeDefinition d) (Some v) (stringList d).

Definition withGroupAttribute (v : string) (d : INodeData) : INodeData :=
  mkNodeData (parentId d) (baseNodeName d) (displayDescription d) (Some v)
    (objectAttributeDefinition d) (objectAttributeGroup d)
    (objectAttributeValueDefinition d) (objectAttributeValueDefinitions d)
    (objectTypeDefinition d) (parentContainer d) (stringList d).

Definition withStringList (v : list JSValue) (d : INodeData) : INodeData :=
  mkNodeData (parentId d) (baseNodeName d) (displayDescription d) (groupAttribute d)
    (objectAttributeDefinition d) (objectAttributeGroup d)
    (objectAttributeValueDefinition d) (objectAttributeValueDefinitions d)
    (objectTypeDefinition d) (parentContainer d) (Some v).

(** Modelled from the spec: the class [MetadataNode] is imported from a
    file that is not part of the sources at hand.  A node is what its
    constructor receives: the label, the host's collapsible state and the
    [nodeData] literal, whose members the provider reads back from the
    node ([element.parentId], [element.objectTypeDefinition], ...). *)
Record MetadataNode : Type := mkMetadataNode {
  name : JSValue;
  collapsibleState : TreeItemCollapsibleState.t;
  nodeData : INodeData
}.

(** Modelled from the spec: a tree node's [expandable] flag.  A node
    created with [TreeItemCollapsibleState.None] can be neither collapsed
    nor expanded. *)
Definition expandable (n : MetadataNode) : bool :=
  negb (TreeItemCollapsibleState.eqb (collapsibleState n)
                                     TreeItemCollapsibleState.None).

(* ====================================================================== *)
(** ** The tree provider (MetadataViewProvider, SitePreferencesHelper) *)
(* ====================================================================== *)

Module MetadataViewProvider.

Import OCAPIService.

(** What an expansion asks of its collaborators, in the order asked. *)
Inductive Request : Type :=
| ReqGetCallSetup (resourceName : JSValue) (call : string) (callData : JS.Props)
| ReqMakeCall (setup : ICallSetup)
| ReqGetExpandedAttribute (element : MetadataNode).

(** An asynchronous computation: its outcome and the requests issued,
    newest last. *)
Definition M (A : Type) : Type := list Request -> outcome A * list Request.

Definition ret {A : Type} (a : A) : M A := fun log => (Returned a, log).

Definition raise {A : Type} (e : string) : M A := fun log => (Thrown e, log).

Definition bind {A B : Type} (m : M A) (k : A -> M B) : M B :=
  fun log =>
    match m log with
    | (Returned a, log') => k a log'
    | (Thrown e, log') => (Thrown e, log')
    end.

(** [try { m } catch (e) { handler(e) }] *)
Definition tryCatch {A : Type} (m : M A) (handler : string -> M A) : M A :=
  fun log =>
    match m log with
    | (Returned a, log') => (Returned a, log')
    | (Thrown e, log') => handler e log'
    end.

(** A computation that issues no request. *)
Definition lift {A : Type} (o : outcome A) : M A := fun log => (o, log).

(** Issue [r] and continue with the collaborator's [answer]. *)
Definition request {A : Type} (r : Request) (answer : outcome A) : M A :=
  fun log => (answer, log ++ [r])%list.

(** Run from an empty log. *)
Definition run {A : Type} (m : M A) : outcome A * list Request := m [].

Declare Scope async_scope.
Delimit Scope async_scope with async.
Notation "x <- m ;; k" := (bind m (fun x => k))
  (at level 61, m at next level, right associativity) : async_scope.

(** [v.k], raising on [null] and [undefined]. *)
Definition read (k : string) (v : JSValue) : outcome JSValue :=
  if JS.isNullish v
  then Thrown ("TypeError: Cannot read property '" ++ k ++ "'")
  else Returned (JS.member k v).

(** The own properties a constructor finds on its raw argument. *)
Definition propsOf (v : JSValue) : JS.Props :=
  match v with
  | JObj _ ps => ps
  | _ => []
  end.

(** An optional string as the JavaScript value it is. *)
Definition optStr (o : option string) : JSValue :=
  match o with
  | Some s => JStr s
  | None => JUndefined
  end.

(** [resultObj.display_name ? resultObj.display_name.default : ''] *)
Definition displayNameDefault (resultObj : JSValue) : JSValue :=
  if JS.truthy (JS.member "display_name" resultObj)
  then JS.member "default" (JS.member "display_name" resultObj)
  else JStr "".

(** [!r.error && typeof r.data !== 'undefined' && Array.isArray(r.data)] *)
Definition hasDataArray (r : JSValue) : bool :=
  negb (JS.truthy (JS.member "error" r))
  && negb (String.eqb (JS.typeof (JS.member "data" r)) "undefined")
  && JS.isArray (JS.member "data" r).

(** [!r.error && typeof r.count !== 'undefined' && r.count === 0] *)
Definition isEmptyCount (r : JSValue) : bool :=
  negb (JS.truthy (JS.member "error" r))
  && negb (String.eqb (JS.typeof (JS.member "count" r)) "undefined")
  && JS.strictEq (JS.member "count" r) (JNum 0).

Definition items (v : JSValue) : list JSValue :=
  match v with
  | JArr xs => xs
  | _ => []
  end.

Section Provider.

(** The collaborators that are imported from files outside the
    sources at hand: the service of [../services/OCAPIService], the
    helper of [../helpers/OCAPIHelper] and three document classes. *)
Variable service_getCallSetup :
  JSValue -> string -> JS.Props -> outcome ICallSetup.
Variable service_makeCall : ICallSetup -> outcome JSValue.
Variable ocapiHelper_getExpandedAttribute : MetadataNode -> outcome JSValue.
Variable valueDefinitionFields : JSValue -> JS.Props.
Variable newObjectAttributeGroup : JSValue -> JSValue.
Variable newObjectTypeDefinition : JSValue -> ObjectTypeDefinition.

Definition getCallSetup (resourceName : JSValue) (call : string)
           (callData : JS.Props) : M ICallSetup :=
  request (ReqGetCallSetup resourceName call callData)
          (service_getCallSetup resourceName call callData).

Definition makeCall (setup : ICallSetup) : M JSValue :=
  request (ReqMakeCall setup) (service_makeCall setup).

Definition getExpandedAttribute (element : MetadataNode) : M JSValue :=
  request (ReqGetExpandedAttribute element)
          (ocapiHelper_getExpandedAttribute element).

(** The node made for one row of a [getAttributes] response. *)
Definition attributeRowNode (parent : string) (resultObj : JSValue)
  : outcome MetadataNode :=
  (await rowId <- read "id" resultObj;
   Returned
     (mkMetadataNode rowId TreeItemCollapsibleState.Collapsed
        (withDisplayDescription (displayNameDefault resultObj)
           (withObjectAttributeDefinition
              (ObjectAttributeDefinition.new valueDefinitionFields
                                             (propsOf resultObj))
              (nodeDataOf parent)))))%outcome.

(** The node made for one row of a [getAttributeGroups] response. *)
Definition groupRowNode (parent : string) (resultObj : JSValue)
  : outcome MetadataNode :=
  (await rowId <- read "id" resultObj;
   Returned
     (mkMetadataNode rowId TreeItemCollapsibleState.Collapsed
        (withDisplayDescription (displayNameDefault resultObj)
           (withObjectAttributeGroup (newObjectAttributeGroup resultObj)
              (nodeDataOf parent)))))%outcome.

(** A leaf that only carries a message. *)
Definition messageNode (label parent : string) : MetadataNode :=
  mkMetadataNode (JStr label) TreeItemCollapsibleState.None (nodeDataOf parent).

(** [getAttributeOrGroupContainerChildren] *)
Definition getAttributeOrGroupContainerChildren (element : MetadataNode)
  : M (list MetadataNode) :=
  let path := JSString.split "." (parentId (nodeData element)) in
  let objectType := optStr (JSString.pop_value path) in
  let parentType := optStr (JSString.pop_value (JSString.pop_rest path)) in
  let isAttribute :=
    negb (JS.strictEq (name element) (JStr "Attribute Groups")) in
  let childParent :=
    parentId (nodeData element) ++ "." ++ JS.toString objectType in
  if isAttribute then
    (_callResult <-
       tryCatch
         (_callSetup <- getCallSetup parentType "getAttributes"
                          [("count", JNum 700);
                           ("objectType", objectType);
                           ("select", JStr "(**)")] ;;
          makeCall _callSetup)
         (fun e => raise ("Error: " ++ e)) ;;
     _ <- lift (read "error" _callResult) ;;
     if hasDataArray _callResult
     then lift (mapM (attributeRowNode childParent)
                     (items (JS.member "data" _callResult)))
     else ret [messageNode "Unable to load..."
                 ("root.systemObjectDefinitions." ++
                  JS.toString objectType)])%async
  else
    (_callSetup <- getCallSetup (JStr "systemObjectDefinitions")
                     "getAttributeGroups"
                     [("select", JStr "(**)");
                      ("count", JNum 150);
                      ("expand", JStr "definition");
                      ("objectType", objectType)] ;;
     _callResult <- makeCall _callSetup ;;
     _ <- lift (read "error" _callResult) ;;
     if hasDataArray _callResult
     then lift (mapM (groupRowNode childParent)
                     (items (JS.member "data" _callResult)))
     else if isEmptyCount _callResult
     then ret [messageNode "No attribute groups defined" childParent]
     else ret [messageNode "Unable to load..." childParent])%async.

(** [SitePreferencesHelper.getAllPreferences]; [None] is the
    [undefined] the promise resolves to when no branch returns. *)
Definition getAllPreferences : M (option (list MetadataNode)) :=
  (_callSetup <- getCallSetup (JStr "systemObjectDefinitions")
                   "getAttributeGroups"
                   [("select", JStr "(**)");
                    ("expand", JStr "definition");
                    ("objectType", JStr "SitePreferences")] ;;
   _callResult <- makeCall _callSetup ;;
   _ <- lift (read "error" _callResult) ;;
   if hasDataArray _callResult
   then
     nodes <- lift (mapM (groupRowNode "sitePreferences")
                         (items (JS.member "data" _callResult))) ;;
     ret (Some nodes)
   else if isEmptyCount _callResult
   then ret (Some [messageNode "No attribute groups defined" "sitePreferences"])
   else ret None)%async.

(** The filter of [getBaseNodeChildren]. *)
Definition keepRow (baseName : JSValue) (obj : JSValue) : outcome bool :=
  (await row_type <- read "object_type" obj;
   Returned
     (if JS.strictEq baseName (JStr "systemObjectDefinitions")
      then negb (JS.strictEq row_type (JStr "CustomObject"))
      else JS.strictEq row_type (JStr "CustomObject")
           && JS.truthy (JS.member "display_name" obj)))%outcome.

(** The mapping of [getBaseNodeChildren]. *)
Definition typeRowNode (baseName : JSValue) (filterdObj : JSValue)
  : outcome MetadataNode :=
  (await label <-
     (if JS.strictEq baseName (JStr "systemObjectDefinitions")
      then read "object_type" filterdObj
      else if JS.strictEq baseName (JStr "customObjectDefinitions")
      then (await dn <- read "display_name" filterdObj; read "default" dn)
      else Returned (JStr ""));
   Returned
     (mkMetadataNode label TreeItemCollapsibleState.Collapsed
        (withDisplayDescription (JStr " ")
           (withObjectTypeDefinition (newObjectTypeDefinition filterdObj)
              (nodeDataOf ("root." ++ JS.toString baseName))))))%outcome.

(** [getBaseNodeChildren] *)
Definition getBaseNodeChildren (element : MetadataNode)
  : M (option (list MetadataNode)) :=
  let baseName := optStr (baseNodeName (nodeData element)) in
  let callDataObj := [("count", JNum 500); ("select", JStr "(**)")] in
  if JS.strictEq baseName (JStr "sitePreferences")
  then getAllPreferences
  else
    (_callSetup <- getCallSetup baseName "getAll" callDataObj ;;
     _callResult <- makeCall _callSetup ;;
     data <- lift (read "data" _callResult) ;;
     if JS.truthy data && JS.isArray data
     then
       rows <- lift (filterM (keepRow baseName) (items data)) ;;
       nodes <- lift (mapM (typeRowNode baseName) rows) ;;
       ret (Some nodes)
     else ret None)%async.

(** [displayTextMap] of [getObjectDefinitionChildren] *)
Definition displayTextMap : list (string * string) :=
  [ ("objectAttributeDefinitions", "Attribute Definitions");
    ("objectAttributeGroups", "Attribute Groups") ].

(** [getObjectDefinitionChildren] *)
Definition getObjectDefinitionChildren (element : MetadataNode)
  : outcome (list MetadataNode) :=
  match objectTypeDefinition (nodeData element) with
  | None => Thrown "TypeError: Cannot read property 'attributeDefinitionCount'"
  | Some otd =>
      Returned
        (map (fun ctnrName =>
                mkMetadataNode
                  (optStr (JS.lookup ctnrName displayTextMap))
                  (if JSString.includes "customObjectDefinitions"
                                        (parentId (nodeData element))
                   then TreeItemCollapsibleState.None
                   else TreeItemCollapsibleState.Collapsed)
                  (withDisplayDescription
                     (JStr (if String.eqb ctnrName "objectAttributeDefinitions"
                            then JSString.ofZ (attributeDefinitionCount otd)
                            else JSString.ofZ (attributeGroupCount otd)))
                     (withParentContainer ctnrName
                        (nodeDataOf (parentId (nodeData element) ++ "." ++
                                     objectType otd)))))
             (map fst displayTextMap))
  end.

(** [valueType.indexOf('enum') > -1] on the member as the constructor
    left it. *)
Definition mentionsEnum (valueType : JSValue) : outcome bool :=
  match valueType with
  | JStr s => Returned (JSString.includes "enum" s)
  | JArr xs => Returned (existsb (JS.strictEq (JStr "enum")) xs)
  | _ => Thrown "TypeError: objAttrDef.valueType.indexOf is not a function"
  end.

Definition isPrimitive (v : JSValue) : bool :=
  String.eqb (JS.typeof v) "string"
  || String.eqb (JS.typeof v) "number"
  || String.eqb (JS.typeof v) "boolean".

Definition isValueDefinition (v : JSValue) : bool :=
  match v with
  | JObj cls _ => String.eqb cls "ObjectAttributeValueDefinition"
  | _ => false
  end.

(** The child made for one member of the attribute definition, or
    [None] where the callback returns nothing. *)
Definition memberNode (childParent : string) (objAttrDef : JS.Props)
           (key : string) : option MetadataNode :=
  let v := JS.getProp key objAttrDef in
  if isPrimitive v then
    Some (mkMetadataNode (JStr (key ++ " : " ++ JS.toString v))
            TreeItemCollapsibleState.None (nodeDataOf childParent))
  else if String.eqb (JS.typeof v) "object"
          && negb (JS.strictEq v JNull)
          && String.eqb (JS.typeof (JS.member "default" v)) "string" then
    Some (mkMetadataNode
            (JStr (key ++ " : " ++ JS.toString (JS.member "default" v)))
            TreeItemCollapsibleState.None (nodeDataOf childParent))
  else if isValueDefinition v then
    if negb (String.eqb (JS.typeof (JS.member "id" v)) "undefined") then
      Some (mkMetadataNode
              (JStr (key ++ ": " ++ JS.toString (JS.member "id" v)))
              TreeItemCollapsibleState.Collapsed
              (withObjectAttributeValueDefinition v (nodeDataOf childParent)))
    else
      Some (mkMetadataNode (JStr (key ++ ": (undefined)"))
              TreeItemCollapsibleState.None
              (withObjectAttributeValueDefinition v (nodeDataOf childParent)))
  else if JS.isArray v && JS.truthy (JS.member "length" v) then
    Some (mkMetadataNode (JStr "Value Definitions")
            TreeItemCollapsibleState.Collapsed
            (withObjectAttributeValueDefinitions v (nodeDataOf childParent)))
  else None.

(** [getAttributeDefinitionChildren] *)
Definition getAttributeDefinitionChildren (element : MetadataNode)
  : M (list (option MetadataNode)) :=
  match objectAttributeDefinition (nodeData element) with
  | None => raise "TypeError: Cannot read property 'valueType'"
  | Some own =>
      (isEnum <- lift (mentionsEnum (JS.getProp "valueType" own)) ;;
       objAttrDef <-
         (if isEnum : bool then
            attrAPIObj <- getExpandedAttribute element ;;
            ret (if JS.truthy attrAPIObj
                 then ObjectAttributeDefinition.new valueDefinitionFields
                                                    (propsOf attrAPIObj)
                 else own)
          else ret own) ;;
       ret (map (memberNode
                   (parentId (nodeData element) ++ "." ++
                    JS.toString (JS.getProp "id" own))
                   objAttrDef)
                (JS.keys objAttrDef)))%async
  end.

(** The requests of one kind in a log. *)
Definition isExpandedAttributeFetch (r : Request) : bool :=
  match r with
  | ReqGetExpandedAttribute _ => true
  | _ => false
  end.

Definition secondaryFetches (log : list Request) : nat :=
  List.length (filter isExpandedAttributeFetch log).

(** Which rows a category keeps. *)
Definition keptBy (system : bool) (row : JSValue) : bool :=
  if system
  then negb (JS.strictEq (JS.member "object_type" row) (JStr "CustomObject"))
  else JS.strictEq (JS.member "object_type" row) (JStr "CustomObject")
       && JS.truthy (JS.member "display_name" row).

(** The label a category gives a row it keeps. *)
Definition labelBy (system : bool) (row : JSValue) : JSValue :=
  if system
  then JS.member "object_type" row
  else JS.member "default" (JS.member "display_name" row).

Definition categoryName (system : bool) : string :=
  if system then "systemObjectDefinitions" else "customObjectDefinitions".

(** What a strategy hands to the tree: [None] for the [undefined] a
    promise resolves to when no branch returns, and [None] inside the
    list for an [undefined] entry of the array. *)
Definition Children : Type := option (list (option MetadataNode)).

Definition listed (nodes : list MetadataNode) : Children :=
  Some (map Some nodes).

(** [workspace.getConfiguration('extension.sfccmetadata').get(key)] *)
Variable workspaceConfig_get : string -> JSValue.

(** A node of the first level of the tree. *)
Definition categoryNode (label baseName : string) : MetadataNode :=
  mkMetadataNode (JStr label) TreeItemCollapsibleState.Collapsed
    (withBaseNodeName baseName (nodeDataOf "root")).

(** [getRootChildren] *)
Definition getRootChildren : list MetadataNode :=
  let showSystemObjects :=
    JS.truthy (workspaceConfig_get "explorer.systemobjects") in
  let showCustomObjects :=
    JS.truthy (workspaceConfig_get "explorer.customobjects") in
  let showPreferences :=
    JS.truthy (workspaceConfig_get "explorer.sitepreferences") in
  ((if showSystemObjects
    then [categoryNode "System Object Definitions" "systemObjectDefinitions"]
    else [])
   ++ (if showCustomObjects
       then [categoryNode "Custom Object Definitions" "customObjectDefinitions"]
       else [])
   ++ (if showPreferences
       then [categoryNode "Site Preferences" "sitePreferences"]
       else []))%list.

(** The leaf made for one member of a value definition. *)
Definition valueMemberNode (parent : string) (entry : string * JSValue)
  : outcome MetadataNode :=
  let key := fst entry in
  let value := snd entry in
  if isPrimitive value then
    Returned (mkMetadataNode (JStr (key ++ ": " ++ JS.toString value))
                TreeItemCollapsibleState.None (nodeDataOf parent))
  else
    (await shown <- read "default" value;
     Returned (mkMetadataNode (JStr (key ++ ": " ++ JS.toString shown))
                 TreeItemCollapsibleState.None (nodeDataOf parent)))%outcome.

(** [getAttributeValueDefinitionChildren] *)
Definition getAttributeValueDefinitionChildren (element : MetadataNode)
  : outcome (list MetadataNode) :=
  match objectAttributeValueDefinition (nodeData element) with
  | None => Thrown "TypeError: Cannot convert undefined or null to object"
  | Some definition =>
      if JS.isNullish definition
      then Thrown "TypeError: Cannot convert undefined or null to object"
      else mapM (valueMemberNode (parentId (nodeData element) ++
                                  "objectAttributeValueDefinition"))
                (JS.entries definition)
  end.

(** [getStringListChildren] *)
Definition getStringListChildren (element : MetadataNode)
  : outcome (list MetadataNode) :=
  match stringList (nodeData element) with
  | None => Thrown "TypeError: Cannot read property 'map'"
  | Some strings =>
      Returned
        (map (fun str =>
                mkMetadataNode str TreeItemCollapsibleState.None
                  (withGroupAttribute
                     (JS.toString
                        (optStr (JSString.pop_value
                                   (JSString.split "." (parentId (nodeData element))))))
                     (nodeDataOf (parentId (nodeData element) ++ "." ++
                                  JS.toString (name element)))))
             strings)
  end.

(** The members the absent constructor of [MetadataNode] derives
    ([nodeType], [rootTree]), the constant [MetadataNode.ROOT_NODES.sitePrefs]
    and the strategies of the helpers that are not part of the sources
    at hand.  [getAttributeGroupChildren] is kept abstract as well: its
    test [attributeDefinitionsCount > 0] compares an untyped member as a
    floating-point number. *)
Variable nodeTypeOf : MetadataNode -> string.
Variable rootTreeOf : MetadataNode -> string.
Variable ROOT_NODES_sitePrefs : string.
Variable spHelper_getSitePreferenceSites : MetadataNode -> M Children.
Variable spHelper_getSitePreference : MetadataNode -> M Children.
Variable spHelper_getPreferencesInGroup : MetadataNode -> M Children.
Variable ocapiHelper_getValueDefinitionNodes : MetadataNode -> M Children.
Variable getAttributeGroupChildren : MetadataNode -> M Children.

(** [getChildren].  Every strategy is asynchronous and its promise is
    returned without [await], so the [catch] of [getChildren] never sees
    a rejection: the strategy's outcome is the outcome. *)
Definition getChildren (element : option MetadataNode) : M Children :=
  match element with
  | None => ret (listed getRootChildren)
  | Some element =>
      if expandable element then
        let nodeType := nodeTypeOf element in
        let root := rootTreeOf element in
        if String.eqb root ROOT_NODES_sitePrefs
           && String.eqb nodeType "objectAttributeDefinition"
        then spHelper_getSitePreferenceSites element
        else if String.eqb nodeType "site"
        then spHelper_getSitePreference element
        else if String.eqb nodeType "baseNodeName"
        then bind (getBaseNodeChildren element)
                  (fun found => ret (option_map (map Some) found))
        else if String.eqb nodeType "objectTypeDefinition"
        then bind (lift (getObjectDefinitionChildren element))
                  (fun nodes => ret (listed nodes))
        else if String.eqb nodeType "parentContainer"
        then bind (getAttributeOrGroupContainerChildren element)
                  (fun nodes => ret (listed nodes))
        else if String.eqb nodeType "objectAttributeDefinition"
        then bind (getAttributeDefinitionChildren element)
                  (fun nodes => ret (Some nodes))
        else if String.eqb nodeType "objectAttributeGroup"
        then if String.eqb (parentId (nodeData element)) "sitePreferences"
             then spHelper_getPreferencesInGroup element
             else getAttributeGroupChildren element
        else if String.eqb nodeType "objectAttributeValueDefinition"
        then bind (lift (getAttributeValueDefinitionChildren element))
                  (fun nodes => ret (listed nodes))
        else if String.eqb nodeType "objectAttributeValueDefinitions"
        then ocapiHelper_getValueDefinitionNodes element
        else if String.eqb nodeType "stringList"
        then bind (lift (getStringListChildren element))
                  (fun nodes => ret (listed nodes))
        else ret None
      else ret (Some [])
  end.

End Provider.

End MetadataViewProvider.

(* ====================================================================== *)
(** ** The first tree provider (components/MetadataViewProvider.ts) *)
(* ====================================================================== *)

Module ComponentsProvider.

Import OCAPIService.

(** A node as this provider constructs it: [new MetadataNode(name,
    collapsibleState)], without node data. *)
Record Item : Type := mkItem {
  label : JSValue;
  state : TreeItemCollapsibleState.t
}.

(** The label of one row of the response. *)
Definition rowName (sysObj : JSValue) : outcome JSValue :=
  (await row_type <- MetadataViewProvider.read "object_type" sysObj;
   if JS.strictEq row_type (JStr "CustomObject")
      && negb (String.eqb (JS.typeof (JS.member "display_name" sysObj))
                          "undefined")
   then
     (await shown <- MetadataViewProvider.read "default"
                       (JS.member "display_name" sysObj);
      Returned (JStr (JS.toString shown ++ " (CustomObject)")))
   else Returned row_type)%outcome.

Definition rowItem (sysObj : JSValue) : outcome Item :=
  (await rowLabel <- rowName sysObj;
   Returned (mkItem rowLabel TreeItemCollapsibleState.None))%outcome.

(** [getChildren]: without an element, the system object definitions
    are asked of a service of its own, built on the spot; an exception
    in the [try] block rejects the promise with the same error.  With
    an element nothing is returned. *)
Definition getChildren (cfg : ApiConfig.Config) (discovered : outcome IDWConfig)
           (element : option MetadataNode) : outcome (option (list Item)) :=
  match element with
  | None =>
      let service := newService in
      match getCallSetup cfg discovered service "systemObjectDefinitions"
                         "getAll" [("select", JStr "(**)")] with
      | (Thrown e, _) => Thrown e
      | (Returned _callSetup, service') =>
          let _callResult := makeCall service' _callSetup in
          (await data <- MetadataViewProvider.read "data" _callResult;
           if JS.truthy data && JS.isArray data
           then
             (await nodes <- mapM rowItem (MetadataViewProvider.items data);
              Returned (Some nodes))
           else Returned None)%outcome
      end
  | Some _ => Returned None
  end.

End ComponentsProvider.

(* ====================================================================== *)
(** ** The export serialiser (XMLHandler) *)
(* ====================================================================== *)

Module XMLHandler.

(** An element as the XML builder holds it: attributes in the order
    they were set, an optional text and the child elements in the order
    [ele] created them. *)
Inductive XMLNode : Type :=
| Element (tag : string) (attributes : list (string * string))
          (text : option string) (children : list XMLNode).

Definition tagOf (n : XMLNode) : string :=
  match n with Element t _ _ _ => t end.

Definition attributesOf (n : XMLNode) : list (string * string) :=
  match n with Element _ a _ _ => a end.

Definition textOf (n : XMLNode) : option string :=
  match n with Element _ _ x _ => x end.

Definition childrenOf (n : XMLNode) : list XMLNode :=
  match n with Element _ _ _ cs => cs end.

(** The element itself and everything below it, in document order. *)
Fixpoint elements (n : XMLNode) : list XMLNode :=
  match n with
  | Element _ _ _ cs =>
      n :: (fix below (l : list XMLNode) : list XMLNode :=
              match l with
              | [] => []
              | c :: rest => (elements c ++ below rest)%list
              end) cs
  end.

Definition hasElement (t : string) (n : XMLNode) : bool :=
  existsb (fun e => String.eqb (tagOf e) t) (elements n).

(** A string, number or boolean, as the builder receives it for a
    text. *)
Inductive Primitive : Type :=
| PStr (s : string)
| PNum (n : Z)
| PBool (b : bool).

Definition primitiveText (p : Primitive) : string :=
  match p with
  | PStr s => s
  | PNum n => JSString.ofZ n
  | PBool true => "true"
  | PBool false => "false"
  end.

Definition primitiveTruthy (p : Primitive) : bool :=
  match p with
  | PStr s => negb (String.eqb s "")
  | PNum n => negb (Z.eqb n 0)
  | PBool b => b
  end.

(** Modelled from the spec: [ILocalizedString] and
    [ObjectAttributeValueDefinition] are declared in files that are not
    part of the sources at hand.  A localized string has a [default]
    entry; a value definition has a value and a localized display value,
    either of which may be absent ([None] for [undefined]). *)
Record ILocalizedString : Type := mkLocalized {
  default : string
}.

Record ObjectAttributeValueDefinition : Type := mkValueDefinition {
  displayValue : option ILocalizedString;
  value : option Primitive
}.

(** The members of [ObjectAttributeDefinition] that the serialiser
    reads, with the types the class declares for them. *)
Record ObjectAttributeDefinition : Type := mkAttributeDefinition {
  defaultValue : option ObjectAttributeValueDefinition;
  description : ILocalizedString;
  displayName : ILocalizedString;
  externallyDefined : bool;
  externallyManaged : bool;
  id : string;
  localizable : bool;
  mandatory : bool;
  minLength : Z;
  orderRequired : bool;
  siteSpecific : bool;
  valueDefinitions : list ObjectAttributeValueDefinition;
  valueType : string;
  visible : bool
}.

(** Modelled from the spec: the class [ObjectAttributeGroup] is not part
    of the sources at hand.  The members are the ones the serialiser
    reads.  The display name is handed to the builder as the text of an
    element: it is modelled where it is a string, or absent ([None] for
    [undefined]); what the builder makes of any other value is not
    modelled. *)
Record ObjectAttributeGroup : Type := mkAttributeGroup {
  group_id : string;
  group_displayName : option string;
  attributeDefinitions : list ObjectAttributeDefinition
}.

(** Modelled from the spec: the members of [MetadataNode] that the
    serialiser reads: the lineage string, the variant tag and the
    document the node carries. *)
Record MetadataNode : Type := mkNode {
  parentId : string;
  nodeType : string;
  objectAttributeDefinition : option ObjectAttributeDefinition;
  objectAttributeGroup : option ObjectAttributeGroup
}.

Definition NAMESPACE_STRING : string :=
  "http://www.demandware.com/xml/impex/metadata/2006-10-31".

Definition boolText (b : bool) : string := primitiveText (PBool b).

Definition xDefault : list (string * string) := [("xml:lang", "x-default")].

(** [parent.ele(name, text)] with a primitive for a text. *)
Definition textElement (t : string) (content : string) : XMLNode :=
  Element t [] (Some content) [].

(** [attrDefNode.ele('default-value', attribute.defaultValue.value)]:
    without a value the element is created empty. *)
Definition defaultValueElement (d : ObjectAttributeValueDefinition) : XMLNode :=
  Element "default-value" [] (option_map primitiveText (value d)) [].

(** The [value-definition] made for one entry, if it has both a display
    value and a value. *)
Definition valueDefinitionElement (valDef : ObjectAttributeValueDefinition)
  : list XMLNode :=
  match displayValue valDef, value valDef with
  | Some shown, Some v =>
      if primitiveTruthy v
      then [Element "value-definition" [] None
              [Element "display" xDefault (Some (default shown)) [];
               textElement "value" (primitiveText v)]]
      else []
  | _, _ => []
  end.

(** The children that depend on the value type. *)
Definition valueTypeChildren (attribute : ObjectAttributeDefinition)
  : list XMLNode :=
  let valType := JSString.toLocaleLowerCase (valueType attribute) in
  if String.eqb valType "string"
  then [textElement "min-length" (JSString.ofZ (minLength attribute))]
  else if JSString.includes "enum" valType
          && negb (Nat.eqb (List.length (valueDefinitions attribute)) 0)
  then [Element "value-definitions" [] None
          (flat_map valueDefinitionElement (valueDefinitions attribute))]
  else [].

(** The children that depend on the owning object type. *)
Definition objectTypeChildren (systemObjectType : string)
           (attribute : ObjectAttributeDefinition) : list XMLNode :=
  if String.eqb systemObjectType "Product"
  then
    ([textElement "localizable-flag" (boolText (localizable attribute));
      textElement "site-specific-flag" (boolText (siteSpecific attribute));
      textElement "visible-flag" (boolText (visible attribute));
      textElement "order-required-flag" (boolText (orderRequired attribute));
      textElement "externally-defined-flag"
                  (boolText (externallyDefined attribute))]
     ++ match defaultValue attribute with
        | Some d => [defaultValueElement d]
        | None => []
        end)%list
  else if String.eqb systemObjectType "SitePreferences"
  then match defaultValue attribute with
       | Some d => [defaultValueElement d]
       | None => []
       end
  else [].

(** [getObjectAttributeXML]: the [type-extension] element it hangs
    under [rootNode]. *)
Definition getObjectAttributeXML (systemObjectType : string)
           (attribute : ObjectAttributeDefinition) : XMLNode :=
  Element "type-extension" [("type-id", systemObjectType)] None
    [Element "custom-attribute-definitions" [] None
       [Element "attribute-definition" [("attribute-id", id attribute)] None
          ([Element "display-name" xDefault
              (Some (default (displayName attribute))) [];
            Element "description" xDefault
              (Some (default (description attribute))) [];
            textElement "type" (valueType attribute);
            textElement "mandatory-flag" (boolText (mandatory attribute));
            textElement "externally-managed-flag"
                        (boolText (externallyManaged attribute))]
           ++ valueTypeChildren attribute
           ++ objectTypeChildren systemObjectType attribute)%list]].

(** [getObjectGroupXML]: the [type-extension] element it hangs under
    [rootNode]. *)
Definition getObjectGroupXML (systemObjectType : string)
           (group : ObjectAttributeGroup) : XMLNode :=
  Element "type-extension" [("type-id", systemObjectType)] None
    [Element "group-definitions" [] None
       [Element "attribute-group" [("group-id", group_id group)] None
          (Element "display-name" xDefault (group_displayName group) []
           :: map (fun attr => Element "attribute"
                                 [("attribute-id", id attr)] None [])
                  (attributeDefinitions group))]].

(** [metaNode.parentId.split('.').pop()] *)
Definition owningObjectType (metaNode : MetadataNode) : string :=
  match JSString.pop_value (JSString.split "." (parentId metaNode)) with
  | Some segment => segment
  | None => "undefined"
  end.

(** [getXMLFromNode]: the document whose text is shown in the editor.
    A node that carries no such document raises on the first member
    read from it. *)
Definition getXMLFromNode (metaNode : MetadataNode) : outcome XMLNode :=
  let systemObjectType := owningObjectType metaNode in
  let root kids := Element "metadata" [("xmlns", NAMESPACE_STRING)] None kids in
  if String.eqb (nodeType metaNode) "objectAttributeDefinition" then
    match objectAttributeDefinition metaNode with
    | Some attribute =>
        Returned (root [getObjectAttributeXML systemObjectType attribute])
    | None => Thrown "TypeError: Cannot read property 'valueType'"
    end
  else if String.eqb (nodeType metaNode) "objectAttributeGroup" then
    match objectAttributeGroup metaNode with
    | Some group =>
        Returned (root [getObjectGroupXML systemObjectType group])
    | None => Thrown "TypeError: Cannot read property 'id'"
    end
  else Returned (root []).

End XMLHandler.

(* ====================================================================== *)
(** ** Sample inputs *)
(* ====================================================================== *)

Module Samples.

Import OCAPIService.

(** A connection read from a dw.json file. *)
Definition connection : IDWConfig :=
  mkDWConfig "https://host.example/s/-" true "secret" "admin".

(** A connection lookup that found no dw.json file. *)
Definition noConnection : IDWConfig :=
  mkDWConfig "" false "" "".

Definition selectParam : ApiConfig.Param :=
  ApiConfig.mkParam "select" "string" "QUERY_PARAMETER".

(** A catalog whose only call declares the single query parameter
    [select]. *)
Definition selectOnlyConfig : ApiConfig.Config :=
  ApiConfig.mkConfig "" ""
    [("systemObjectDefinitions",
      ApiConfig.mkResource "data/v20_4"
        [("getAll",
          ApiConfig.mkCall "BM_USER" ApiConfig.jsonHeaders "GET"
            [selectParam] "system_object_definitions")])]
    "v20_4".

Definition selectAll : JS.Props := [("select", JStr "(**)")].

Definition knownBase : string :=
  "https://host.example/s/-/dw/data/v20_4/system_object_definitions".

(** Modelled from the spec: the class [ObjectAttributeValueDefinition]
    is not part of the sources at hand.  The spec gives it a value and
    a localized display value; the serialiser reads them as [value] and
    [displayValue], and the tree provider reads [id]. *)
Definition valueDefinitionFields (raw : JSValue) : JS.Props :=
  [ ("displayValue", JS.member "display_value" raw);
    ("id", JS.member "id" raw);
    ("value", JS.member "value" raw) ].

(** The two rows of a [getAttributes] response. *)
Definition rowA1 : JSValue :=
  JObj "Object" [("id", JStr "a1"); ("value_type", JStr "string")].

Definition rowA2 : JSValue :=
  JObj "Object" [("id", JStr "a2"); ("value_type", JStr "enum_of_int")].

Definition attributesResponse : JSValue :=
  JObj "Object" [("data", JArr [rowA1; rowA2])].

(** The nodes the "Attribute Definitions" container makes for them. *)
Definition a1Node : MetadataNode :=
  mkMetadataNode (JStr "a1") TreeItemCollapsibleState.Collapsed
    (withDisplayDescription (JStr "")
       (withObjectAttributeDefinition
          (ObjectAttributeDefinition.new valueDefinitionFields
             [("id", JStr "a1"); ("value_type", JStr "string")])
          (nodeDataOf "root.systemObjectDefinitions.Product.Product"))).

Definition a2Node : MetadataNode :=
  mkMetadataNode (JStr "a2") TreeItemCollapsibleState.Collapsed
    (withDisplayDescription (JStr "")
       (withObjectAttributeDefinition
          (ObjectAttributeDefinition.new valueDefinitionFields
             [("id", JStr "a2"); ("value_type", JStr "enum_of_int")])
          (nodeDataOf "root.systemObjectDefinitions.Product.Product"))).

(** The "Attribute Definitions" container of [Product]. *)
Definition definitionsContainer : MetadataNode :=
  mkMetadataNode (JStr "Attribute Definitions")
    TreeItemCollapsibleState.Collapsed
    (withDisplayDescription (JStr "412")
       (withParentContainer "objectAttributeDefinitions"
          (nodeDataOf "root.systemObjectDefinitions.Product"))).

(** The expanded attribute the helper fetches for [a2]. *)
Definition expandedA2 : JSValue :=
  JObj "Object"
    [("id", JStr "a2"); ("value_type", JStr "enum_of_int");
     ("value_definitions",
      JArr [JObj "Object" [("id", JStr "1"); ("value", JNum 1)];
            JObj "Object" [("id", JStr "2"); ("value", JNum 2)]])].

(** A wire document whose display name has no default locale. *)
Definition germanOnly : JS.Props :=
  [("id", JStr "color");
   ("display_name", JObj "Object" [("de", JStr "Farbe")]);
   ("value_type", JStr "string")].

(** A wire document whose minimal length is given as 0. *)
Definition zeroLength : JS.Props :=
  [("id", JStr "size");
   ("min_length", JNum 0);
   ("value_type", JStr "string")].

(** A wire document with truthy values for mapped fields. *)
Definition truthyFields : JS.Props :=
  [("id", JStr "size");
   ("display_name", JObj "Object" [("default", JStr "Size")]);
   ("min_length", JNum 2);
   ("value_type", JStr "string")].

(** [{ count: 0 }] *)
Definition emptyResponse : JSValue :=
  JObj "Object" [("count", JNum 0)].

(** [{ error: true, fault: {...} }] *)
Definition faultResponse : JSValue :=
  JObj "Object" [("error", JBool true);
                 ("fault", JObj "Object" [("type", JStr "NotFoundException")])].

Definition someSetup : ICallSetup :=
  withEndpoint "https://host.example/s/-/dw/data/v20_4/x" initialSetup.

Definition productType : ObjectTypeDefinition :=
  mkObjectTypeDefinition "Product" 412 9.

Definition customType : ObjectTypeDefinition :=
  mkObjectTypeDefinition "StoreEvent" 7 0.

(** An [objectTypeDefinition] node under "System Object Definitions". *)
Definition productNode : MetadataNode :=
  mkMetadataNode (JStr "Product") TreeItemCollapsibleState.Collapsed
    (withDisplayDescription (JStr " ")
       (withObjectTypeDefinition productType
          (nodeDataOf "root.systemObjectDefinitions"))).

(** An [objectTypeDefinition] node under "Custom Object Definitions". *)
Definition customNode : MetadataNode :=
  mkMetadataNode (JStr "Store Event") TreeItemCollapsibleState.Collapsed
    (withDisplayDescription (JStr " ")
       (withObjectTypeDefinition customType
          (nodeDataOf "root.customObjectDefinitions"))).

(** The "Attribute Groups" container of [Product]. *)
Definition groupsContainer : MetadataNode :=
  mkMetadataNode (JStr "Attribute Groups") TreeItemCollapsibleState.Collapsed
    (withDisplayDescription (JStr "9")
       (withParentContainer "objectAttributeGroups"
          (nodeDataOf "root.systemObjectDefinitions.Product"))).

(** The "System Object Definitions" category node. *)
Definition systemCategory : MetadataNode :=
  mkMetadataNode (JStr "System Object Definitions")
    TreeItemCollapsibleState.Collapsed
    (withBaseNodeName "systemObjectDefinitions" (nodeDataOf "root")).

(** Collaborators that answer every request the same way. *)
Definition anySetup (resource : JSValue) (call : string) (callData : JS.Props)
  : outcome ICallSetup :=
  Returned someSetup.

Definition respondWith (response : JSValue) (setup : ICallSetup)
  : outcome JSValue :=
  Returned response.

Definition expandedAttribute (element : MetadataNode) : outcome JSValue :=
  Returned expandedA2.

(** Modelled from the spec: the classes [ObjectAttributeGroup] and
    [ObjectTypeDefinition] are not part of the sources at hand.  A group
    keeps the fields of its wire document; an object type definition
    keeps the object type name and the two counts. *)
Definition newObjectAttributeGroup (raw : JSValue) : JSValue :=
  match raw with
  | JObj _ props => JObj "ObjectAttributeGroup" props
  | _ => JObj "ObjectAttributeGroup" []
  end.

Definition countOf (v : JSValue) : Z :=
  match v with
  | JNum n => n
  | _ => 0%Z
  end.

Definition newObjectTypeDefinition (raw : JSValue) : ObjectTypeDefinition :=
  mkObjectTypeDefinition
    (JS.toString (JS.or (JS.member "object_type" raw) (JStr "")))
    (countOf (JS.member "attribute_definition_count" raw))
    (countOf (JS.member "attribute_group_count" raw)).

(** The attribute to export: a mandatory string attribute of [Product]. *)
Definition myAttr : XMLHandler.ObjectAttributeDefinition :=
  XMLHandler.mkAttributeDefinition
    None (XMLHandler.mkLocalized "") (XMLHandler.mkLocalized "My attribute")
    false false "myAttr" false true (-1) false false [] "string" false.

Definition myAttrNode : XMLHandler.MetadataNode :=
  XMLHandler.mkNode "root.systemObjectDefinitions.Product"
                    "objectAttributeDefinition" (Some myAttr) None.

(** A catalog with one call that declares no parameters. *)
Definition pingConfig : ApiConfig.Config :=
  ApiConfig.mkConfig "" ""
    [("sites",
      ApiConfig.mkResource "data/v20_4"
        [("getAll",
          ApiConfig.mkCall "BM_USER" ApiConfig.jsonHeaders "PUT" [] "sites")])]
    "v20_4".

(** [{ count: 0 }] as a data bag for the catalog call [getAll]. *)
Definition zeroCount : JS.Props :=
  [("select", JStr "(**)"); ("count", JNum 0)].

Definition countParam : ApiConfig.Param :=
  ApiConfig.mkParam "count" "number" "QUERY_PARAMETER".

(** A response with three rows, one of them a custom object. *)
Definition typesResponse : JSValue :=
  JObj "Object"
    [("data",
      JArr [JObj "Object" [("object_type", JStr "Product")];
            JObj "Object" [("object_type", JStr "CustomObject");
                           ("display_name",
                            JObj "Object" [("default", JStr "Store Event")])];
            JObj "Object" [("object_type", JStr "Order")]])].

(** A response whose second row is [null]. *)
Definition brokenRowsResponse : JSValue :=
  JObj "Object" [("data", JArr [rowA1; JNull; rowA2])].

(** The "Custom Object Definitions" category node. *)
Definition customCategory : MetadataNode :=
  mkMetadataNode (JStr "Custom Object Definitions")
    TreeItemCollapsibleState.Collapsed
    (withBaseNodeName "customObjectDefinitions" (nodeDataOf "root")).

(** The "Attributes" node of the attribute group [Pricing] of [Product]. *)
Definition attributesOfGroup : MetadataNode :=
  mkMetadataNode (JStr "Attributes") TreeItemCollapsibleState.Collapsed
    (withDisplayDescription (JStr "2")
       (withStringList [JStr "price"; JStr "taxClass"]
          (nodeDataOf "root.systemObjectDefinitions.Product.Product.Pricing"))).

(** A value-definition node whose document has a [null] member. *)
Definition valueNode (members : JS.Props) : MetadataNode :=
  mkMetadataNode (JStr "defaultValue: 1") TreeItemCollapsibleState.Collapsed
    (withObjectAttributeValueDefinition
       (JObj "ObjectAttributeValueDefinition" members)
       (nodeDataOf "root.systemObjectDefinitions.Product.Product.size")).

Definition completeValue : JS.Props :=
  [("displayValue", JObj "Object" [("default", JStr "Small")]);
   ("id", JStr "1");
   ("value", JNum 1)].

Definition incompleteValue : JS.Props :=
  [("displayValue", JNull); ("id", JStr "1"); ("value", JNum 1)].

(** Settings with the custom objects switched off. *)
Definition settings (key : string) : JSValue :=
  if String.eqb key "explorer.customobjects" then JBool false else JBool true.

(** An enumeration attribute of [Order] with three value definitions,
    one of them without a display value. *)
Definition sizeAttr : XMLHandler.ObjectAttributeDefinition :=
  XMLHandler.mkAttributeDefinition
    None (XMLHandler.mkLocalized "") (XMLHandler.mkLocalized "Size")
    false false "size" false false (-1) false false
    [XMLHandler.mkValueDefinition (Some (XMLHandler.mkLocalized "Small"))
                                  (Some (XMLHandler.PStr "S"));
     XMLHandler.mkValueDefinition None (Some (XMLHandler.PStr "M"));
     XMLHandler.mkValueDefinition (Some (XMLHandler.mkLocalized "Large"))
                                  (Some (XMLHandler.PStr "L"))]
    "Enum_Of_String" false.

Definition sizeAttrNode : XMLHandler.MetadataNode :=
  XMLHandler.mkNode "root.systemObjectDefinitions.Order.Order"
                    "objectAttributeDefinition" (Some sizeAttr) None.

Definition pricingGroup : XMLHandler.ObjectAttributeGroup :=
  XMLHandler.mkAttributeGroup "Pricing" (Some "Pricing") [myAttr; sizeAttr].

Definition pricingGroupNode : XMLHandler.MetadataNode :=
  XMLHandler.mkNode "root.systemObjectDefinitions.Product.Product"
                    "objectAttributeGroup" None (Some pricingGroup).

(** A node of a type that has no export. *)
Definition valueListNode : XMLHandler.MetadataNode :=
  XMLHandler.mkNode "root.systemObjectDefinitions.Product.Product.size"
                    "objectAttributeValueDefinitions" None None.

(** A setup that came back flagged. *)
Definition flaggedSetup : ICallSetup := flagError initialSetup.

Definition flaggedAnswer (resource : JSValue) (call : string)
           (callData : JS.Props) : outcome ICallSetup :=
  Returned flaggedSetup.

(** A call that fails. *)
Definition rejectWith (e : string) (setup : ICallSetup) : outcome JSValue :=
  Thrown e.

(** Modelled from the spec: the members [nodeType] and [rootTree] that
    the constructor of [MetadataNode] derives.  The variant tag is named
    after the member of the node data that carries the payload; the
    root tree is the second segment of the lineage. *)
Definition nodeTypeOf (n : MetadataNode) : string :=
  let d := nodeData n in
  match baseNodeName d, objectTypeDefinition d, parentContainer d,
        objectAttributeDefinition d, stringList d with
  | Some _, _, _, _, _ => "baseNodeName"
  | _, Some _, _, _, _ => "objectTypeDefinition"
  | _, _, Some _, _, _ => "parentContainer"
  | _, _, _, Some _, _ => "objectAttributeDefinition"
  | _, _, _, _, Some _ => "stringList"
  | _, _, _, _, _ => ""
  end.

Definition rootTreeOf (n : MetadataNode) : string :=
  match JSString.split "." (parentId (nodeData n)) with
  | _ :: tree :: _ => tree
  | _ => ""
  end.

(** A strategy of a helper that is not part of the sources at hand. *)
Definition absentStrategy (element : MetadataNode)
  : MetadataViewProvider.M MetadataViewProvider.Children :=
  MetadataViewProvider.ret None.

End Samples.

(* ====================================================================== *)
(** * Properties *)
(* ====================================================================== *)

(** ** Strings and values *)

Lemma split_aux_nonempty (sep : ascii) (s acc : string) :
  JSString.split_aux sep acc s <> [].
Proof.
  revert acc; induction s as [|c rest IH]; intro acc; simpl.
  - discriminate.
  - destruct (Ascii.eqb c sep); [discriminate | apply IH].
Qed.

(** [split] always yields at least one segment, so [pop] finds one. *)
Lemma pop_split_defined (sep : ascii) (s : string) :
  exists segment, JSString.pop_value (JSString.split sep s) = Some segment.
Proof.
  unfold JSString.pop_value, JSString.split.
  destruct (rev (JSString.split_aux sep "" s)) as [|x xs] eqn:E.
  - apply (f_equal (@rev string)) in E. rewrite rev_involutive in E.
    simpl in E. now apply split_aux_nonempty in E.
  - now exists x.
Qed.

Lemma append_assoc (a b c : string) : (a ++ b) ++ c = a ++ (b ++ c).
Proof. induction a as [|x a IH]; simpl; [reflexivity | now rewrite IH]. Qed.

Lemma getProp_setProp_same (k : string) (v : JSValue) (ps : JS.Props) :
  JS.getProp k (JS.setProp k v ps) = v.
Proof.
  unfold JS.getProp.
  induction ps as [|[k' v'] rest IH]; simpl.
  - now rewrite String.eqb_refl.
  - destruct (String.eqb k k') eqn:E; simpl.
    + now rewrite String.eqb_refl.
    + now rewrite E.
Qed.

Lemma getProp_setProp_other (k k' : string) (v : JSValue) (ps : JS.Props) :
  k <> k' -> JS.getProp k (JS.setProp k' v ps) = JS.getProp k ps.
Proof.
  intro Hne. unfold JS.getProp.
  induction ps as [|[k0 v0] rest IH]; simpl.
  - destruct (String.eqb_spec k k'); [contradiction | reflexivity].
  - destruct (String.eqb_spec k' k0) as [->|Hk0]; simpl.
    + destruct (String.eqb_spec k k0); [contradiction | reflexivity].
    + destruct (String.eqb_spec k k0); [reflexivity | exact IH].
Qed.

(** [a || b] is never falsy when [b] is truthy. *)
Lemma or_truthy (a b : JSValue) :
  JS.truthy b = true -> JS.truthy (JS.or a b) = true.
Proof.
  intro Hb. unfold JS.or. destruct (JS.truthy a) eqn:E; assumption.
Qed.

Lemma truthy_not_nullish (v : JSValue) :
  JS.truthy v = true -> JS.isNullish v = false.
Proof. destruct v; simpl; congruence. Qed.

(** ** The call resolver *)

Section Resolver.

Import OCAPIService.

(** Every call of the catalog declares parameters, so resolving any of
    them reaches [callConfig.forEach] and raises, whatever the data
    bag and the connection. *)
Lemma catalog_call_raises (discovered : outcome IDWConfig) (this : Service)
      (call : string) (callConfig : ApiConfig.Call) (callData : JS.Props) :
  JS.lookup call (ApiConfig.availableCalls ApiConfig.systemObjectDefinitions)
    = Some callConfig ->
  fst (getCallSetup ApiConfig.apiConfig discovered this
                    "systemObjectDefinitions" call callData)
    = Thrown "TypeError: callConfig.forEach is not a function".
Proof.
  intro Hcall.
  assert (Hparams : ApiConfig.params callConfig <> []).
  { cbn in Hcall.
    repeat match type of Hcall with
           | (if ?c then _ else _) = _ =>
               destruct c; [injection Hcall as <-; discriminate|]
           end.
    discriminate. }
  unfold getCallSetup, resolveStructure.
  change (JS.lookup "systemObjectDefinitions"
            (ApiConfig.resources ApiConfig.apiConfig))
    with (Some ApiConfig.systemObjectDefinitions).
  cbv beta iota.
  change (ApiConfig.api ApiConfig.systemObjectDefinitions) with "data".
  change (negb ("data" =? "")) with true. cbv beta iota.
  rewrite Hcall.
  destruct (ApiConfig.params callConfig); [contradiction | reflexivity].
Qed.

(** The callback leaves the endpoint as it is for a path parameter
    that is supplied with the declared type: the placeholder stays. *)
Lemma paramCallback_path_keeps_endpoint
      (resourceName call : string) (callData : JS.Props)
      (param : ApiConfig.Param) (setupResult : ICallSetup) :
  ApiConfig.use param = "PATH_PARAMETER" ->
  JS.truthy (JS.getProp (ApiConfig.id param) callData) = true ->
  JS.typeof (JS.getProp (ApiConfig.id param) callData) = ApiConfig.type param ->
  paramCallback resourceName call callData param setupResult = setupResult.
Proof.
  intros Huse Htruthy Htype. unfold paramCallback.
  rewrite Htruthy, Htype, String.eqb_refl, Huse. simpl.
  now destruct (JSString.includes _ _).
Qed.

(** Driving the callback over the parameters of [get] with a well-typed
    data bag: no error is flagged, and the placeholder is still in the
    endpoint. *)
Lemma forEachParam_get_keeps_placeholder :
  let setupResult :=
    forEachParam
      (paramCallback "systemObjectDefinitions" "get"
                     [("objectType", JStr "Product")])
      [ApiConfig.mkParam "objectType" "string" "PATH_PARAMETER"]
      (withEndpoint "/dw/data/system_object_definitions/{objectType}"
                    initialSetup) in
  setupError setupResult = false
  /\ endpoint setupResult = "/dw/data/system_object_definitions/{objectType}"
  /\ JSString.includes "{" (endpoint setupResult) = true.
Proof. repeat split. Qed.

(** C1 (evaluation at the failing input).  Resolving the catalog call
    [systemObjectDefinitions.get] with the data bag
    [{ objectType: 'Product' }], which supplies the one required
    parameter with its declared type, does not return a setup result
    at all: the promise rejects with the TypeError raised by
    [callConfig.forEach]. *)
Theorem C1_getCallSetup_get_Product_rejects :
  fst (getCallSetup ApiConfig.apiConfig (Returned Samples.connection)
                    newService "systemObjectDefinitions" "get"
                    [("objectType", JStr "Product")])
  = Thrown "TypeError: callConfig.forEach is not a function".
Proof. reflexivity. Qed.

(** C2 (evaluation at the failing inputs).  Of the four failure modes
    only the unknown resource is reported as the claim says.  An
    unknown call name of a known resource is not reported at all
    ([setupError] stays false and the endpoint is completed); a
    missing required parameter makes the promise reject; a connection
    that is not ok sets [setupError] and leaves [setupErrMsg] empty. *)
Theorem C2_getCallSetup_failure_modes :
  fst (getCallSetup ApiConfig.apiConfig (Returned Samples.connection)
                    newService "systemObjectDefinitions" "noSuchCall" [])
    = Returned (withEndpoint "https://host.example/s/-/dw/data/" initialSetup)
  /\ fst (getCallSetup ApiConfig.apiConfig (Returned Samples.connection)
                       newService "systemObjectDefinitions" "get" [])
     = Thrown "TypeError: callConfig.forEach is not a function"
  /\ fst (getCallSetup ApiConfig.apiConfig (Returned Samples.noConnection)
                       newService "systemObjectDefinitions" "noSuchCall" [])
     = Returned (flagError (withEndpoint "/dw/data/" initialSetup))
  /\ setupErrMsg (flagError (withEndpoint "/dw/data/" initialSetup)) = ""
  /\ setupError (withEndpoint "https://host.example/s/-/dw/data/" initialSetup)
     = false.
Proof. repeat split. Qed.

(** The one failure mode that is reported as data. *)
Lemma getCallSetup_unknown_resource
      (cfg : ApiConfig.Config) (discovered : outcome IDWConfig)
      (this : Service) (resourceName call : string) (callData : JS.Props) :
  JS.hasOwnProperty resourceName (ApiConfig.resources cfg) = false ->
  exists r,
    fst (getCallSetup cfg discovered this resourceName call callData)
      = Returned r
    /\ setupError r = true
    /\ setupErrMsg r <> "".
Proof.
  unfold JS.hasOwnProperty, getCallSetup, resolveStructure.
  destruct (JS.lookup resourceName (ApiConfig.resources cfg)); [discriminate|].
  intros _. eexists. simpl. repeat split. discriminate.
Qed.

(** C3 (as amended).  The query-parameter step, run for the required
    parameter [select] with the value ["(**)"] on an endpoint that has
    no query string yet, appends [?select=(**)]: key and value go
    through [encodeURIComponent], which leaves the parentheses and the
    asterisks as they are.  No error is flagged. *)
Theorem C3_query_step_appends_select (resourceName call base : string) :
  JSString.includes "?" base = false ->
  let r := paramCallback resourceName call Samples.selectAll
                         Samples.selectParam
                         (withEndpoint base initialSetup) in
  endpoint r = base ++ "?select=(**)" /\ setupError r = false.
Proof.
  intro Hq. unfold paramCallback. simpl. rewrite Hq. simpl.
rewrite append_assoc. split; reflexivity.
Qed.

Lemma C3_query_step_appends_select_witness :
  JSString.includes "?" Samples.knownBase = false
  /\ endpoint (paramCallback "systemObjectDefinitions" "getAll"
                 Samples.selectAll Samples.selectParam
                 (withEndpoint Samples.knownBase initialSetup))
     = "https://host.example/s/-/dw/data/v20_4/system_object_definitions?select=(**)".
Proof.
  split.
  - reflexivity.
  - exact (proj1 (C3_query_step_appends_select
                    "systemObjectDefinitions" "getAll" Samples.knownBase
                    eq_refl)).
Defined.

(** C3 (counterexample).  On the claim's input the endpoint produced by
    the query-parameter step does not end with the percent-encoded
    form; and the resolver as a whole, asked for a call that declares
    exactly the one query parameter [select], returns no endpoint. *)
Lemma C3_counterexample :
  JSString.endsWith "system_object_definitions?select=%28%2A%2A%29"
    (endpoint (paramCallback "systemObjectDefinitions" "getAll"
                 Samples.selectAll Samples.selectParam
                 (withEndpoint Samples.knownBase initialSetup)))
    = false
  /\ didThrow (fst (getCallSetup Samples.selectOnlyConfig
                      (Returned Samples.connection) newService
                      "systemObjectDefinitions" "getAll" Samples.selectAll))
     = true.
Proof. split; reflexivity. Qed.

End Resolver.

(** ** The document model *)

Section Documents.

Import ObjectAttributeDefinition.

Lemma lookup_In {A : Type} (k : string) (v : A) (l : list (string * A)) :
  JS.lookup k l = Some v -> In (k, v) l.
Proof.
  induction l as [|[k' v'] rest IH]; simpl; [discriminate|].
  destruct (String.eqb_spec k k') as [->|Hne].
  - intros [= ->]. now left.
  - intro H. right. now apply IH.
Qed.

(** In an association list whose values are pairwise distinct, a value
    determines its key. *)
Lemma lookup_value_inj {A : Type} (l : list (string * A)) (k k' : string) (v : A) :
  NoDup (map snd l) ->
  JS.lookup k l = Some v -> JS.lookup k' l = Some v -> k = k'.
Proof.
  induction l as [|[k0 v0] rest IH]; simpl; [discriminate|].
  intros Hnd H1 H2. inversion Hnd as [|? ? Hnotin Hnd']; subst.
  destruct (String.eqb_spec k k0) as [->|Hk];
    destruct (String.eqb_spec k' k0) as [->|Hk'].
  - reflexivity.
  - injection H1 as ->. apply lookup_In in H2.
    exfalso. apply Hnotin. now apply (in_map snd) in H2.
  - injection H2 as ->. apply lookup_In in H1.
    exfalso. apply Hnotin. now apply (in_map snd) in H1.
  - now apply IH.
Qed.

Lemma MEMBER_MAP_wire_names_distinct : NoDup (map snd MEMBER_MAP).
Proof.
  simpl.
  repeat (constructor;
          [simpl; intro H;
           repeat (destruct H as [H|H]; [discriminate H|]); exact H|]).
  constructor.
Qed.

Lemma MEMBER_MAP_lookup (member wire : string) :
  In (member, wire) MEMBER_MAP -> JS.lookup member MEMBER_MAP = Some wire.
Proof.
  simpl. intro H.
  repeat (destruct H as [H|H]; [injection H as <- <-; reflexivity|]).
  contradiction.
Qed.

(** Going through a list of members, the wire field of a truthy mapped
    member ends up holding that member's value. *)
Lemma copyMember_fold (this : JS.Props) (member wire : string)
      (names : list string) (acc : JS.Props) :
  JS.lookup member MEMBER_MAP = Some wire ->
  JS.truthy (JS.getProp member this) = true ->
  In member names \/ JS.getProp wire acc = JS.getProp member this ->
  JS.getProp wire (fold_left (copyMember this) names acc)
  = JS.getProp member this.
Proof.
  intros Hmap Htruthy. revert acc.
  induction names as [|n rest IH]; intros acc Hor; simpl.
  - destruct Hor as [[]|H]; exact H.
  - apply IH. unfold copyMember.
    destruct (String.eqb_spec n member) as [->|Hne].
    + right. rewrite Hmap, Htruthy. apply getProp_setProp_same.
    + destruct Hor as [[Heq|Hin]|Hacc]; [congruence | now left |].
      right.
      destruct (JS.lookup n MEMBER_MAP) as [w|] eqn:Hn; [|exact Hacc].
      destruct (JS.truthy (JS.getProp n this)); [|exact Hacc].
      rewrite getProp_setProp_other; [exact Hacc|].
      intros ->. apply Hne.
      exact (lookup_value_inj MEMBER_MAP n member w
               MEMBER_MAP_wire_names_distinct Hn Hmap).
Qed.

(** What the constructor stores in a mapped member other than
    [defaultValue] when the wire field is truthy: the wire value. *)
Lemma new_keeps_truthy_mapped (vdf : JSValue -> JS.Props) (raw : JS.Props)
      (member wire : string) :
  In (member, wire) MEMBER_MAP ->
  member <> "defaultValue" ->
  JS.truthy (JS.getProp wire raw) = true ->
  JS.getProp member (new vdf raw) = JS.getProp wire raw
  /\ In member (JS.keys (new vdf raw)).
Proof.
  intros Hin Hne Htruthy. simpl in Hin.
  destruct Hin as [H|Hin]; [injection H as <- <-; contradiction|].
  repeat (destruct Hin as [H|Hin];
          [injection H as <- <-; split;
           [unfold JS.getProp at 1; simpl; unfold JS.or;
            rewrite Htruthy; reflexivity
           |simpl; tauto]|]).
  contradiction.
Qed.

(** With an empty [includedFields] and no [includeFields] argument, all
    members are gone through. *)
Lemma selectedMembers_unrestricted (this : JS.Props) :
  JS.getProp "includedFields" this = JArr [] ->
  selectedMembers this [] = Returned (JS.keys this).
Proof. intro H. unfold selectedMembers. now rewrite H. Qed.

(** C7 (as amended).  For every raw wire object whose construction
    leaves [includedFields] empty, [getDocument()] without a field
    restriction returns the JSON text of an object that holds, under its
    wire name, every field of [MEMBER_MAP] other than [default_value]
    whose value in the input was truthy, with that value unchanged; and
    where the input value of [field_height], [field_width] or
    [min_length] is falsy, the object holds -1 for it, the constructor's
    mark of a number that is not set. *)
Theorem C7_getDocument_keeps_truthy_mapped_fields
        (vdf : JSValue -> JS.Props) (raw : JS.Props) :
  JS.getProp "includedFields" (new vdf raw) = JArr [] ->
  exists doc,
    documentObj (new vdf raw) [] = Returned doc
    /\ getDocument (new vdf raw) []
       = Returned (JSON.stringify (JObj "Object" doc))
    /\ (forall member wire,
          In (member, wire) MEMBER_MAP ->
          member <> "defaultValue" ->
          JS.truthy (JS.getProp wire raw) = true ->
          JS.getProp wire doc = JS.getProp wire raw)
    /\ (forall wire,
          In wire ["field_height"; "field_width"; "min_length"] ->
          JS.truthy (JS.getProp wire raw) = false ->
          JS.getProp wire doc = JNum (-1)).
Proof.
  intro Hincl.
  exists (fold_left (copyMember (new vdf raw)) (JS.keys (new vdf raw)) []).
  unfold getDocument, documentObj.
  rewrite (selectedMembers_unrestricted _ Hincl).
  cbv beta iota delta [obind].
  split; [reflexivity|]. split; [reflexivity|]. split.
  - intros member wire Hin Hne Htruthy.
    destruct (new_keeps_truthy_mapped vdf raw member wire Hin Hne Htruthy)
      as [Hval Hkey].
    rewrite <- Hval. apply copyMember_fold.
    + now apply MEMBER_MAP_lookup.
    + now rewrite Hval.
    + now left.
  - intros wire Hwire Hfalsy.
    assert (Hmember : exists member,
               JS.lookup member MEMBER_MAP = Some wire
               /\ JS.getProp member (new vdf raw) = JNum (-1)
               /\ In member (JS.keys (new vdf raw))).
    { destruct Hwire as [<-|[<-|[<-|[]]]];
        [exists "fieldHeight" | exists "fieldWidth" | exists "minLength"];
        (split; [reflexivity|]); (split; [|simpl; tauto]);
        unfold JS.getProp at 1; simpl; unfold JS.or; rewrite Hfalsy;
        reflexivity. }
    destruct Hmember as [member [Hmap [Hval Hkey]]].
    rewrite <- Hval. apply copyMember_fold.
    + exact Hmap.
    + now rewrite Hval.
    + now left.
Qed.

Lemma C7_getDocument_keeps_truthy_mapped_fields_witness :
  JS.getProp "includedFields"
    (new Samples.valueDefinitionFields Samples.truthyFields) = JArr []
  /\ exists doc,
       documentObj (new Samples.valueDefinitionFields Samples.truthyFields) []
         = Returned doc
       /\ JS.getProp "min_length" doc = JNum 2
       /\ JS.getProp "field_height" doc = JNum (-1).
Proof.
  split; [reflexivity|].
  destruct (C7_getDocument_keeps_truthy_mapped_fields
              Samples.valueDefinitionFields Samples.truthyFields eq_refl)
    as [doc [Hdoc [_ [Hkeep Hdefault]]]].
  exists doc. split; [exact Hdoc|]. split.
  - apply (Hkeep "minLength" "min_length");
      [simpl; tauto | discriminate | reflexivity].
  - apply Hdefault; [simpl; tauto | reflexivity].
Defined.

(** C7 (counterexample).  A wire object with [min_length: 0], a field
    that [MEMBER_MAP] maps and that is present in the input: the
    constructor stores -1 for it, and -1 is what the object
    [getDocument] serialises holds under [min_length]. *)
Lemma C7_counterexample :
  exists doc,
    documentObj (new Samples.valueDefinitionFields Samples.zeroLength) []
      = Returned doc
    /\ JS.lookup "minLength" MEMBER_MAP = Some "min_length"
    /\ JS.lookup "min_length" Samples.zeroLength = Some (JNum 0)
    /\ JS.getProp "minLength"
         (new Samples.valueDefinitionFields Samples.zeroLength) = JNum (-1)
    /\ JS.lookup "min_length" doc = Some (JNum (-1)).
Proof. eexists. repeat split. Qed.

(** The mapped member [defaultValue] is always written: it holds the
    value-definition instance built from the wire field, not the wire
    field. *)
Lemma documentObj_default_value (vdf : JSValue -> JS.Props) (raw : JS.Props) :
  JS.getProp "includedFields" (new vdf raw) = JArr [] ->
  exists doc,
    documentObj (new vdf raw) [] = Returned doc
    /\ JS.getProp "default_value" doc
       = newValueDefinition vdf (JS.getProp "default_value" raw).
Proof.
  intro Hincl. eexists. unfold documentObj.
  rewrite (selectedMembers_unrestricted _ Hincl).
  cbv beta iota delta [obind].
  split; [reflexivity|].
  rewrite (copyMember_fold (new vdf raw) "defaultValue" "default_value");
    [reflexivity | reflexivity | reflexivity | left; simpl; tauto].
Qed.

(** C9 (as amended).  For every raw wire object, each localized-string
    member of the constructed document is the wire field itself when
    that field is truthy and [{ default: '' }] otherwise; so it is never
    [null] or [undefined], and the value used for an absent field has a
    [default] entry. *)
Theorem C9_localized_members_fall_back
        (vdf : JSValue -> JS.Props) (raw : JS.Props) :
  let this := new vdf raw in
  JS.getProp "description" this
    = (if JS.truthy (JS.getProp "description" raw)
       then JS.getProp "description" raw else emptyLocalized)
  /\ JS.getProp "displayName" this
     = (if JS.truthy (JS.getProp "display_name" raw)
        then JS.getProp "display_name" raw else emptyLocalized)
  /\ JS.getProp "unit" this
     = (if JS.truthy (JS.getProp "unit" raw)
        then JS.getProp "unit" raw else emptyLocalized)
  /\ JS.isNullish (JS.getProp "description" this) = false
  /\ JS.isNullish (JS.getProp "displayName" this) = false
  /\ JS.isNullish (JS.getProp "unit" this) = false
  /\ hasDefaultEntry emptyLocalized = true.
Proof.
  cbv zeta.
  assert (Hd : JS.getProp "description" (new vdf raw)
               = JS.or (JS.getProp "description" raw) emptyLocalized)
    by reflexivity.
  assert (Hn : JS.getProp "displayName" (new vdf raw)
               = JS.or (JS.getProp "display_name" raw) emptyLocalized)
    by reflexivity.
  assert (Hu : JS.getProp "unit" (new vdf raw)
               = JS.or (JS.getProp "unit" raw) emptyLocalized)
    by reflexivity.
  rewrite Hd, Hn, Hu.
  repeat split;
    try (apply truthy_not_nullish; apply or_truthy; reflexivity).
Qed.

(** C9 (counterexample).  A wire object whose display name is given for
    the locale [de] only: the constructed [displayName] is that object,
    which has no [default] entry. *)
Lemma C9_counterexample :
  JS.getProp "displayName"
    (new Samples.valueDefinitionFields Samples.germanOnly)
  = JObj "Object" [("de", JStr "Farbe")]
  /\ hasDefaultEntry
       (JS.getProp "displayName"
          (new Samples.valueDefinitionFields Samples.germanOnly)) = false.
Proof. split; reflexivity. Qed.

End Documents.

(** ** The tree provider *)

Section Provider.

Import OCAPIService MetadataViewProvider.

Variable service_getCallSetup :
  JSValue -> string -> JS.Props -> outcome ICallSetup.
Variable service_makeCall : ICallSetup -> outcome JSValue.
Variable ocapiHelper_getExpandedAttribute : MetadataNode -> outcome JSValue.
Variable valueDefinitionFields : JSValue -> JS.Props.
Variable newObjectAttributeGroup : JSValue -> JSValue.
Variable newObjectTypeDefinition : JSValue -> ObjectTypeDefinition.

Local Abbreviation containerChildren :=
  (getAttributeOrGroupContainerChildren service_getCallSetup service_makeCall
     valueDefinitionFields newObjectAttributeGroup).

Local Abbreviation baseChildren :=
  (getBaseNodeChildren service_getCallSetup service_makeCall
     newObjectAttributeGroup newObjectTypeDefinition).

Local Abbreviation definitionChildren :=
  (getAttributeDefinitionChildren ocapiHelper_getExpandedAttribute
     valueDefinitionFields).

(** A response without a data array, or one flagged as an error, fails
    the first test of the container strategies. *)
Lemma hasDataArray_false (response : JSValue) :
  JS.isArray (JS.member "data" response) = false
  \/ JS.truthy (JS.member "error" response) = true ->
  hasDataArray response = false.
Proof.
  unfold hasDataArray. intros [H|H]; rewrite H; simpl.
  - now rewrite !andb_false_r.
  - reflexivity.
Qed.

(** The test for an empty result amounts to: no error, and a count that
    is the number 0. *)
Lemma isEmptyCount_spec (response : JSValue) :
  isEmptyCount response
  = negb (JS.truthy (JS.member "error" response))
    && JS.strictEq (JS.member "count" response) (JNum 0).
Proof.
  unfold isEmptyCount.
  destruct (JS.member "count" response); simpl;
    now rewrite ?andb_false_r, ?andb_true_r.
Qed.

Lemma messageNode_leaf (label parent : string) :
  name (messageNode label parent) = JStr label
  /\ collapsibleState (messageNode label parent) = TreeItemCollapsibleState.None
  /\ expandable (messageNode label parent) = false.
Proof. repeat split. Qed.

(** The group branch of the container strategy on a response that is not
    a data array: one message leaf. *)
Lemma groups_container_without_data
      (element : MetadataNode) (setup : ICallSetup) (response : JSValue) :
  name element = JStr "Attribute Groups" ->
  (forall callData,
      service_getCallSetup (JStr "systemObjectDefinitions")
                           "getAttributeGroups" callData = Returned setup) ->
  service_makeCall setup = Returned response ->
  JS.isNullish response = false ->
  hasDataArray response = false ->
  exists parent,
    fst (run (containerChildren element))
    = Returned [messageNode (if isEmptyCount response
                             then "No attribute groups defined"
                             else "Unable to load...") parent].
Proof.
  intros Hname Hsetup Hcall Hobj Hdata.
  unfold getAttributeOrGroupContainerChildren.
  rewrite Hname.
  change (negb (JS.strictEq (JStr "Attribute Groups") (JStr "Attribute Groups")))
    with false.
  cbv beta iota zeta.
  unfold run, bind, getCallSetup, makeCall, lift, request, ret, read.
  rewrite Hsetup, Hcall, Hobj, Hdata.
  eexists.
  destruct (isEmptyCount response); reflexivity.
Qed.

(** The attribute branch of the container strategy on a response that is
    not a data array: the "Unable to load..." leaf. *)
Lemma attributes_container_without_data
      (element : MetadataNode) (setup : ICallSetup) (response : JSValue) :
  name element <> JStr "Attribute Groups" ->
  (forall resource callData,
      service_getCallSetup resource "getAttributes" callData = Returned setup) ->
  service_makeCall setup = Returned response ->
  JS.isNullish response = false ->
  hasDataArray response = false ->
  exists parent,
    fst (run (containerChildren element))
    = Returned [messageNode "Unable to load..." parent].
Proof.
  intros Hname Hsetup Hcall Hobj Hdata.
  unfold getAttributeOrGroupContainerChildren.
  assert (Hneq : JS.strictEq (name element) (JStr "Attribute Groups") = false).
  { destruct (name element) as [| | | |s| |]; try reflexivity.
    simpl. destruct (String.eqb_spec s "Attribute Groups"); [|reflexivity].
    subst. now contradiction Hname. }
  rewrite Hneq. cbv beta iota zeta. simpl negb. cbv iota.
  unfold run, bind, tryCatch, getCallSetup, makeCall, lift, request, ret, read.
  rewrite Hsetup, Hcall, Hobj, Hdata.
  eexists. reflexivity.
Qed.

(** X28.  The Site Preferences strategy on such a response: the "No attribute
    groups defined" leaf for an empty result, and [undefined] where the
    container strategy says "Unable to load...". *)
Lemma getAllPreferences_without_data (setup : ICallSetup) (response : JSValue) :
  (forall callData,
      service_getCallSetup (JStr "systemObjectDefinitions")
                           "getAttributeGroups" callData = Returned setup) ->
  service_makeCall setup = Returned response ->
  JS.isNullish response = false ->
  hasDataArray response = false ->
  fst (run (getAllPreferences service_getCallSetup service_makeCall
                              newObjectAttributeGroup))
  = Returned (if isEmptyCount response
              then Some [messageNode "No attribute groups defined"
                                     "sitePreferences"]
              else None).
Proof.
  intros Hsetup Hcall Hobj Hdata.
  unfold getAllPreferences, run, bind, getCallSetup, makeCall, lift, request,
    ret, read.
  rewrite Hsetup, Hcall, Hobj, Hdata.
  destruct (isEmptyCount response); reflexivity.
Qed.

(** C4.  Expanding the "Attribute Groups" container on a response that
    is an error or carries no data array never yields an empty list and
    never rejects: it yields exactly one leaf, which is not expandable.
    The leaf reads "No attribute groups defined" when the response is
    not an error and its count is 0, and "Unable to load..." in every
    other case. *)
Theorem C4_attribute_groups_fallback_leaf
        (element : MetadataNode) (setup : ICallSetup) (response : JSValue) :
  name element = JStr "Attribute Groups" ->
  (forall callData,
      service_getCallSetup (JStr "systemObjectDefinitions")
                           "getAttributeGroups" callData = Returned setup) ->
  service_makeCall setup = Returned response ->
  JS.isNullish response = false ->
  JS.isArray (JS.member "data" response) = false
  \/ JS.truthy (JS.member "error" response) = true ->
  exists leaf,
    fst (run (containerChildren element)) = Returned [leaf]
    /\ collapsibleState leaf = TreeItemCollapsibleState.None
    /\ expandable leaf = false
    /\ name leaf
       = JStr (if negb (JS.truthy (JS.member "error" response))
                  && JS.strictEq (JS.member "count" response) (JNum 0)
               then "No attribute groups defined"
               else "Unable to load...").
Proof.
  intros Hname Hsetup Hcall Hobj Hresp.
  destruct (groups_container_without_data element setup response
              Hname Hsetup Hcall Hobj (hasDataArray_false response Hresp))
    as [parent Hrun].
  rewrite isEmptyCount_spec in Hrun.
  eexists. split; [exact Hrun|]. repeat split.
Qed.

(** C10.  Expanding a base category other than Site Preferences on a
    response whose [data] is missing or not an array resolves to
    [undefined]: neither a list nor a message leaf.  On the same
    response both branches of the container strategy produce a message
    leaf. *)
Theorem C10_base_category_without_data_is_undefined
        (element : MetadataNode) (setup : ICallSetup) (response : JSValue) :
  baseNodeName (nodeData element) <> Some "sitePreferences" ->
  (forall resource call callData,
      service_getCallSetup resource call callData = Returned setup) ->
  service_makeCall setup = Returned response ->
  JS.isNullish response = false ->
  JS.isArray (JS.member "data" response) = false ->
  fst (run (baseChildren element)) = Returned None
  /\ forall container,
       exists leaf,
         fst (run (containerChildren container)) = Returned [leaf]
         /\ expandable leaf = false.
Proof.
  intros Hbase Hsetup Hcall Hobj Hdata. split.
  - unfold getBaseNodeChildren.
    assert (Hneq : JS.strictEq (optStr (baseNodeName (nodeData element)))
                               (JStr "sitePreferences") = false).
    { destruct (baseNodeName (nodeData element)) as [s|]; [|reflexivity].
      simpl. destruct (String.eqb_spec s "sitePreferences"); [|reflexivity].
      subst. now contradiction Hbase. }
    rewrite Hneq. cbv beta iota zeta.
    unfold run, bind, getCallSetup, makeCall, lift, request, ret, read.
    rewrite Hsetup, Hcall, Hobj, Hdata, andb_false_r. reflexivity.
  - intro container.
    assert (Hno : hasDataArray response = false)
      by (apply hasDataArray_false; now left).
    destruct (JS.strictEq (name container) (JStr "Attribute Groups")) eqn:Hn.
    + assert (Hname : name container = JStr "Attribute Groups").
      { destruct (name container); try discriminate.
        simpl in Hn. apply String.eqb_eq in Hn. now subst. }
      destruct (groups_container_without_data container setup response
                  Hname (fun d => Hsetup _ _ d) Hcall Hobj Hno) as [p Hrun].
      eexists. split; [exact Hrun | reflexivity].
    + assert (Hname : name container <> JStr "Attribute Groups").
      { intro E. rewrite E in Hn. discriminate. }
      destruct (attributes_container_without_data container setup response
                  Hname (fun r d => Hsetup r _ d) Hcall Hobj Hno) as [p Hrun].
      eexists. split; [exact Hrun | reflexivity].
Qed.

(** Expanding an object type definition: two containers, in this order,
    labelled with the two counts; both get the same collapsible state,
    which is [None] exactly when the lineage mentions
    [customObjectDefinitions]. *)
Lemma getObjectDefinitionChildren_shape
      (element : MetadataNode) (otd : ObjectTypeDefinition) :
  objectTypeDefinition (nodeData element) = Some otd ->
  exists definitions groups,
    getObjectDefinitionChildren element = Returned [definitions; groups]
    /\ name definitions = JStr "Attribute Definitions"
    /\ name groups = JStr "Attribute Groups"
    /\ parentContainer (nodeData definitions) = Some "objectAttributeDefinitions"
    /\ parentContainer (nodeData groups) = Some "objectAttributeGroups"
    /\ displayDescription (nodeData definitions)
       = Some (JStr (JSString.ofZ (attributeDefinitionCount otd)))
    /\ displayDescription (nodeData groups)
       = Some (JStr (JSString.ofZ (attributeGroupCount otd)))
    /\ collapsibleState definitions = collapsibleState groups
    /\ expandable groups
       = negb (JSString.includes "customObjectDefinitions"
                                 (parentId (nodeData element))).
Proof.
  intro Hotd. unfold getObjectDefinitionChildren. rewrite Hotd.
  do 2 eexists. split; [reflexivity|]. simpl.
  repeat split.
  unfold expandable. simpl.
  now destruct (JSString.includes _ _).
Qed.

(** Under System Object Definitions both containers can be expanded. *)
Example product_containers :
  exists definitions groups,
    getObjectDefinitionChildren Samples.productNode
      = Returned [definitions; groups]
    /\ displayDescription (nodeData definitions) = Some (JStr "412")
    /\ displayDescription (nodeData groups) = Some (JStr "9")
    /\ parentId (nodeData groups) = "root.systemObjectDefinitions.Product"
    /\ expandable definitions = true
    /\ expandable groups = true.
Proof. do 2 eexists. repeat split. Qed.

(** C5 (evaluation at the failing input).  Expanding the object type
    [StoreEvent] under Custom Object Definitions returns the two
    containers with their counts, and the "Attribute Definitions"
    container is created with [TreeItemCollapsibleState.None] just like
    "Attribute Groups": it is not expandable. *)
Theorem C5_custom_object_definitions_container_not_expandable :
  exists definitions groups,
    getObjectDefinitionChildren Samples.customNode
      = Returned [definitions; groups]
    /\ name definitions = JStr "Attribute Definitions"
    /\ displayDescription (nodeData definitions) = Some (JStr "7")
    /\ collapsibleState definitions = TreeItemCollapsibleState.None
    /\ expandable definitions = false
    /\ name groups = JStr "Attribute Groups"
    /\ expandable groups = false.
Proof. do 2 eexists. repeat split. Qed.

(** On a value type that is a string, the provider asks for the expanded
    attribute exactly when the string mentions [enum], and asks for
    nothing else. *)
Lemma definitionChildren_log
      (element : MetadataNode) (own : JS.Props) (valueType : string) :
  objectAttributeDefinition (nodeData element) = Some own ->
  JS.getProp "valueType" own = JStr valueType ->
  snd (run (definitionChildren element))
  = if JSString.includes "enum" valueType
    then [ReqGetExpandedAttribute element]
    else [].
Proof.
  intros Hown Htype. unfold getAttributeDefinitionChildren.
  rewrite Hown, Htype.
  unfold run, bind, lift, mentionsEnum, getExpandedAttribute, request, ret.
  destruct (JSString.includes "enum" valueType); [|reflexivity].
  simpl app.
  destruct (ocapiHelper_getExpandedAttribute element); reflexivity.
Qed.

(** C6.  Expanding an attribute definition issues exactly one fetch of
    the expanded attribute if and only if its value type contains
    [enum]; otherwise (the value type [string], for one) it issues no
    request at all. *)
Theorem C6_secondary_fetch_iff_enum
        (element : MetadataNode) (own : JS.Props) (valueType : string) :
  objectAttributeDefinition (nodeData element) = Some own ->
  JS.getProp "valueType" own = JStr valueType ->
  let log := snd (run (definitionChildren element)) in
  (secondaryFetches log = 1 <-> JSString.includes "enum" valueType = true)
  /\ (JSString.includes "enum" valueType = true ->
      log = [ReqGetExpandedAttribute element])
  /\ (JSString.includes "enum" valueType = false -> log = [])
  /\ JSString.includes "enum" "string" = false.
Proof.
  intros Hown Htype. cbv zeta.
  rewrite (definitionChildren_log element own valueType Hown Htype).
  destruct (JSString.includes "enum" valueType); simpl.
  - repeat split; auto; discriminate.
  - repeat split; auto; discriminate.
Qed.

End Provider.

Section ProviderExamples.

Import OCAPIService MetadataViewProvider.

Lemma C4_attribute_groups_fallback_leaf_witness :
  (exists leaf,
      fst (run (getAttributeOrGroupContainerChildren
                  Samples.anySetup (Samples.respondWith Samples.emptyResponse)
                  Samples.valueDefinitionFields Samples.newObjectAttributeGroup
                  Samples.groupsContainer))
      = Returned [leaf]
      /\ collapsibleState leaf = TreeItemCollapsibleState.None
      /\ expandable leaf = false
      /\ name leaf = JStr "No attribute groups defined")
  /\ (exists leaf,
         fst (run (getAttributeOrGroupContainerChildren
                     Samples.anySetup (Samples.respondWith Samples.faultResponse)
                     Samples.valueDefinitionFields Samples.newObjectAttributeGroup
                     Samples.groupsContainer))
         = Returned [leaf]
         /\ collapsibleState leaf = TreeItemCollapsibleState.None
         /\ expandable leaf = false
         /\ name leaf = JStr "Unable to load...").
Proof.
  split.
  - apply (C4_attribute_groups_fallback_leaf
             Samples.anySetup (Samples.respondWith Samples.emptyResponse)
             Samples.valueDefinitionFields Samples.newObjectAttributeGroup
             Samples.groupsContainer Samples.someSetup Samples.emptyResponse).
    + reflexivity.
    + intro callData. reflexivity.
    + reflexivity.
    + reflexivity.
    + left. reflexivity.
  - apply (C4_attribute_groups_fallback_leaf
             Samples.anySetup (Samples.respondWith Samples.faultResponse)
             Samples.valueDefinitionFields Samples.newObjectAttributeGroup
             Samples.groupsContainer Samples.someSetup Samples.faultResponse).
    + reflexivity.
    + intro callData. reflexivity.
    + reflexivity.
    + reflexivity.
    + right. reflexivity.
Defined.

Lemma C10_base_category_without_data_is_undefined_witness :
  baseNodeName (nodeData Samples.systemCategory) <> Some "sitePreferences"
  /\ JS.isArray (JS.member "data" Samples.faultResponse) = false
  /\ fst (run (getBaseNodeChildren
                 Samples.anySetup (Samples.respondWith Samples.faultResponse)
                 Samples.newObjectAttributeGroup Samples.newObjectTypeDefinition
                 Samples.systemCategory))
     = Returned None.
Proof.
  assert (Hbase : baseNodeName (nodeData Samples.systemCategory)
                  <> Some "sitePreferences") by discriminate.
  split; [exact Hbase|]. split; [reflexivity|].
  exact (proj1 (C10_base_category_without_data_is_undefined
                  Samples.anySetup (Samples.respondWith Samples.faultResponse)
                  Samples.valueDefinitionFields
                  Samples.newObjectAttributeGroup
                  Samples.newObjectTypeDefinition
                  Samples.systemCategory Samples.someSetup
                  Samples.faultResponse
                  Hbase (fun _ _ _ => eq_refl) eq_refl eq_refl eq_refl)).
Defined.

(** The two attribute nodes come out of expanding the "Attribute
    Definitions" container on the two-row response. *)
Lemma attribute_rows_become_nodes :
  fst (run (getAttributeOrGroupContainerChildren
              Samples.anySetup (Samples.respondWith Samples.attributesResponse)
              Samples.valueDefinitionFields Samples.newObjectAttributeGroup
              Samples.definitionsContainer))
  = Returned [Samples.a1Node; Samples.a2Node].
Proof. reflexivity. Qed.

Lemma C6_secondary_fetch_iff_enum_witness :
  secondaryFetches
    (snd (run (getAttributeDefinitionChildren
                 Samples.expandedAttribute Samples.valueDefinitionFields
                 Samples.a2Node))) = 1
  /\ snd (run (getAttributeDefinitionChildren
                 Samples.expandedAttribute Samples.valueDefinitionFields
                 Samples.a1Node)) = [].
Proof.
  split.
  - apply (proj1 (C6_secondary_fetch_iff_enum
                    Samples.expandedAttribute Samples.valueDefinitionFields
                    Samples.a2Node
                    (ObjectAttributeDefinition.new Samples.valueDefinitionFields
                       [("id", JStr "a2"); ("value_type", JStr "enum_of_int")])
                    "enum_of_int" eq_refl eq_refl)).
    reflexivity.
  - apply (proj1 (proj2 (proj2
             (C6_secondary_fetch_iff_enum
                Samples.expandedAttribute Samples.valueDefinitionFields
                Samples.a1Node
                (ObjectAttributeDefinition.new Samples.valueDefinitionFields
                   [("id", JStr "a1"); ("value_type", JStr "string")])
                "string" eq_refl eq_refl)))).
    reflexivity.
Defined.

End ProviderExamples.

(** ** The export serialiser *)

Section Serialiser.

Import XMLHandler.

(** The owning object type written to [type-id] is the last
    dot-separated segment of the node's [parentId]. *)
Lemma getXMLFromNode_type_id
      (metaNode : MetadataNode) (attribute : ObjectAttributeDefinition) :
  nodeType metaNode = "objectAttributeDefinition" ->
  objectAttributeDefinition metaNode = Some attribute ->
  exists segment,
    JSString.pop_value (JSString.split "." (parentId metaNode)) = Some segment
    /\ getXMLFromNode metaNode
       = Returned (Element "metadata" [("xmlns", NAMESPACE_STRING)] None
                     [getObjectAttributeXML segment attribute]).
Proof.
  intros Htype Hattr.
  destruct (pop_split_defined "." (parentId metaNode)) as [segment Hseg].
  exists segment. split; [exact Hseg|].
  unfold getXMLFromNode, owningObjectType.
  now rewrite Htype, Hattr, Hseg.
Qed.

(** C8.  Exporting an attribute definition with value type [string], id
    [myAttr] and the mandatory flag set, from a node whose lineage ends
    in [Product]: the root carries the impex namespace, the
    [type-extension] is that of [Product] (the last dot-separated
    segment of [parentId]), and the [attribute-definition] element with
    [attribute-id="myAttr"] holds a [type] element with text [string], a
    [mandatory-flag] element with text [true], a [min-length] element
    and a [localizable-flag] element; there is no [value-definitions]
    element anywhere in the document. *)
Theorem C8_string_attribute_of_Product_export
        (metaNode : MetadataNode) (attribute : ObjectAttributeDefinition) :
  nodeType metaNode = "objectAttributeDefinition" ->
  objectAttributeDefinition metaNode = Some attribute ->
  valueType attribute = "string" ->
  id attribute = "myAttr" ->
  mandatory attribute = true ->
  JSString.pop_value (JSString.split "." (parentId metaNode)) = Some "Product" ->
  exists fields,
    let document :=
      Element "metadata"
        [("xmlns", "http://www.demandware.com/xml/impex/metadata/2006-10-31")]
        None
        [Element "type-extension" [("type-id", "Product")] None
           [Element "custom-attribute-definitions" [] None
              [Element "attribute-definition" [("attribute-id", "myAttr")]
                       None fields]]] in
    getXMLFromNode metaNode = Returned document
    /\ In (Element "type" [] (Some "string") []) fields
    /\ In (Element "mandatory-flag" [] (Some "true") []) fields
    /\ existsb (fun e => String.eqb (tagOf e) "min-length") fields = true
    /\ existsb (fun e => String.eqb (tagOf e) "localizable-flag") fields = true
    /\ hasElement "value-definitions" document = false.
Proof.
  intros Htype Hattr Hvalue Hid Hmandatory Hseg.
  unfold getXMLFromNode, owningObjectType.
  rewrite Htype, Hattr, Hseg.
  unfold getObjectAttributeXML, valueTypeChildren, objectTypeChildren.
  rewrite Hvalue, Hid, Hmandatory.
  eexists. cbv zeta. split; [reflexivity|].
  simpl.
  split; [tauto|]. split; [tauto|]. split; [reflexivity|].
  split; [reflexivity|].
  unfold hasElement.
  destruct (defaultValue attribute); reflexivity.
Qed.

Lemma C8_string_attribute_of_Product_export_witness :
  exists fields,
    getXMLFromNode Samples.myAttrNode
    = Returned
        (Element "metadata"
           [("xmlns", "http://www.demandware.com/xml/impex/metadata/2006-10-31")]
           None
           [Element "type-extension" [("type-id", "Product")] None
              [Element "custom-attribute-definitions" [] None
                 [Element "attribute-definition" [("attribute-id", "myAttr")]
                          None fields]]])
    /\ In (Element "min-length" [] (Some "-1") []) fields.
Proof.
  destruct (C8_string_attribute_of_Product_export
              Samples.myAttrNode Samples.myAttr
              eq_refl eq_refl eq_refl eq_refl eq_refl eq_refl)
    as [fields H].
  cbv zeta in H. destruct H as [Hdoc _].
  exists fields. split; [exact Hdoc|].
  injection Hdoc as <-. simpl. tauto.
Defined.

End Serialiser.

(* ====================================================================== *)
(** * Further properties *)
(* ====================================================================== *)

(** ** Segments of a lineage string *)

Lemma split_aux_app (sep : ascii) (a b acc : string) :
  JSString.split_aux sep acc (a ++ String sep b)
  = (JSString.split_aux sep acc a ++ JSString.split_aux sep "" b)%list.
Proof.
  revert acc. induction a as [|c rest IH]; intro acc; simpl.
  - now rewrite Ascii.eqb_refl.
  - destruct (Ascii.eqb c sep); simpl; now rewrite IH.
Qed.

Lemma split_app (a b : string) :
  JSString.split "." (a ++ "." ++ b)
  = (JSString.split "." a ++ JSString.split "." b)%list.
Proof. unfold JSString.split. apply split_aux_app. Qed.

Lemma pop_value_last (xs : list string) (x : string) :
  JSString.pop_value (xs ++ [x]) = Some x.
Proof. unfold JSString.pop_value. now rewrite rev_unit. Qed.

Lemma pop_rest_last (xs : list string) (x : string) :
  JSString.pop_rest (xs ++ [x]) = xs.
Proof. unfold JSString.pop_rest. apply removelast_last. Qed.

(** The last segment of [lineage + '.' + segment] is [segment], and what
    is left after popping it are the segments of [lineage]. *)
Lemma pop_lineage (lineage segment : string) :
  JSString.split "." segment = [segment] ->
  JSString.pop_value (JSString.split "." (lineage ++ "." ++ segment))
  = Some segment
  /\ JSString.pop_rest (JSString.split "." (lineage ++ "." ++ segment))
     = JSString.split "." lineage.
Proof.
  intro Hseg. rewrite split_app, Hseg.
  split; [apply pop_value_last | apply pop_rest_last].
Qed.

Lemma prefix_refl (s : string) : String.prefix s s = true.
Proof. induction s as [|c s IH]; simpl; [reflexivity|].
  destruct (ascii_dec c c); [exact IH | contradiction]. Qed.

Lemma prefix_append (s t : string) : String.prefix s (s ++ t) = true.
Proof.
  induction s as [|c s IH]; simpl; [now destruct t|].
  destruct (ascii_dec c c); [exact IH | contradiction].
Qed.

Lemma prefix_append_left (d s t : string) :
  String.prefix s t = true -> String.prefix (d ++ s) (d ++ t) = true.
Proof.
  intro H. induction d as [|c d IH]; simpl; [exact H|].
  destruct (ascii_dec c c); [exact IH | contradiction].
Qed.

(** ** The call resolver, continued *)

Section ResolverMore.

Import OCAPIService.

(** X1.  Whatever the parameter and the data bag, the callback only ever
    appends to the endpoint and to the error message, never clears the
    error flag, and leaves body, call name, headers and method alone. *)
Theorem paramCallback_only_grows
        (resourceName call : string) (callData : JS.Props)
        (param : ApiConfig.Param) (r : ICallSetup) :
  let r' := paramCallback resourceName call callData param r in
  String.prefix (endpoint r) (endpoint r') = true
  /\ String.prefix (setupErrMsg r) (setupErrMsg r') = true
  /\ Bool.le (setupError r) (setupError r')
  /\ body r' = body r
  /\ callName r' = callName r
  /\ headers r' = headers r
  /\ method r' = method r.
Proof.
  cbv zeta. unfold paramCallback.
  destruct (JS.truthy _ && String.eqb _ _).
  - destruct (String.eqb (ApiConfig.use param) "PATH_PARAMETER"
              && JSString.includes _ _).
    + repeat split; try apply prefix_refl. now destruct (setupError r).
    + destruct (String.eqb (ApiConfig.use param) "QUERY_PARAMETER").
      * simpl. repeat split; try apply prefix_refl.
        -- rewrite !append_assoc. apply prefix_append.
        -- now destruct (setupError r).
      * repeat split; try apply prefix_refl. now destruct (setupError r).
  - simpl. repeat split; try apply prefix_refl.
    + rewrite !append_assoc. apply prefix_append.
    + now destruct (setupError r).
Qed.

(** The ids of the catalog's parameters are names that an object
    literal does not inherit, so that reading them off a data bag reads
    the bag's own properties. *)
Lemma catalog_ids_are_not_inherited
      (callName : string) (callConfig : ApiConfig.Call) (p : ApiConfig.Param) :
  JS.lookup callName
    (ApiConfig.availableCalls ApiConfig.systemObjectDefinitions)
    = Some callConfig ->
  In p (ApiConfig.params callConfig) ->
  JS.inherited (ApiConfig.id p) = false.
Proof.
  intros Hcall Hp.
  assert (Hall : forallb
                   (fun c => forallb
                               (fun q => negb (JS.inherited (ApiConfig.id q)))
                               (ApiConfig.params c))
                   (map snd (ApiConfig.availableCalls
                               ApiConfig.systemObjectDefinitions)) = true)
    by reflexivity.
  rewrite forallb_forall in Hall.
  assert (Hin : In callConfig
                  (map snd (ApiConfig.availableCalls
                              ApiConfig.systemObjectDefinitions))).
  { clear Hall Hp. revert Hcall.
    induction (ApiConfig.availableCalls ApiConfig.systemObjectDefinitions)
      as [|[k v] rest IH]; simpl; [discriminate|].
    destruct (String.eqb callName k); [intros [= ->]; now left|].
    intro H. right. now apply IH. }
  specialize (Hall callConfig Hin). rewrite forallb_forall in Hall.
  apply negb_true_iff. now apply Hall.
Qed.

(** X2.  The callback on its own, for a parameter whose id an object
    literal does not inherit (the data bag's own properties are then
    all there is to read): when the value in the bag is falsy (absent,
    [0], the empty string, [false]) or of another type than declared,
    the parameter is reported as missing.  The flag is set, the
    endpoint is left as it is, and three lines are appended to the
    message, which name the resource and the call but print the
    parameter as [[object Object]]. *)
Theorem paramCallback_reports_missing
        (resourceName call : string) (callData : JS.Props)
        (param : ApiConfig.Param) (r : ICallSetup) :
  JS.inherited (ApiConfig.id param) = false ->
  JS.truthy (JS.getProp (ApiConfig.id param) callData) = false
  \/ JS.typeof (JS.getProp (ApiConfig.id param) callData)
     <> ApiConfig.type param ->
  let r' := paramCallback resourceName call callData param r in
  setupError r' = true
  /\ endpoint r' = endpoint r
  /\ setupErrMsg r'
     = setupErrMsg r ++ nl ++ "Missing call parameter: [object Object]"
       ++ nl ++ "- Resource: " ++ resourceName
       ++ nl ++ "- Call type: " ++ call.
Proof.
  intros _ Hbad. cbv zeta. unfold paramCallback.
  assert (Hcond : JS.truthy (JS.getProp (ApiConfig.id param) callData)
                  && String.eqb (JS.typeof (JS.getProp (ApiConfig.id param) callData))
                                (ApiConfig.type param) = false).
  { destruct Hbad as [H|H].
    - now rewrite H.
    - apply andb_false_iff. right. now apply String.eqb_neq. }
  rewrite Hcond. simpl. repeat split.
  now rewrite !append_assoc.
Qed.

Lemma paramCallback_reports_missing_witness :
  JS.inherited "count" = false
  /\ JS.truthy (JS.getProp "count" Samples.zeroCount) = false
  /\ setupError (paramCallback "systemObjectDefinitions" "getAll"
                   Samples.zeroCount Samples.countParam initialSetup) = true.
Proof.
  split; [reflexivity|]. split; [reflexivity|].
  exact (proj1 (paramCallback_reports_missing
                  "systemObjectDefinitions" "getAll" Samples.zeroCount
                  Samples.countParam initialSetup eq_refl
                  (or_introl eq_refl))).
Defined.

(** X3.  A resource that the catalog does not have is reported without
    looking for a connection: the result does not depend on what the
    search for a dw.json file would give, the endpoint is empty, and the
    service is left as it was. *)
Theorem getCallSetup_unknown_resource_untouched
        (cfg : ApiConfig.Config) (discovered : outcome IDWConfig)
        (this : Service) (resourceName call : string) (callData : JS.Props) :
  JS.hasOwnProperty resourceName (ApiConfig.resources cfg) = false ->
  getCallSetup cfg discovered this resourceName call callData
  = (Returned
       (mkCallSetup [] "" "" [("contentType", JStr "application/json")] get
          (nl ++ "No setup was found in apiConfig for the specified resource")
          true),
     this).
Proof.
  unfold JS.hasOwnProperty, getCallSetup, resolveStructure.
  destruct (JS.lookup resourceName (ApiConfig.resources cfg)); [discriminate|].
  reflexivity.
Qed.

Lemma getCallSetup_unknown_resource_untouched_witness :
  JS.hasOwnProperty "sitePreferences"
    (ApiConfig.resources ApiConfig.apiConfig) = false
  /\ snd (getCallSetup ApiConfig.apiConfig (Thrown "ENOENT") newService
            "sitePreferences" "getAll" []) = newService.
Proof.
  split; [reflexivity|].
  exact (f_equal snd
           (getCallSetup_unknown_resource_untouched
              ApiConfig.apiConfig (Thrown "ENOENT") newService
              "sitePreferences" "getAll" [] eq_refl)).
Defined.

(** What [resolveStructure] can return without an error flag. *)
Lemma resolveStructure_unflagged
      (cfg : ApiConfig.Config) (resourceName call : string)
      (callData : JS.Props) (r : ICallSetup) :
  resolveStructure cfg resourceName call callData = Returned r ->
  setupError r = false ->
  exists resConfig,
    JS.lookup resourceName (ApiConfig.resources cfg) = Some resConfig
    /\ String.prefix ("/dw/" ++ ApiConfig.api resConfig ++ "/") (endpoint r)
       = true
    /\ r = withEndpoint (endpoint r) initialSetup.
Proof.
  unfold resolveStructure.
  destruct (JS.lookup resourceName (ApiConfig.resources cfg)) as [resConfig|];
    [|intros [= <-]; discriminate].
  destruct (negb (String.eqb (ApiConfig.api resConfig) ""));
    [|intros [= <-]; discriminate].
  intros H Hflag. exists resConfig. split; [reflexivity|].
  destruct (JS.lookup call (ApiConfig.availableCalls resConfig)) as [callConfig|].
  - destruct (negb (String.eqb (ApiConfig.path callConfig) "")).
    + destruct (ApiConfig.params callConfig); [|discriminate].
      injection H as <-. simpl. split; [|reflexivity].
      apply prefix_append.
    + destruct (ApiConfig.params callConfig); [|discriminate].
      injection H as <-. discriminate.
  - injection H as <-. simpl. split; [apply prefix_refl | reflexivity].
Qed.

(** X4.  A result without the error flag is always qualified: the resource
    is in the catalog, a connection that is ok was found and is now
    cached in the service, the endpoint is that connection's endpoint
    followed by [/dw/<api>/], and the message is empty. *)
Theorem getCallSetup_unflagged_is_qualified
        (cfg : ApiConfig.Config) (discovered : outcome IDWConfig)
        (this : Service) (resourceName call : string) (callData : JS.Props)
        (r : ICallSetup) :
  fst (getCallSetup cfg discovered this resourceName call callData)
    = Returned r ->
  setupError r = false ->
  exists resConfig c,
    JS.lookup resourceName (ApiConfig.resources cfg) = Some resConfig
    /\ getDWConfig this discovered = Returned c
    /\ ok c = true
    /\ snd (getCallSetup cfg discovered this resourceName call callData)
       = mkService c
    /\ String.prefix (dw_endpoint c ++ "/dw/" ++ ApiConfig.api resConfig ++ "/")
                     (endpoint r) = true
    /\ setupErrMsg r = "".
Proof.
  unfold getCallSetup.
  destruct (resolveStructure cfg resourceName call callData) as [r0|e] eqn:Hres;
    [|discriminate].
  destruct (setupError r0) eqn:Hflag0; simpl negb; cbv iota.
  - simpl. intros [= <-] Hflag. congruence.
  - destruct (resolveStructure_unflagged cfg resourceName call callData r0
                Hres Hflag0) as [resConfig [Hlook [Hpre Hshape]]].
    destruct (getDWConfig this discovered) as [c|e]; [|discriminate].
    destruct (ok c) eqn:Hok; simpl.
    + intros [= <-] _. exists resConfig, c.
      repeat split; try assumption.
      * simpl endpoint. now apply prefix_append_left.
      * rewrite Hshape. reflexivity.
    + intros [= <-] Hflag. discriminate.
Qed.

Lemma getCallSetup_unflagged_is_qualified_witness :
  exists resConfig c,
    JS.lookup "sites" (ApiConfig.resources Samples.pingConfig) = Some resConfig
    /\ getDWConfig newService (Returned Samples.connection) = Returned c
    /\ ok c = true
    /\ snd (getCallSetup Samples.pingConfig (Returned Samples.connection)
              newService "sites" "getAll" []) = mkService c
    /\ String.prefix (dw_endpoint c ++ "/dw/" ++ ApiConfig.api resConfig ++ "/")
         "https://host.example/s/-/dw/data/v20_4/sites" = true
    /\ "" = "".
Proof.
  exact (getCallSetup_unflagged_is_qualified
           Samples.pingConfig (Returned Samples.connection) newService
           "sites" "getAll" []
           (withEndpoint "https://host.example/s/-/dw/data/v20_4/sites"
                         initialSetup)
           eq_refl eq_refl).
Defined.

End ResolverMore.

Section ResolverShape.

Import OCAPIService.

Lemma resolveStructure_shape
      (cfg : ApiConfig.Config) (resourceName call : string)
      (callData : JS.Props) (r : ICallSetup) :
  resolveStructure cfg resourceName call callData = Returned r ->
  method r = get
  /\ headers r = [("contentType", JStr "application/json")]
  /\ body r = []
  /\ callName r = "".
Proof.
  unfold resolveStructure.
  destruct (JS.lookup resourceName (ApiConfig.resources cfg)) as [resConfig|];
    [|intros [= <-]; repeat split].
  destruct (negb (String.eqb (ApiConfig.api resConfig) ""));
    [|intros [= <-]; repeat split].
  destruct (JS.lookup call (ApiConfig.availableCalls resConfig)) as [callConfig|];
    [|intros [= <-]; repeat split].
  destruct (ApiConfig.params callConfig); [|discriminate].
  destruct (negb (String.eqb (ApiConfig.path callConfig) ""));
    intros [= <-]; repeat split.
Qed.

(** X5.  Whatever the catalog declares for a call, the setup that comes back
    has the method [get], the one default header, an empty body and an
    empty call name: the call's [method] and [headers] are never copied
    into it. *)
Theorem getCallSetup_never_copies_method_or_headers
        (cfg : ApiConfig.Config) (discovered : outcome IDWConfig)
        (this : Service) (resourceName call : string) (callData : JS.Props)
        (r : ICallSetup) :
  fst (getCallSetup cfg discovered this resourceName call callData)
    = Returned r ->
  method r = get
  /\ headers r = [("contentType", JStr "application/json")]
  /\ body r = []
  /\ callName r = "".
Proof.
  unfold getCallSetup.
  destruct (resolveStructure cfg resourceName call callData) as [r0|e] eqn:Hres;
    [|discriminate].
  pose proof (resolveStructure_shape cfg resourceName call callData r0 Hres)
    as Hshape.
  destruct (negb (setupError r0)).
  - destruct (getDWConfig this discovered) as [c|e]; [|discriminate].
    destruct (negb (ok c)); intros [= <-]; exact Hshape.
  - intros [= <-]. exact Hshape.
Qed.

Lemma getCallSetup_never_copies_method_or_headers_witness :
  option_map ApiConfig.method
    (JS.lookup "getAll"
       (ApiConfig.availableCalls
          (ApiConfig.mkResource "data/v20_4"
             [("getAll",
               ApiConfig.mkCall "BM_USER" ApiConfig.jsonHeaders "PUT" []
                                "sites")])))
  = Some "PUT"
  /\ method (withEndpoint "https://host.example/s/-/dw/data/v20_4/sites"
                          initialSetup) = get.
Proof.
  split; [reflexivity|].
  exact (proj1 (getCallSetup_never_copies_method_or_headers
                  Samples.pingConfig (Returned Samples.connection) newService
                  "sites" "getAll" []
                  (withEndpoint "https://host.example/s/-/dw/data/v20_4/sites"
                                initialSetup)
                  eq_refl)).
Defined.

(** X6.  The path through the resolver that succeeds: a call that declares
    no parameters and has a path, with a connection that is ok.  The
    endpoint is the connection's endpoint, [/dw/<api>/] and the path;
    the data bag plays no part. *)
Theorem getCallSetup_call_without_params
        (cfg : ApiConfig.Config) (discovered : outcome IDWConfig)
        (this : Service) (resourceName call : string) (callData : JS.Props)
        (resConfig : ApiConfig.Resource) (callConfig : ApiConfig.Call)
        (c : IDWConfig) :
  JS.lookup resourceName (ApiConfig.resources cfg) = Some resConfig ->
  ApiConfig.api resConfig <> "" ->
  JS.lookup call (ApiConfig.availableCalls resConfig) = Some callConfig ->
  ApiConfig.params callConfig = [] ->
  ApiConfig.path callConfig <> "" ->
  getDWConfig this discovered = Returned c ->
  ok c = true ->
  getCallSetup cfg discovered this resourceName call callData
  = (Returned
       (withEndpoint (dw_endpoint c ++ "/dw/" ++ ApiConfig.api resConfig ++ "/"
                      ++ ApiConfig.path callConfig)
                     initialSetup),
     mkService c).
Proof.
  intros Hres Hapi Hcall Hparams Hpath Hdw Hok.
  unfold getCallSetup, resolveStructure.
  rewrite Hres.
  apply String.eqb_neq in Hapi. rewrite Hapi. simpl negb. cbv iota.
  rewrite Hcall, Hparams.
  apply String.eqb_neq in Hpath. rewrite Hpath. simpl negb. cbv iota beta zeta.
  simpl setupError. simpl negb. cbv iota.
  rewrite Hdw, Hok. simpl.
  now rewrite !append_assoc.
Qed.

Lemma getCallSetup_call_without_params_witness :
  getCallSetup Samples.pingConfig (Returned Samples.connection) newService
               "sites" "getAll" [("select", JStr "(**)")]
  = (Returned (withEndpoint "https://host.example/s/-/dw/data/v20_4/sites"
                            initialSetup),
     mkService Samples.connection).
Proof.
  apply (getCallSetup_call_without_params
           Samples.pingConfig (Returned Samples.connection) newService
           "sites" "getAll" [("select", JStr "(**)")]
           (ApiConfig.mkResource "data/v20_4"
              [("getAll",
                ApiConfig.mkCall "BM_USER" ApiConfig.jsonHeaders "PUT" []
                                 "sites")])
           (ApiConfig.mkCall "BM_USER" ApiConfig.jsonHeaders "PUT" [] "sites")
           Samples.connection);
    try reflexivity; discriminate.
Defined.

(** X7.  Once a complete connection (endpoint, user name and password all
    non-empty, and ok) is cached in the service, the search for a
    dw.json file plays no part any more: every later resolution gives
    what it would give with that connection, even where the search
    would now fail, and the cached connection stays. *)
Theorem getCallSetup_reuses_connection
        (cfg : ApiConfig.Config) (discovered : outcome IDWConfig)
        (c : IDWConfig) (resourceName call : string) (callData : JS.Props) :
  dw_endpoint c <> "" ->
  username c <> "" ->
  password c <> "" ->
  ok c = true ->
  getCallSetup cfg discovered (mkService c) resourceName call callData
  = getCallSetup cfg (Returned c) (mkService c) resourceName call callData
  /\ snd (getCallSetup cfg discovered (mkService c) resourceName call callData)
     = mkService c.
Proof.
  intros He Hu Hp Hok.
  assert (Hcache : forall d, getDWConfig (mkService c) d = Returned c).
  { intro d. unfold getDWConfig. simpl.
    apply String.eqb_neq in He, Hu, Hp. now rewrite He, Hu, Hp, Hok. }
  unfold getCallSetup. rewrite !Hcache.
  split; [reflexivity|].
  destruct (resolveStructure cfg resourceName call callData); [|reflexivity].
  destruct (negb (setupError a)); [|reflexivity].
  now rewrite Hok.
Qed.

Lemma getCallSetup_reuses_connection_witness :
  snd (getCallSetup Samples.pingConfig (Returned Samples.connection)
         newService "sites" "getAll" [])
  = mkService Samples.connection
  /\ fst (getCallSetup Samples.pingConfig (Thrown "ENOENT")
            (mkService Samples.connection) "sites" "getAll" [])
     = Returned (withEndpoint "https://host.example/s/-/dw/data/v20_4/sites"
                              initialSetup).
Proof.
  split; [reflexivity|].
  rewrite (proj1 (getCallSetup_reuses_connection
                    Samples.pingConfig (Thrown "ENOENT") Samples.connection
                    "sites" "getAll" []
                    ltac:(discriminate) ltac:(discriminate)
                    ltac:(discriminate) eq_refl)).
  reflexivity.
Defined.

(** X8.  The shipped catalog is consistent: in every call, each path
    parameter has its [{id}] placeholder in the path template (the test
    the resolver's callback makes), every other parameter is a query
    parameter without one, and the template has exactly as many opening
    and closing braces as the call has path parameters. *)
Theorem catalog_placeholders_match_params
        (callName : string) (callConfig : ApiConfig.Call) :
  JS.lookup callName
    (ApiConfig.availableCalls ApiConfig.systemObjectDefinitions)
    = Some callConfig ->
  (forall p, In p (ApiConfig.params callConfig) ->
     if ApiConfig.isPathParam p
     then ApiConfig.placeholderIn p (ApiConfig.path callConfig) = true
     else ApiConfig.use p = "QUERY_PARAMETER"
          /\ ApiConfig.placeholderIn p (ApiConfig.path callConfig) = false)
  /\ ApiConfig.occurrences "{" (ApiConfig.path callConfig)
     = List.length (filter ApiConfig.isPathParam (ApiConfig.params callConfig))
  /\ ApiConfig.occurrences "}" (ApiConfig.path callConfig)
     = List.length (filter ApiConfig.isPathParam (ApiConfig.params callConfig)).
Proof.
  intro Hcall.
  assert (Hall : forallb ApiConfig.callIsConsistent
                   (map snd (ApiConfig.availableCalls
                               ApiConfig.systemObjectDefinitions)) = true)
    by reflexivity.
  assert (Hin : In callConfig
                  (map snd (ApiConfig.availableCalls
                              ApiConfig.systemObjectDefinitions))).
  { apply lookup_In in Hcall. now apply (in_map snd) in Hcall. }
  rewrite forallb_forall in Hall. specialize (Hall callConfig Hin).
  unfold ApiConfig.callIsConsistent in Hall.
  apply andb_prop in Hall as [Hall Hclose].
  apply andb_prop in Hall as [Hparams Hopen].
  apply Nat.eqb_eq in Hopen, Hclose.
  repeat split; try assumption.
  intros p Hp. rewrite forallb_forall in Hparams. specialize (Hparams p Hp).
  destruct (ApiConfig.isPathParam p); [exact Hparams|].
  apply andb_prop in Hparams as [Hq Hno].
  split.
  - now apply String.eqb_eq in Hq.
  - now apply negb_true_iff in Hno.
Qed.

Lemma catalog_placeholders_match_params_witness :
  ApiConfig.occurrences "{"
    "system_object_definitions/{objectType}/attribute_groups/{groupId}/attribute_definitions/{attributeId}"
  = 3.
Proof.
  exact (proj1 (proj2
           (catalog_placeholders_match_params
              "assignAttributeToGroup"
              (ApiConfig.mkCall "BM_USER" ApiConfig.jsonHeaders "PUT"
                 [ApiConfig.mkParam "objectType" "string" "PATH_PARAMETER";
                  ApiConfig.mkParam "groupId" "string" "PATH_PARAMETER";
                  ApiConfig.mkParam "attributeId" "string" "PATH_PARAMETER"]
                 "system_object_definitions/{objectType}/attribute_groups/{groupId}/attribute_definitions/{attributeId}")
              eq_refl))).
Defined.

End ResolverShape.

(** ** The document model, continued *)

Section DocumentsMore.

Import ObjectAttributeDefinition.

Lemma keys_setProp (k w : string) (v : JSValue) (acc : JS.Props) :
  In k (JS.keys (JS.setProp w v acc)) -> k = w \/ In k (JS.keys acc).
Proof.
  unfold JS.keys. induction acc as [|[k0 v0] rest IH]; simpl.
  - intros [H|[]]. now left.
  - destruct (String.eqb_spec w k0) as [->|Hne]; simpl.
    + intros [H|H]; [left; now symmetry | right; now right].
    + intros [H|H]; [right; now left|].
      destruct (IH H) as [Hk|Hk]; [now left | right; now right].
Qed.

Lemma filterM_sublist {A : Type} (test : A -> outcome bool) (xs ys : list A) :
  filterM test xs = Returned ys -> forall y, In y ys -> In y xs.
Proof.
  revert ys. induction xs as [|x rest IH]; simpl; intros ys H y Hy.
  - injection H as <-. exact Hy.
  - destruct (test x) as [keep|e]; simpl in H; [|discriminate].
    destruct (filterM test rest) as [rest'|e]; simpl in H; [|discriminate].
    injection H as <-.
    destruct keep.
    + destruct Hy as [->|Hy]; [now left | right; now apply (IH rest')].
    + right. now apply (IH rest').
Qed.

(** The members [getDocument] goes through are members of the instance,
    and members of the requested subset when one is requested. *)
Lemma selectedMembers_sound (this : JS.Props) (includeFields names : list string) :
  selectedMembers this includeFields = Returned names ->
  forall m, In m names ->
    In m (JS.keys this) /\ (includeFields <> [] -> In m includeFields).
Proof.
  unfold selectedMembers. destruct includeFields as [|f fs].
  - destruct (JS.isNullish (JS.getProp "includedFields" this)); [discriminate|].
    destruct (JS.truthy (JS.member "length" (JS.getProp "includedFields" this))).
    + intros H m Hm. split; [|now intros []].
      exact (filterM_sublist _ _ _ H m Hm).
    + intros [= <-] m Hm. split; [exact Hm | now intros []].
  - intros [= <-] m Hm. apply filter_In in Hm as [Hkey Hsel].
    split; [exact Hkey|]. intros _.
    change (existsb (String.eqb m) (f :: fs) = true) in Hsel.
    apply existsb_exists in Hsel as [x [Hx Heq]].
    apply String.eqb_eq in Heq. now subst.
Qed.

Lemma copyMember_fold_sound (this : JS.Props) (allowed : string -> Prop)
      (names : list string) (acc : JS.Props) :
  (forall n, In n names -> allowed n) ->
  (forall k, In k (JS.keys acc) ->
     exists m, JS.lookup m MEMBER_MAP = Some k /\ allowed m
               /\ JS.truthy (JS.getProp m this) = true
               /\ JS.getProp k acc = JS.getProp m this) ->
  forall k, In k (JS.keys (fold_left (copyMember this) names acc)) ->
    exists m, JS.lookup m MEMBER_MAP = Some k /\ allowed m
              /\ JS.truthy (JS.getProp m this) = true
              /\ JS.getProp k (fold_left (copyMember this) names acc)
                 = JS.getProp m this.
Proof.
  revert acc. induction names as [|n rest IH]; intros acc Hnames Hacc; simpl.
  - exact Hacc.
  - apply IH.
    + intros n' Hn'. apply Hnames. now right.
    + intros k Hk. unfold copyMember in *.
      destruct (JS.lookup n MEMBER_MAP) as [w|] eqn:Hn; [|now apply Hacc].
      destruct (JS.truthy (JS.getProp n this)) eqn:Ht; [|now apply Hacc].
      destruct (String.eqb_spec k w) as [->|Hne].
      * exists n. repeat split; try assumption.
        -- apply Hnames. now left.
        -- apply getProp_setProp_same.
      * apply keys_setProp in Hk as [Hk|Hk]; [contradiction|].
        destruct (Hacc k Hk) as [m [Hm [Ha [Htm Hv]]]].
        exists m. repeat split; try assumption.
        now rewrite getProp_setProp_other.
Qed.

(** X9.  Whatever the instance and the requested subset, every field of the
    object that [getDocument] serialises is the wire name of a member
    that [MEMBER_MAP] maps, that the instance has with a truthy value
    and that belongs to the requested subset when there is one; the
    field holds that member's value.  Members without a mapping ([id],
    [mandatory], [description], ...) never reach the document. *)
Theorem documentObj_holds_only_mapped_members
        (this : JS.Props) (includeFields : list string)
        (doc : JS.Props) (k : string) :
  documentObj this includeFields = Returned doc ->
  In k (JS.keys doc) ->
  exists member,
    JS.lookup member MEMBER_MAP = Some k
    /\ In member (JS.keys this)
    /\ (includeFields <> [] -> In member includeFields)
    /\ JS.truthy (JS.getProp member this) = true
    /\ JS.getProp k doc = JS.getProp member this.
Proof.
  unfold documentObj.
  destruct (selectedMembers this includeFields) as [names|e] eqn:Hsel;
    [|discriminate].
  cbv beta iota delta [obind]. intros [= <-] Hk.
  destruct (copyMember_fold_sound this
              (fun m => In m (JS.keys this)
                        /\ (includeFields <> [] -> In m includeFields))
              names []
              (selectedMembers_sound this includeFields names Hsel)
              (fun k' (H : In k' (JS.keys [])) => match H with end)
              k Hk)
    as [m [Hm [[Hkey Hincl] [Ht Hv]]]].
  exists m. repeat split; assumption.
Qed.

Lemma documentObj_holds_only_mapped_members_witness :
  exists doc,
    documentObj (new Samples.valueDefinitionFields Samples.truthyFields) []
      = Returned doc
    /\ In "min_length" (JS.keys doc)
    /\ ~ In "id" (JS.keys doc)
    /\ exists member,
         JS.lookup member MEMBER_MAP = Some "min_length"
         /\ JS.getProp "min_length" doc
            = JS.getProp member
                (new Samples.valueDefinitionFields Samples.truthyFields).
Proof.
  eexists. split; [reflexivity|].
  assert (Hin : In "min_length"
                  (JS.keys
                     (fold_left
                        (copyMember
                           (new Samples.valueDefinitionFields Samples.truthyFields))
                        (JS.keys
                           (new Samples.valueDefinitionFields Samples.truthyFields))
                        [])))
    by (vm_compute; tauto).
  split; [exact Hin|]. split.
  - vm_compute. intuition discriminate.
  - destruct (documentObj_holds_only_mapped_members
                (new Samples.valueDefinitionFields Samples.truthyFields) []
                _ "min_length" eq_refl Hin)
      as [member [Hm [_ [_ [_ Hv]]]]].
    exists member. split; assumption.
Defined.

(** X10.  Asking a constructed document for one mapped member gives an object
    with that one field under its wire name, or the empty object when
    the member's value is falsy. *)
Theorem documentObj_single_field
        (vdf : JSValue -> JS.Props) (raw : JS.Props) (member wire : string) :
  In (member, wire) MEMBER_MAP ->
  documentObj (new vdf raw) [member]
  = Returned (if JS.truthy (JS.getProp member (new vdf raw))
              then [(wire, JS.getProp member (new vdf raw))]
              else []).
Proof.
  simpl. intro Hin.
  repeat (destruct Hin as [H|Hin];
          [injection H as <- <-;
           unfold documentObj, selectedMembers;
           cbv beta iota delta [obind];
           match goal with
           | |- Returned (fold_left _ ?names _) = _ =>
               let names' := eval cbn in names in
               change names with names'
           end;
           cbv beta iota delta [fold_left copyMember];
           match goal with
           | |- context [JS.lookup ?m MEMBER_MAP] =>
               let w := eval cbn in (JS.lookup m MEMBER_MAP) in
               change (JS.lookup m MEMBER_MAP) with w
           end;
           cbv beta iota;
           match goal with
           | |- context [JS.truthy ?v] => destruct (JS.truthy v)
           end; reflexivity|]).
  contradiction.
Qed.

Lemma documentObj_single_field_witness :
  In ("displayName", "display_name") MEMBER_MAP
  /\ documentObj (new Samples.valueDefinitionFields Samples.truthyFields)
                 ["displayName"]
     = Returned [("display_name", JObj "Object" [("default", JStr "Size")])].
Proof.
  assert (Hin : In ("displayName", "display_name") MEMBER_MAP)
    by (simpl; tauto).
  split; [exact Hin|].
  exact (documentObj_single_field Samples.valueDefinitionFields
           Samples.truthyFields "displayName" "display_name" Hin).
Defined.

End DocumentsMore.

(** ** Iterating with a callback that may raise *)

Lemma mapM_pure {A B : Type} (f : A -> outcome B) (g : A -> B) (xs : list A) :
  (forall x, In x xs -> f x = Returned (g x)) ->
  mapM f xs = Returned (map g xs).
Proof.
  induction xs as [|x rest IH]; intro H; simpl; [reflexivity|].
  rewrite (H x (or_introl eq_refl)). simpl.
  rewrite IH; [reflexivity|]. intros y Hy. apply H. now right.
Qed.

Lemma mapM_raises {A B : Type} (f : A -> outcome B) (xs : list A) (x : A) :
  In x xs -> didThrow (f x) = true -> didThrow (mapM f xs) = true.
Proof.
  induction xs as [|y rest IH]; intros Hin Hx; [contradiction|]. simpl.
  destruct Hin as [->|Hin].
  - destruct (f x); [discriminate | reflexivity].
  - destruct (f y); [|reflexivity]. simpl.
    specialize (IH Hin Hx). destruct (mapM f rest); [discriminate | reflexivity].
Qed.

Lemma filterM_pure {A : Type} (test : A -> outcome bool) (p : A -> bool)
      (xs : list A) :
  (forall x, In x xs -> test x = Returned (p x)) ->
  filterM test xs = Returned (filter p xs).
Proof.
  induction xs as [|x rest IH]; intro H; simpl; [reflexivity|].
  rewrite (H x (or_introl eq_refl)). simpl.
  rewrite IH; [reflexivity|]. intros y Hy. apply H. now right.
Qed.

(** ** The tree provider, continued *)

Section ContainerExpansion.

Import OCAPIService MetadataViewProvider.

Variable service_getCallSetup :
  JSValue -> string -> JS.Props -> outcome ICallSetup.
Variable service_makeCall : ICallSetup -> outcome JSValue.
Variable valueDefinitionFields : JSValue -> JS.Props.
Variable newObjectAttributeGroup : JSValue -> JSValue.

Local Abbreviation containerChildren :=
  (getAttributeOrGroupContainerChildren service_getCallSetup service_makeCall
     valueDefinitionFields newObjectAttributeGroup).

Lemma hasDataArray_rows (response : JSValue) (rows : list JSValue) :
  JS.truthy (JS.member "error" response) = false ->
  JS.member "data" response = JArr rows ->
  hasDataArray response = true /\ JS.isNullish response = false.
Proof.
  intros Herr Hdata. unfold hasDataArray. rewrite Herr, Hdata. split.
  - reflexivity.
  - destruct response; try reflexivity; discriminate.
Qed.

Lemma attributeRowNode_defined (parent : string) (row : JSValue) :
  JS.isNullish row = false ->
  exists node,
    attributeRowNode valueDefinitionFields parent row = Returned node
    /\ name node = JS.member "id" row
    /\ expandable node = true
    /\ parentId (nodeData node) = parent.
Proof.
  intro H. unfold attributeRowNode, read. rewrite H. simpl.
  eexists. repeat split.
Qed.

Lemma groupRowNode_defined (parent : string) (row : JSValue) :
  JS.isNullish row = false ->
  exists node,
    groupRowNode newObjectAttributeGroup parent row = Returned node
    /\ name node = JS.member "id" row
    /\ expandable node = true
    /\ parentId (nodeData node) = parent.
Proof.
  intro H. unfold groupRowNode, read. rewrite H. simpl.
  eexists. repeat split.
Qed.

(** Mapping rows that are all objects: one node per row, in order. *)
Lemma rows_to_nodes (f : JSValue -> outcome MetadataNode) (parent : string)
      (rows : list JSValue) :
  (forall row, JS.isNullish row = false ->
     exists node, f row = Returned node
                  /\ name node = JS.member "id" row
                  /\ expandable node = true
                  /\ parentId (nodeData node) = parent) ->
  Forall (fun row => JS.isNullish row = false) rows ->
  exists nodes,
    mapM f rows = Returned nodes
    /\ map name nodes = map (JS.member "id") rows
    /\ Forall (fun node => expandable node = true
                           /\ parentId (nodeData node) = parent) nodes.
Proof.
  intros Hf Hrows. induction Hrows as [|row rest Hrow _ IH]; simpl.
  - exists []. repeat split. constructor.
  - destruct (Hf row Hrow) as [node [Hnode [Hname [Hexp Hparent]]]].
    destruct IH as [nodes [Hmap [Hnames Hall]]].
    exists (node :: nodes). rewrite Hnode, Hmap. simpl.
    repeat split.
    + now rewrite Hname, Hnames.
    + constructor; [split; assumption | exact Hall].
Qed.

(** X11.  Expanding a container on a response that carries a data array of
    objects: exactly one node per row, in the order of the response,
    labelled with the row's [id], expandable, and with the container's
    lineage extended by its own last segment.  An empty data array
    gives the empty list, for attribute groups as well. *)
Theorem container_rows_become_nodes_in_order
        (element : MetadataNode) (setup : ICallSetup)
        (response : JSValue) (rows : list JSValue) :
  (forall resource call callData,
      service_getCallSetup resource call callData = Returned setup) ->
  service_makeCall setup = Returned response ->
  JS.truthy (JS.member "error" response) = false ->
  JS.member "data" response = JArr rows ->
  Forall (fun row => JS.isNullish row = false) rows ->
  exists nodes segment,
    fst (run (containerChildren element)) = Returned nodes
    /\ map name nodes = map (JS.member "id") rows
    /\ JSString.pop_value (JSString.split "." (parentId (nodeData element)))
       = Some segment
    /\ Forall (fun node =>
                 expandable node = true
                 /\ parentId (nodeData node)
                    = parentId (nodeData element) ++ "." ++ segment) nodes.
Proof.
  intros Hsetup Hcall Herr Hdata Hrows.
  destruct (hasDataArray_rows response rows Herr Hdata) as [Hhas Hobj].
  destruct (pop_split_defined "." (parentId (nodeData element)))
    as [segment Hseg].
  unfold getAttributeOrGroupContainerChildren. rewrite Hseg.
  destruct (negb (JS.strictEq (name element) (JStr "Attribute Groups")));
    unfold run, bind, tryCatch, getCallSetup, makeCall, lift, request, ret, read;
    rewrite Hsetup, Hcall, Hobj, Hhas, Hdata; simpl items; simpl JS.toString.
  - destruct (rows_to_nodes
                (attributeRowNode valueDefinitionFields
                   (parentId (nodeData element) ++ "." ++ segment))
                (parentId (nodeData element) ++ "." ++ segment) rows
                (attributeRowNode_defined _) Hrows)
      as [nodes [Hmap [Hnames Hall]]].
    exists nodes, segment. rewrite Hmap. repeat split; assumption.
  - destruct (rows_to_nodes
                (groupRowNode newObjectAttributeGroup
                   (parentId (nodeData element) ++ "." ++ segment))
                (parentId (nodeData element) ++ "." ++ segment) rows
                (groupRowNode_defined _) Hrows)
      as [nodes [Hmap [Hnames Hall]]].
    exists nodes, segment. rewrite Hmap. repeat split; assumption.
Qed.

(** X12.  One row that is [null] or [undefined] makes the whole expansion
    reject: no node is returned for the other rows either. *)
Theorem container_nullish_row_rejects
        (element : MetadataNode) (setup : ICallSetup)
        (response : JSValue) (rows : list JSValue) (row : JSValue) :
  (forall resource call callData,
      service_getCallSetup resource call callData = Returned setup) ->
  service_makeCall setup = Returned response ->
  JS.truthy (JS.member "error" response) = false ->
  JS.member "data" response = JArr rows ->
  In row rows ->
  JS.isNullish row = true ->
  didThrow (fst (run (containerChildren element))) = true.
Proof.
  intros Hsetup Hcall Herr Hdata Hin Hnull.
  destruct (hasDataArray_rows response rows Herr Hdata) as [Hhas Hobj].
  unfold getAttributeOrGroupContainerChildren.
  destruct (negb (JS.strictEq (name element) (JStr "Attribute Groups")));
    unfold run, bind, tryCatch, getCallSetup, makeCall, lift, request, ret, read;
    rewrite Hsetup, Hcall, Hobj, Hhas, Hdata; simpl items; simpl fst.
  - apply (mapM_raises _ rows row Hin).
    unfold attributeRowNode, read. now rewrite Hnull.
  - apply (mapM_raises _ rows row Hin).
    unfold groupRowNode, read. now rewrite Hnull.
Qed.

(** X13.  When the call itself fails, the expansion rejects instead of
    showing a leaf: with the error of the call for attribute groups,
    and with that error wrapped in a new [Error] for attribute
    definitions. *)
Theorem container_call_failure_propagates
        (element : MetadataNode) (setup : ICallSetup) (e : string) :
  (forall resource call callData,
      service_getCallSetup resource call callData = Returned setup) ->
  service_makeCall setup = Thrown e ->
  fst (run (containerChildren element))
  = Thrown (if JS.strictEq (name element) (JStr "Attribute Groups")
            then e else "Error: " ++ e).
Proof.
  intros Hsetup Hcall.
  unfold getAttributeOrGroupContainerChildren.
  destruct (JS.strictEq (name element) (JStr "Attribute Groups")); simpl negb;
    cbv iota;
    unfold run, bind, tryCatch, getCallSetup, makeCall, lift, request, ret,
      raise;
    rewrite Hsetup, Hcall; reflexivity.
Qed.

(** X14.  An expansion of a container issues exactly two requests, the setup
    and then the call, and it hands the setup to [makeCall] as it got
    it: a setup flagged with [setupError] is sent all the same. *)
Theorem container_sends_every_setup
        (element : MetadataNode) (setup : ICallSetup) :
  (forall resource call callData,
      service_getCallSetup resource call callData = Returned setup) ->
  exists resource call callData,
    snd (run (containerChildren element))
    = [ReqGetCallSetup resource call callData; ReqMakeCall setup].
Proof.
  intro Hsetup.
  unfold getAttributeOrGroupContainerChildren.
  destruct (negb (JS.strictEq (name element) (JStr "Attribute Groups")));
    unfold run, bind, tryCatch, getCallSetup, makeCall, lift, request, ret,
      raise, read;
    rewrite Hsetup; do 3 eexists;
    (destruct (service_makeCall setup) as [response|e]; simpl app;
     [destruct (JS.isNullish response);
      [reflexivity
      |destruct (hasDataArray response);
       [match goal with
        | |- context [mapM ?f ?xs] => destruct (mapM f xs)
        end; reflexivity
       |try destruct (isEmptyCount response); reflexivity]]
     |reflexivity]).
Qed.

(** X15.  The first request of a container expansion is read off the lineage
    [... . <resource> . <objectType>]: attribute definitions are asked
    of the resource named by the segment before the last, attribute
    groups always of [systemObjectDefinitions]; both for the object
    type named by the last segment. *)
Theorem container_request_follows_lineage
        (element : MetadataNode) (lineage resource objectType : string) :
  parentId (nodeData element) = lineage ++ "." ++ resource ++ "." ++ objectType ->
  JSString.split "." resource = [resource] ->
  JSString.split "." objectType = [objectType] ->
  hd_error (snd (run (containerChildren element)))
  = Some (if JS.strictEq (name element) (JStr "Attribute Groups")
          then ReqGetCallSetup (JStr "systemObjectDefinitions")
                 "getAttributeGroups"
                 [("select", JStr "(**)"); ("count", JNum 150);
                  ("expand", JStr "definition");
                  ("objectType", JStr objectType)]
          else ReqGetCallSetup (JStr resource) "getAttributes"
                 [("count", JNum 700); ("objectType", JStr objectType);
                  ("select", JStr "(**)")]).
Proof.
  intros Hparent Hres Htype.
  unfold getAttributeOrGroupContainerChildren. rewrite Hparent.
  assert (Hsplit : JSString.split "." (lineage ++ "." ++ resource ++ "." ++ objectType)
                   = (JSString.split "." (lineage ++ "." ++ resource) ++ [objectType])%list).
  { assert (Heq : lineage ++ "." ++ resource ++ "." ++ objectType
                  = (lineage ++ "." ++ resource) ++ "." ++ objectType)
      by (rewrite append_assoc; reflexivity).
    rewrite Heq, split_app, Htype. reflexivity. }
  rewrite Hsplit, pop_value_last, pop_rest_last.
  destruct (pop_lineage lineage resource Hres) as [Hpop _]. rewrite Hpop.
  destruct (JS.strictEq (name element) (JStr "Attribute Groups")); simpl negb;
    cbv iota;
    unfold run, bind, tryCatch, getCallSetup, makeCall, lift, request, ret,
      raise, read; simpl optStr;
    match goal with
    | |- context [service_getCallSetup ?r ?c ?d] =>
        destruct (service_getCallSetup r c d) as [setup|e]
    end; simpl app; try reflexivity;
    (destruct (service_makeCall setup) as [response|e]; simpl app;
     [destruct (JS.isNullish response);
      [reflexivity
      |destruct (hasDataArray response);
       [match goal with
        | |- context [mapM ?f ?xs] => destruct (mapM f xs)
        end; reflexivity
       |try destruct (isEmptyCount response); reflexivity]]
     |reflexivity]).
Qed.

End ContainerExpansion.

Section CategoryExpansion.

Import OCAPIService MetadataViewProvider.

Variable service_getCallSetup :
  JSValue -> string -> JS.Props -> outcome ICallSetup.
Variable service_makeCall : ICallSetup -> outcome JSValue.
Variable newObjectAttributeGroup : JSValue -> JSValue.
Variable newObjectTypeDefinition : JSValue -> ObjectTypeDefinition.
Variable workspaceConfig_get : string -> JSValue.

Local Abbreviation baseChildren :=
  (getBaseNodeChildren service_getCallSetup service_makeCall
     newObjectAttributeGroup newObjectTypeDefinition).

(** X16.  Expanding the system or the custom category on a data array of
    objects partitions the rows: the system category keeps the rows
    whose [object_type] is not [CustomObject] and labels them with it,
    the custom category keeps the [CustomObject] rows that have a
    display name and labels them with its default entry.  The order of
    the response is kept, and every node is expandable with the lineage
    [root.<category>].  The [error] member of the response is not
    looked at. *)
Theorem base_category_partitions_rows
        (system : bool) (element : MetadataNode) (setup : ICallSetup)
        (response : JSValue) (rows : list JSValue) :
  baseNodeName (nodeData element) = Some (categoryName system) ->
  (forall resource call callData,
      service_getCallSetup resource call callData = Returned setup) ->
  service_makeCall setup = Returned response ->
  JS.member "data" response = JArr rows ->
  Forall (fun row => JS.isNullish row = false) rows ->
  exists nodes,
    fst (run (baseChildren element)) = Returned (Some nodes)
    /\ map name nodes = map (labelBy system) (filter (keptBy system) rows)
    /\ Forall (fun node =>
                 expandable node = true
                 /\ parentId (nodeData node) = "root." ++ categoryName system)
              nodes.
Proof.
  intros Hbase Hsetup Hcall Hdata Hrows.
  assert (Hobj : JS.isNullish response = false)
    by (destruct response; try reflexivity; discriminate).
  rewrite Forall_forall in Hrows.
  unfold getBaseNodeChildren. rewrite Hbase.
  set (baseName := optStr (Some (categoryName system))).
  assert (Hnot : JS.strictEq baseName (JStr "sitePreferences") = false)
    by (now destruct system).
  rewrite Hnot.
  unfold run, bind, getCallSetup, makeCall, lift, request, ret, read.
  rewrite Hsetup, Hcall, Hobj, Hdata.
  change (JS.truthy (JArr rows) && JS.isArray (JArr rows)) with true.
  change (items (JArr rows)) with rows. cbv beta iota.
  assert (Hkeep : filterM (keepRow baseName) rows
                  = Returned (filter (keptBy system) rows)).
  { apply filterM_pure. intros row Hrow.
    unfold keepRow, read. rewrite (Hrows row Hrow). simpl obind.
    now destruct system. }
  rewrite Hkeep.
  set (node := fun row =>
         mkMetadataNode (labelBy system row)
           TreeItemCollapsibleState.Collapsed
           (withDisplayDescription (JStr " ")
              (withObjectTypeDefinition (newObjectTypeDefinition row)
                 (nodeDataOf ("root." ++ JS.toString baseName))))).
  assert (Hnodes : mapM (typeRowNode newObjectTypeDefinition baseName)
                        (filter (keptBy system) rows)
                   = Returned (map node (filter (keptBy system) rows))).
  { apply mapM_pure. intros row Hrow. apply filter_In in Hrow as [Hin Hkept].
    unfold typeRowNode, read. rewrite (Hrows row Hin).
    destruct system; simpl; [reflexivity|].
    unfold keptBy in Hkept. apply andb_prop in Hkept as [_ Hname].
    rewrite (truthy_not_nullish _ Hname). reflexivity. }
  rewrite Hnodes. simpl fst.
  exists (map node (filter (keptBy system) rows)).
  split; [reflexivity|]. split.
  - rewrite map_map. reflexivity.
  - apply Forall_forall. intros n Hn. apply in_map_iff in Hn as [row [<- _]].
    split; [reflexivity|]. now destruct system.
Qed.

(** X17.  Every node of the first level is expandable, hangs under [root], is
    one of the three categories with its setting switched on, and, when
    expanded, first asks for a call setup on a catalog resource: the
    category's own [getAll] with a page of 500, or, for Site
    Preferences, the attribute groups of the object type
    [SitePreferences]. *)
Theorem root_children_lead_to_list_calls (node : MetadataNode) :
  In node (getRootChildren workspaceConfig_get) ->
  expandable node = true
  /\ parentId (nodeData node) = "root"
  /\ ((node = categoryNode "System Object Definitions" "systemObjectDefinitions"
       /\ JS.truthy (workspaceConfig_get "explorer.systemobjects") = true
       /\ hd_error (snd (run (baseChildren node)))
          = Some (ReqGetCallSetup (JStr "systemObjectDefinitions") "getAll"
                    [("count", JNum 500); ("select", JStr "(**)")]))
      \/ (node = categoryNode "Custom Object Definitions" "customObjectDefinitions"
          /\ JS.truthy (workspaceConfig_get "explorer.customobjects") = true
          /\ hd_error (snd (run (baseChildren node)))
             = Some (ReqGetCallSetup (JStr "customObjectDefinitions") "getAll"
                       [("count", JNum 500); ("select", JStr "(**)")]))
      \/ (node = categoryNode "Site Preferences" "sitePreferences"
          /\ JS.truthy (workspaceConfig_get "explorer.sitepreferences") = true
          /\ hd_error (snd (run (baseChildren node)))
             = Some (ReqGetCallSetup (JStr "systemObjectDefinitions")
                       "getAttributeGroups"
                       [("select", JStr "(**)");
                        ("expand", JStr "definition");
                        ("objectType", JStr "SitePreferences")]))).
Proof.
  assert (Hfirst : forall label base,
            base <> "sitePreferences" ->
            hd_error (snd (run (baseChildren (categoryNode label base))))
            = Some (ReqGetCallSetup (JStr base) "getAll"
                      [("count", JNum 500); ("select", JStr "(**)")])).
  { intros label base Hbase. unfold getBaseNodeChildren. simpl baseNodeName.
    simpl optStr.
    assert (Hnot : JS.strictEq (JStr base) (JStr "sitePreferences") = false)
      by (simpl; now apply String.eqb_neq).
    rewrite Hnot.
    unfold run, bind, getCallSetup, makeCall, lift, request, ret, read.
    destruct (service_getCallSetup _ _ _) as [setup|e]; [|reflexivity].
    destruct (service_makeCall setup) as [response|e]; [|reflexivity].
    simpl app.
    destruct (JS.isNullish response); [reflexivity|].
    destruct (JS.truthy (JS.member "data" response)
              && JS.isArray (JS.member "data" response)); [|reflexivity].
    destruct (filterM _ _) as [kept|e]; [|reflexivity].
    destruct (mapM _ kept); reflexivity. }
  assert (Hprefs : hd_error
                     (snd (run (baseChildren
                                  (categoryNode "Site Preferences"
                                                "sitePreferences"))))
                   = Some (ReqGetCallSetup (JStr "systemObjectDefinitions")
                             "getAttributeGroups"
                             [("select", JStr "(**)");
                              ("expand", JStr "definition");
                              ("objectType", JStr "SitePreferences")])).
  { unfold getBaseNodeChildren. simpl baseNodeName. simpl optStr.
    change (JS.strictEq (JStr "sitePreferences") (JStr "sitePreferences"))
      with true. cbv iota.
    unfold getAllPreferences, run, bind, getCallSetup, makeCall, lift,
      request, ret, read.
    destruct (service_getCallSetup _ _ _) as [setup|e]; [|reflexivity].
    destruct (service_makeCall setup) as [response|e]; [|reflexivity].
    simpl app.
    destruct (JS.isNullish response); [reflexivity|].
    destruct (hasDataArray response).
    - destruct (mapM _ _); reflexivity.
    - destruct (isEmptyCount response); reflexivity. }
  unfold getRootChildren. intro Hin.
  destruct (JS.truthy (workspaceConfig_get "explorer.systemobjects")) eqn:Hs;
    destruct (JS.truthy (workspaceConfig_get "explorer.customobjects")) eqn:Hc;
    destruct (JS.truthy (workspaceConfig_get "explorer.sitepreferences")) eqn:Hp;
    simpl in Hin;
    repeat (destruct Hin as [<-|Hin];
            [split; [reflexivity|]; split; [reflexivity|];
             first
               [ left; split; [reflexivity|]; split; [reflexivity|];
                 apply Hfirst; discriminate
               | right; left; split; [reflexivity|]; split; [reflexivity|];
                 apply Hfirst; discriminate
               | right; right; split; [reflexivity|]; split; [reflexivity|];
                 exact Hprefs ]
            |]);
    contradiction.
Qed.

End CategoryExpansion.

Section Dispatch.

Import OCAPIService MetadataViewProvider.

Variable service_getCallSetup :
  JSValue -> string -> JS.Props -> outcome ICallSetup.
Variable service_makeCall : ICallSetup -> outcome JSValue.
Variable ocapiHelper_getExpandedAttribute : MetadataNode -> outcome JSValue.
Variable valueDefinitionFields : JSValue -> JS.Props.
Variable newObjectAttributeGroup : JSValue -> JSValue.
Variable newObjectTypeDefinition : JSValue -> ObjectTypeDefinition.
Variable workspaceConfig_get : string -> JSValue.
Variable nodeTypeOf : MetadataNode -> string.
Variable rootTreeOf : MetadataNode -> string.
Variable ROOT_NODES_sitePrefs : string.
Variable spHelper_getSitePreferenceSites : MetadataNode -> M Children.
Variable spHelper_getSitePreference : MetadataNode -> M Children.
Variable spHelper_getPreferencesInGroup : MetadataNode -> M Children.
Variable ocapiHelper_getValueDefinitionNodes : MetadataNode -> M Children.
Variable getAttributeGroupChildren : MetadataNode -> M Children.

Local Abbreviation children :=
  (getChildren service_getCallSetup service_makeCall
     ocapiHelper_getExpandedAttribute valueDefinitionFields
     newObjectAttributeGroup newObjectTypeDefinition workspaceConfig_get
     nodeTypeOf rootTreeOf ROOT_NODES_sitePrefs
     spHelper_getSitePreferenceSites spHelper_getSitePreference
     spHelper_getPreferencesInGroup ocapiHelper_getValueDefinitionNodes
     getAttributeGroupChildren).

Local Abbreviation definitionChildren :=
  (getAttributeDefinitionChildren ocapiHelper_getExpandedAttribute
     valueDefinitionFields).

(** A node that is not expandable gets the empty list, whatever its
    type, and nothing is asked of any collaborator. *)
Lemma getChildren_of_leaf (element : MetadataNode) :
  expandable element = false ->
  run (children (Some element)) = (Returned (Some []), []).
Proof. intro H. unfold getChildren, run. now rewrite H. Qed.

(** X18.  Under a lineage that mentions [customObjectDefinitions], neither
    container made for an object type can be opened: [getChildren]
    answers the empty list for "Attribute Definitions" as for
    "Attribute Groups" and issues no request, so the attributes of a
    custom object type are never asked for. *)
Theorem custom_object_containers_never_expand
        (element : MetadataNode) (otd : ObjectTypeDefinition)
        (nodes : list MetadataNode) (container : MetadataNode) :
  objectTypeDefinition (nodeData element) = Some otd ->
  JSString.includes "customObjectDefinitions" (parentId (nodeData element))
    = true ->
  getObjectDefinitionChildren element = Returned nodes ->
  In container nodes ->
  run (children (Some container)) = (Returned (Some []), []).
Proof.
  intros Hotd Hcustom Hnodes Hin.
  unfold getObjectDefinitionChildren in Hnodes.
  rewrite Hotd, Hcustom in Hnodes. injection Hnodes as <-.
  apply getChildren_of_leaf.
  destruct Hin as [<-|[<-|[]]]; reflexivity.
Qed.

(** X19.  The children of an "Attributes" node of a group: one leaf per
    string, in order; each records the group it belongs to, the last
    segment of the node's lineage, and extends the lineage by the
    node's label. *)
Theorem string_list_children_record_their_group
        (element : MetadataNode) (strings : list JSValue)
        (lineage group : string) :
  stringList (nodeData element) = Some strings ->
  parentId (nodeData element) = lineage ++ "." ++ group ->
  JSString.split "." group = [group] ->
  exists nodes,
    getStringListChildren element = Returned nodes
    /\ map name nodes = strings
    /\ Forall (fun node =>
                 expandable node = false
                 /\ groupAttribute (nodeData node) = Some group
                 /\ parentId (nodeData node)
                    = lineage ++ "." ++ group ++ "." ++
                      JS.toString (name element)) nodes.
Proof.
  intros Hstrings Hparent Hgroup.
  unfold getStringListChildren. rewrite Hstrings, Hparent.
  destruct (pop_lineage lineage group Hgroup) as [Hpop _]. rewrite Hpop.
  eexists. split; [reflexivity|]. split.
  - rewrite map_map. simpl. apply map_id.
  - apply Forall_forall. intros node Hnode.
    apply in_map_iff in Hnode as [str [<- _]].
    repeat split. simpl. now rewrite !append_assoc.
Qed.

Lemma valueMemberNodes_spec (parent : string) (members : JS.Props) :
  didThrow (mapM (valueMemberNode parent) members)
    = existsb (fun entry => JS.isNullish (snd entry)) members
  /\ forall nodes,
       mapM (valueMemberNode parent) members = Returned nodes ->
       List.length nodes = List.length members
       /\ Forall (fun node =>
                    expandable node = false
                    /\ parentId (nodeData node) = parent) nodes.
Proof.
  induction members as [|[k v] rest [IHthrow IHnodes]].
  - split; [reflexivity|]. intros nodes [= <-].
    split; [reflexivity | constructor].
  - assert (Hone : (JS.isNullish v = true
                    /\ didThrow (valueMemberNode parent (k, v)) = true)
                   \/ (JS.isNullish v = false
                       /\ exists node,
                            valueMemberNode parent (k, v) = Returned node
                            /\ expandable node = false
                            /\ parentId (nodeData node) = parent)).
    { unfold valueMemberNode, read. simpl fst. simpl snd.
      destruct v; simpl;
        try (left; split; reflexivity);
        right; (split; [reflexivity|]); eexists; repeat split. }
    change (existsb (fun entry => JS.isNullish (snd entry)) ((k, v) :: rest))
      with (JS.isNullish v
            || existsb (fun entry => JS.isNullish (snd entry)) rest).
    change (mapM (valueMemberNode parent) ((k, v) :: rest))
      with (obind (valueMemberNode parent (k, v))
              (fun y => obind (mapM (valueMemberNode parent) rest)
                          (fun rest' => Returned (y :: rest')))).
    destruct Hone as [[Hnull Hthrow]|[Hnull [node [Hnode [Hexp Hpar]]]]];
      rewrite Hnull; simpl orb.
    + destruct (valueMemberNode parent (k, v)); [discriminate|].
      split; [reflexivity | discriminate].
    + rewrite Hnode. cbv beta iota delta [obind].
      destruct (mapM (valueMemberNode parent) rest) as [nodes'|e].
      * split; [exact IHthrow|]. intros nodes [= <-].
        destruct (IHnodes nodes' eq_refl) as [Hlen Hall].
        split; [simpl; now rewrite Hlen|].
        constructor; [split; assumption | exact Hall].
      * split; [exact IHthrow | discriminate].
Qed.

(** X20.  Expanding a value definition rejects exactly when one of its
    members is [null] or [undefined]; otherwise it gives one leaf per
    member, whose lineage is the node's lineage immediately followed by
    [objectAttributeValueDefinition], without a separating dot. *)
Theorem value_definition_children_need_every_member
        (element : MetadataNode) (cls : string) (members : JS.Props) :
  objectAttributeValueDefinition (nodeData element)
    = Some (JObj cls members) ->
  didThrow (getAttributeValueDefinitionChildren element)
    = existsb (fun entry => JS.isNullish (snd entry)) members
  /\ forall nodes,
       getAttributeValueDefinitionChildren element = Returned nodes ->
       List.length nodes = List.length members
       /\ Forall (fun node =>
                    expandable node = false
                    /\ parentId (nodeData node)
                       = parentId (nodeData element) ++
                         "objectAttributeValueDefinition") nodes.
Proof.
  intro Hdef. unfold getAttributeValueDefinitionChildren. rewrite Hdef.
  apply valueMemberNodes_spec.
Qed.

(** X21.  The array returned for an attribute definition built by the
    constructor always has 33 entries, one per member of the instance,
    and its first entry is [undefined]: the member [MEMBER_MAP] is
    neither a primitive, nor a localized string, nor a value
    definition, nor an array. *)
Theorem definition_children_start_with_a_gap
        (element : MetadataNode) (raw : JS.Props) (valueType : string)
        (found : list (option MetadataNode)) :
  objectAttributeDefinition (nodeData element)
    = Some (ObjectAttributeDefinition.new valueDefinitionFields raw) ->
  JS.getProp "valueType"
    (ObjectAttributeDefinition.new valueDefinitionFields raw)
    = JStr valueType ->
  fst (run (definitionChildren element)) = Returned found ->
  List.length found = 33 /\ hd_error found = Some None.
Proof.
  intros Hown Htype. unfold getAttributeDefinitionChildren.
  rewrite Hown, Htype.
  unfold run, bind, lift, mentionsEnum, getExpandedAttribute, request, ret.
  destruct (JSString.includes "enum" valueType).
  - destruct (ocapiHelper_getExpandedAttribute element) as [attrAPIObj|e];
      [|discriminate].
    destruct (JS.truthy attrAPIObj); intros [= <-]; split; reflexivity.
  - intros [= <-]. split; reflexivity.
Qed.

End Dispatch.

(** ** The first tree provider *)

Section FirstProvider.

Import OCAPIService.

(** X22.  Built on the service of the same sources, the first provider never
    shows a root level: whatever the catalog and the connection, the
    expansion without an element rejects, because [makeCall] returns
    nothing for [.data] to be read from (where [getCallSetup] has not
    already raised); and with an element it resolves to [undefined]. *)
Theorem first_provider_never_lists
        (cfg : ApiConfig.Config) (discovered : outcome IDWConfig) :
  didThrow (ComponentsProvider.getChildren cfg discovered None) = true
  /\ forall element,
       ComponentsProvider.getChildren cfg discovered (Some element)
       = Returned None.
Proof.
  split; [|reflexivity].
  unfold ComponentsProvider.getChildren.
  destruct (getCallSetup cfg discovered newService "systemObjectDefinitions"
                         "getAll" [("select", JStr "(**)")]) as [[r|e] s];
    reflexivity.
Qed.

End FirstProvider.

(** ** The export serialiser, continued *)

Section SerialiserMore.

Import XMLHandler.

Lemma elements_unfold (t : string) (a : list (string * string))
      (x : option string) (cs : list XMLNode) :
  elements (Element t a x cs) = Element t a x cs :: flat_map elements cs.
Proof.
  reflexivity.
Qed.

Lemma hasElement_unfold (T t : string) (a : list (string * string))
      (x : option string) (cs : list XMLNode) :
  hasElement T (Element t a x cs)
  = String.eqb t T
    || existsb (fun e => String.eqb (tagOf e) T) (flat_map elements cs).
Proof. unfold hasElement. now rewrite elements_unfold. Qed.

(** Below the value definitions there are only [value-definition],
    [display] and [value] elements. *)
Lemma value_definition_tags (T : string)
      (vds : list ObjectAttributeValueDefinition) :
  String.eqb "value-definition" T = false ->
  String.eqb "display" T = false ->
  String.eqb "value" T = false ->
  existsb (fun e => String.eqb (tagOf e) T)
          (flat_map elements (flat_map valueDefinitionElement vds)) = false.
Proof.
  intros H1 H2 H3. induction vds as [|vd rest IH]; [reflexivity|].
  simpl flat_map at 2. rewrite flat_map_app, existsb_app, IH, orb_false_r.
  unfold valueDefinitionElement.
  destruct (displayValue vd); [|reflexivity].
  destruct (value vd) as [v|]; [|reflexivity].
  destruct (primitiveTruthy v); [|reflexivity].
  cbn -[String.eqb]. now rewrite H1, H2, H3.
Qed.

Lemma object_type_tags (T t : string) (attribute : ObjectAttributeDefinition) :
  existsb (fun e => String.eqb (tagOf e) T)
          (flat_map elements (objectTypeChildren t attribute))
  = (String.eqb t "Product"
     && (String.eqb "localizable-flag" T || String.eqb "site-specific-flag" T
         || String.eqb "visible-flag" T || String.eqb "order-required-flag" T
         || String.eqb "externally-defined-flag" T))
    || ((String.eqb t "Product" || String.eqb t "SitePreferences")
        && match defaultValue attribute with
           | Some _ => String.eqb "default-value" T
           | None => false
           end).
Proof.
  unfold objectTypeChildren.
  destruct (String.eqb t "Product").
  - destruct (defaultValue attribute); cbn -[String.eqb];
      rewrite ?orb_false_r, ?orb_assoc; reflexivity.
  - destruct (String.eqb t "SitePreferences"); [|reflexivity].
    destruct (defaultValue attribute); cbn -[String.eqb];
      now rewrite ?orb_false_r.
Qed.

Lemma export_elements (T t : string) (attribute : ObjectAttributeDefinition) :
  hasElement T (getObjectAttributeXML t attribute)
  = String.eqb "type-extension" T
    || (String.eqb "custom-attribute-definitions" T
        || (String.eqb "attribute-definition" T
            || (String.eqb "display-name" T
                || (String.eqb "description" T
                    || (String.eqb "type" T
                        || (String.eqb "mandatory-flag" T
                            || (String.eqb "externally-managed-flag" T
                                || (existsb (fun e => String.eqb (tagOf e) T)
                                      (flat_map elements
                                         (valueTypeChildren attribute))
                                    || existsb (fun e => String.eqb (tagOf e) T)
                                         (flat_map elements
                                            (objectTypeChildren t attribute)))))))))).
Proof.
  unfold getObjectAttributeXML.
  rewrite hasElement_unfold. f_equal.
  cbn -[String.eqb elements]. rewrite app_nil_r.
  rewrite elements_unfold. cbn -[String.eqb elements]. f_equal.
  rewrite app_nil_r.
  rewrite elements_unfold. cbn -[String.eqb elements app]. f_equal.
  change (?a :: ?b :: ?c :: ?d :: ?e :: ?rest)%list
    with ([a; b; c; d; e] ++ rest)%list.
  rewrite !flat_map_app, !existsb_app. cbn -[String.eqb].
  now rewrite !orb_false_r, !orb_assoc.
Qed.

(** X23.  Which of the two value-type blocks an export has depends on the
    value type alone, compared in lower case: [min-length] exactly for
    [string], [value-definitions] exactly for a type other than
    [string] that mentions [enum] and has at least one value
    definition.  No export has both. *)
Theorem export_value_type_blocks
        (systemObjectType : string) (attribute : ObjectAttributeDefinition) :
  let valType := JSString.toLocaleLowerCase (valueType attribute) in
  let document := getObjectAttributeXML systemObjectType attribute in
  hasElement "min-length" document = String.eqb valType "string"
  /\ hasElement "value-definitions" document
     = negb (String.eqb valType "string")
       && JSString.includes "enum" valType
       && negb (Nat.eqb (List.length (valueDefinitions attribute)) 0).
Proof.
  cbv zeta. rewrite !export_elements, !object_type_tags.
  assert (Hno : forall b : bool,
            b && match defaultValue attribute with
                 | Some _ => false
                 | None => false
                 end = false)
    by (intro b; destruct (defaultValue attribute); apply andb_false_r).
  cbn -[valueTypeChildren elements flat_map existsb].
  rewrite !andb_false_r, !Hno, !orb_false_r.
  unfold valueTypeChildren.
  destruct (String.eqb (JSString.toLocaleLowerCase (valueType attribute))
                       "string").
  - split; reflexivity.
  - destruct (JSString.includes "enum" _); [|split; reflexivity].
    destruct (negb (Nat.eqb (List.length (valueDefinitions attribute)) 0));
      [|split; reflexivity].
    cbn -[valueDefinitionElement elements String.eqb]. rewrite app_nil_r.
    rewrite elements_unfold. cbn -[valueDefinitionElement elements flat_map].
    rewrite value_definition_tags by reflexivity.
    split; reflexivity.
Qed.

(** X24.  Which blocks depend on the owning object type: the five flags from
    [localizable-flag] on are written exactly for [Product], compared
    as it is spelled, and a [default-value] exactly for [Product] or
    [SitePreferences] when the attribute has a default value. *)
Theorem export_object_type_blocks
        (systemObjectType : string) (attribute : ObjectAttributeDefinition) :
  let document := getObjectAttributeXML systemObjectType attribute in
  hasElement "localizable-flag" document
    = String.eqb systemObjectType "Product"
  /\ hasElement "site-specific-flag" document
     = String.eqb systemObjectType "Product"
  /\ hasElement "visible-flag" document
     = String.eqb systemObjectType "Product"
  /\ hasElement "order-required-flag" document
     = String.eqb systemObjectType "Product"
  /\ hasElement "externally-defined-flag" document
     = String.eqb systemObjectType "Product"
  /\ hasElement "default-value" document
     = (String.eqb systemObjectType "Product"
        || String.eqb systemObjectType "SitePreferences")
       && match defaultValue attribute with
          | Some _ => true
          | None => false
          end.
Proof.
  cbv zeta. rewrite !export_elements, !object_type_tags.
  assert (Hvt : forall T,
            String.eqb "min-length" T = false ->
            String.eqb "value-definitions" T = false ->
            String.eqb "value-definition" T = false ->
            String.eqb "display" T = false ->
            String.eqb "value" T = false ->
            existsb (fun e => String.eqb (tagOf e) T)
                    (flat_map elements (valueTypeChildren attribute)) = false).
  { intros T H1 H2 H3 H4 H5. unfold valueTypeChildren.
    destruct (String.eqb _ "string");
      [cbn -[String.eqb]; now rewrite H1|].
    destruct (JSString.includes "enum" _ && _); [|reflexivity].
    cbn -[valueDefinitionElement elements String.eqb]. rewrite app_nil_r.
    rewrite elements_unfold.
    cbn -[valueDefinitionElement elements flat_map String.eqb].
    rewrite H2. now apply value_definition_tags. }
  rewrite !Hvt by reflexivity. simpl.
  destruct (String.eqb systemObjectType "Product");
    destruct (String.eqb systemObjectType "SitePreferences");
    destruct (defaultValue attribute); repeat split.
Qed.

(** An entry of the value definitions that has both a display value and
    a truthy value. *)
Lemma value_definition_pairs (vds : list ObjectAttributeValueDefinition) :
  Forall (fun e => tagOf e = "value-definition"
                   /\ map tagOf (childrenOf e) = ["display"; "value"])
         (flat_map valueDefinitionElement vds)
  /\ List.length (flat_map valueDefinitionElement vds)
     = List.length
         (filter (fun vd => match displayValue vd, value vd with
                            | Some _, Some v => primitiveTruthy v
                            | _, _ => false
                            end) vds).
Proof.
  induction vds as [|vd rest [IHall IHlen]]; [split; [constructor | reflexivity]|].
  simpl. unfold valueDefinitionElement at 1 3.
  destruct (displayValue vd); [|split; assumption].
  destruct (value vd) as [v|]; [|split; assumption].
  destruct (primitiveTruthy v); [|split; assumption].
  simpl. split.
  - constructor; [split; reflexivity | exact IHall].
  - now rewrite IHlen.
Qed.

(** X25.  In the export of an enumeration, the [value-definitions] block
    holds one [value-definition] for each entry that has a display
    value and a truthy value, each made of a [display] and a [value]
    element; entries without a display value, or with the value [0],
    [''] or [false], are left out. *)
Theorem export_value_definitions_are_pairs
        (systemObjectType : string) (attribute : ObjectAttributeDefinition) :
  String.eqb (JSString.toLocaleLowerCase (valueType attribute)) "string"
    = false ->
  JSString.includes "enum" (JSString.toLocaleLowerCase (valueType attribute))
    = true ->
  valueDefinitions attribute <> [] ->
  exists pairs,
    In (Element "value-definitions" [] None pairs)
       (elements (getObjectAttributeXML systemObjectType attribute))
    /\ List.length pairs
       = List.length
           (filter (fun vd => match displayValue vd, value vd with
                              | Some _, Some v => primitiveTruthy v
                              | _, _ => false
                              end) (valueDefinitions attribute))
    /\ Forall (fun e => tagOf e = "value-definition"
                        /\ map tagOf (childrenOf e) = ["display"; "value"])
              pairs.
Proof.
  intros Hstring Henum Hsome.
  exists (flat_map valueDefinitionElement (valueDefinitions attribute)).
  destruct (value_definition_pairs (valueDefinitions attribute)) as [Hall Hlen].
  split; [|split; assumption].
  unfold getObjectAttributeXML.
  rewrite elements_unfold. right.
  cbn [flat_map]. rewrite app_nil_r, elements_unfold. right.
  cbn [flat_map]. rewrite app_nil_r, elements_unfold. right.
  rewrite !flat_map_app. apply in_or_app. right. apply in_or_app. left.
  unfold valueTypeChildren. rewrite Hstring, Henum.
  destruct (valueDefinitions attribute) as [|vd rest] eqn:Hvds;
    [contradiction|].
  change (negb (Nat.eqb (List.length (vd :: rest)) 0)) with true.
  cbn [andb flat_map]. rewrite app_nil_r, elements_unfold. now left.
Qed.

(** X26.  Whatever node is exported, the document that comes back has
    the root [metadata] with the one attribute [xmlns] holding the impex
    namespace and no text.  For a node that is an attribute definition
    or an attribute group the root has exactly one child, the
    [type-extension] of the owning object type; for a node of any other
    type the root has no child at all. *)
Theorem export_root_is_always_namespaced
        (metaNode : MetadataNode) (document : XMLNode) :
  getXMLFromNode metaNode = Returned document ->
  tagOf document = "metadata"
  /\ attributesOf document
     = [("xmlns", "http://www.demandware.com/xml/impex/metadata/2006-10-31")]
  /\ textOf document = None
  /\ (if String.eqb (nodeType metaNode) "objectAttributeDefinition"
         || String.eqb (nodeType metaNode) "objectAttributeGroup"
      then exists kids,
             childrenOf document
             = [Element "type-extension"
                        [("type-id", owningObjectType metaNode)] None kids]
      else childrenOf document = []).
Proof.
  unfold getXMLFromNode.
  destruct (String.eqb (nodeType metaNode) "objectAttributeDefinition").
  - destruct (objectAttributeDefinition metaNode); [|discriminate].
    intros [= <-]. repeat split. eexists. reflexivity.
  - destruct (String.eqb (nodeType metaNode) "objectAttributeGroup").
    + destruct (objectAttributeGroup metaNode); [|discriminate].
      intros [= <-]. repeat split. eexists. reflexivity.
    + intros [= <-]. repeat split.
Qed.

(** X27.  For a node whose lineage is [<lineage>.<objectType>], the export of
    its attribute definition is the [type-extension] of [objectType],
    whatever comes before the last dot. *)
Theorem export_type_id_follows_lineage
        (metaNode : MetadataNode) (attribute : ObjectAttributeDefinition)
        (lineage objectType : string) :
  nodeType metaNode = "objectAttributeDefinition" ->
  objectAttributeDefinition metaNode = Some attribute ->
  parentId metaNode = lineage ++ "." ++ objectType ->
  JSString.split "." objectType = [objectType] ->
  getXMLFromNode metaNode
  = Returned (Element "metadata" [("xmlns", NAMESPACE_STRING)] None
                [getObjectAttributeXML objectType attribute]).
Proof.
  intros Htype Hattr Hparent Hseg.
  unfold getXMLFromNode, owningObjectType.
  rewrite Htype, Hattr, Hparent.
  destruct (pop_lineage lineage objectType Hseg) as [Hpop _].
  now rewrite Hpop.
Qed.

End SerialiserMore.

(** ** Worked examples of the further properties *)

Section MoreExamples.

Import OCAPIService MetadataViewProvider.

Lemma container_rows_become_nodes_in_order_witness :
  exists nodes,
    fst (run (getAttributeOrGroupContainerChildren
                Samples.anySetup
                (Samples.respondWith Samples.attributesResponse)
                Samples.valueDefinitionFields Samples.newObjectAttributeGroup
                Samples.definitionsContainer))
    = Returned nodes
    /\ map name nodes = [JStr "a1"; JStr "a2"]
    /\ Forall (fun node =>
                 expandable node = true
                 /\ parentId (nodeData node)
                    = "root.systemObjectDefinitions.Product.Product") nodes.
Proof.
  assert (Hrows : Forall (fun row => JS.isNullish row = false)
                         [Samples.rowA1; Samples.rowA2])
    by (repeat constructor).
  destruct (container_rows_become_nodes_in_order
              Samples.anySetup (Samples.respondWith Samples.attributesResponse)
              Samples.valueDefinitionFields Samples.newObjectAttributeGroup
              Samples.definitionsContainer Samples.someSetup
              Samples.attributesResponse [Samples.rowA1; Samples.rowA2]
              (fun _ _ _ => eq_refl) eq_refl eq_refl eq_refl Hrows)
    as [nodes [segment [Hrun [Hnames [Hseg Hall]]]]].
  exists nodes. split; [exact Hrun|]. split; [exact Hnames|].
  injection Hseg as <-. exact Hall.
Defined.

Lemma container_nullish_row_rejects_witness :
  In JNull [Samples.rowA1; JNull; Samples.rowA2]
  /\ didThrow
       (fst (run (getAttributeOrGroupContainerChildren
                    Samples.anySetup
                    (Samples.respondWith Samples.brokenRowsResponse)
                    Samples.valueDefinitionFields
                    Samples.newObjectAttributeGroup
                    Samples.definitionsContainer))) = true.
Proof.
  assert (Hin : In JNull [Samples.rowA1; JNull; Samples.rowA2])
    by (right; left; reflexivity).
  split; [exact Hin|].
  exact (container_nullish_row_rejects
           Samples.anySetup (Samples.respondWith Samples.brokenRowsResponse)
           Samples.valueDefinitionFields Samples.newObjectAttributeGroup
           Samples.definitionsContainer Samples.someSetup
           Samples.brokenRowsResponse [Samples.rowA1; JNull; Samples.rowA2]
           JNull (fun _ _ _ => eq_refl) eq_refl eq_refl eq_refl Hin eq_refl).
Defined.

Lemma container_call_failure_propagates_witness :
  fst (run (getAttributeOrGroupContainerChildren
              Samples.anySetup (Samples.rejectWith "ETIMEDOUT")
              Samples.valueDefinitionFields Samples.newObjectAttributeGroup
              Samples.groupsContainer))
  = Thrown "ETIMEDOUT"
  /\ fst (run (getAttributeOrGroupContainerChildren
                 Samples.anySetup (Samples.rejectWith "ETIMEDOUT")
                 Samples.valueDefinitionFields Samples.newObjectAttributeGroup
                 Samples.definitionsContainer))
     = Thrown "Error: ETIMEDOUT".
Proof.
  split.
  - exact (container_call_failure_propagates
             Samples.anySetup (Samples.rejectWith "ETIMEDOUT")
             Samples.valueDefinitionFields Samples.newObjectAttributeGroup
             Samples.groupsContainer Samples.someSetup "ETIMEDOUT"
             (fun _ _ _ => eq_refl) eq_refl).
  - exact (container_call_failure_propagates
             Samples.anySetup (Samples.rejectWith "ETIMEDOUT")
             Samples.valueDefinitionFields Samples.newObjectAttributeGroup
             Samples.definitionsContainer Samples.someSetup "ETIMEDOUT"
             (fun _ _ _ => eq_refl) eq_refl).
Defined.

Lemma container_sends_every_setup_witness :
  setupError Samples.flaggedSetup = true
  /\ exists resource call callData,
       snd (run (getAttributeOrGroupContainerChildren
                   Samples.flaggedAnswer
                   (Samples.respondWith Samples.emptyResponse)
                   Samples.valueDefinitionFields
                   Samples.newObjectAttributeGroup
                   Samples.groupsContainer))
       = [ReqGetCallSetup resource call callData;
          ReqMakeCall Samples.flaggedSetup].
Proof.
  split; [reflexivity|].
  exact (container_sends_every_setup
           Samples.flaggedAnswer (Samples.respondWith Samples.emptyResponse)
           Samples.valueDefinitionFields Samples.newObjectAttributeGroup
           Samples.groupsContainer Samples.flaggedSetup
           (fun _ _ _ => eq_refl)).
Defined.

Lemma container_request_follows_lineage_witness :
  hd_error
    (snd (run (getAttributeOrGroupContainerChildren
                 Samples.anySetup
                 (Samples.respondWith Samples.attributesResponse)
                 Samples.valueDefinitionFields Samples.newObjectAttributeGroup
                 Samples.definitionsContainer)))
  = Some (ReqGetCallSetup (JStr "systemObjectDefinitions") "getAttributes"
            [("count", JNum 700); ("objectType", JStr "Product");
             ("select", JStr "(**)")]).
Proof.
  exact (container_request_follows_lineage
           Samples.anySetup (Samples.respondWith Samples.attributesResponse)
           Samples.valueDefinitionFields Samples.newObjectAttributeGroup
           Samples.definitionsContainer "root" "systemObjectDefinitions"
           "Product" eq_refl eq_refl eq_refl).
Defined.

Lemma base_category_partitions_rows_witness :
  (exists nodes,
      fst (run (getBaseNodeChildren
                  Samples.anySetup (Samples.respondWith Samples.typesResponse)
                  Samples.newObjectAttributeGroup
                  Samples.newObjectTypeDefinition Samples.systemCategory))
      = Returned (Some nodes)
      /\ map name nodes = [JStr "Product"; JStr "Order"])
  /\ (exists nodes,
         fst (run (getBaseNodeChildren
                     Samples.anySetup
                     (Samples.respondWith Samples.typesResponse)
                     Samples.newObjectAttributeGroup
                     Samples.newObjectTypeDefinition Samples.customCategory))
         = Returned (Some nodes)
         /\ map name nodes = [JStr "Store Event"]).
Proof.
  assert (Hrows : Forall (fun row => JS.isNullish row = false)
                         (items (JS.member "data" Samples.typesResponse)))
    by (repeat constructor).
  split.
  - destruct (base_category_partitions_rows
                Samples.anySetup (Samples.respondWith Samples.typesResponse)
                Samples.newObjectAttributeGroup
                Samples.newObjectTypeDefinition
                true Samples.systemCategory Samples.someSetup
                Samples.typesResponse _
                eq_refl (fun _ _ _ => eq_refl) eq_refl eq_refl Hrows)
      as [nodes [Hrun [Hnames _]]].
    exists nodes. split; assumption.
  - destruct (base_category_partitions_rows
                Samples.anySetup (Samples.respondWith Samples.typesResponse)
                Samples.newObjectAttributeGroup
                Samples.newObjectTypeDefinition
                false Samples.customCategory Samples.someSetup
                Samples.typesResponse _
                eq_refl (fun _ _ _ => eq_refl) eq_refl eq_refl Hrows)
      as [nodes [Hrun [Hnames _]]].
    exists nodes. split; assumption.
Defined.

Lemma root_children_lead_to_list_calls_witness :
  map name (getRootChildren Samples.settings)
  = [JStr "System Object Definitions"; JStr "Site Preferences"]
  /\ expandable (categoryNode "Site Preferences" "sitePreferences") = true.
Proof.
  split; [reflexivity|].
  exact (proj1 (root_children_lead_to_list_calls
                  Samples.anySetup (Samples.respondWith Samples.emptyResponse)
                  Samples.newObjectAttributeGroup
                  Samples.newObjectTypeDefinition Samples.settings
                  (categoryNode "Site Preferences" "sitePreferences")
                  (or_intror (or_introl eq_refl)))).
Defined.

Lemma custom_object_containers_never_expand_witness :
  JSString.includes "customObjectDefinitions"
    (parentId (nodeData Samples.customNode)) = true
  /\ run (getChildren
            Samples.anySetup (Samples.respondWith Samples.attributesResponse)
            Samples.expandedAttribute Samples.valueDefinitionFields
            Samples.newObjectAttributeGroup Samples.newObjectTypeDefinition
            Samples.settings Samples.nodeTypeOf Samples.rootTreeOf
            "sitePreferences"
            Samples.absentStrategy Samples.absentStrategy
            Samples.absentStrategy Samples.absentStrategy
            Samples.absentStrategy
            (Some (mkMetadataNode (JStr "Attribute Definitions")
                     TreeItemCollapsibleState.None
                     (withDisplayDescription (JStr "7")
                        (withParentContainer "objectAttributeDefinitions"
                           (nodeDataOf
                              "root.customObjectDefinitions.StoreEvent"))))))
     = (Returned (Some []), []).
Proof.
  split; [reflexivity|].
  exact (custom_object_containers_never_expand
           Samples.anySetup (Samples.respondWith Samples.attributesResponse)
           Samples.expandedAttribute Samples.valueDefinitionFields
           Samples.newObjectAttributeGroup Samples.newObjectTypeDefinition
           Samples.settings Samples.nodeTypeOf Samples.rootTreeOf
           "sitePreferences"
           Samples.absentStrategy Samples.absentStrategy
           Samples.absentStrategy Samples.absentStrategy
           Samples.absentStrategy
           Samples.customNode Samples.customType _ _
           eq_refl eq_refl eq_refl (or_introl eq_refl)).
Defined.

Lemma string_list_children_record_their_group_witness :
  exists nodes,
    getStringListChildren Samples.attributesOfGroup = Returned nodes
    /\ map name nodes = [JStr "price"; JStr "taxClass"]
    /\ Forall (fun node =>
                 expandable node = false
                 /\ groupAttribute (nodeData node) = Some "Pricing"
                 /\ parentId (nodeData node)
                    = "root.systemObjectDefinitions.Product.Product.Pricing.Attributes")
              nodes.
Proof.
  exact (string_list_children_record_their_group
           Samples.attributesOfGroup [JStr "price"; JStr "taxClass"]
           "root.systemObjectDefinitions.Product.Product" "Pricing"
           eq_refl eq_refl eq_refl).
Defined.

Lemma value_definition_children_need_every_member_witness :
  didThrow (getAttributeValueDefinitionChildren
              (Samples.valueNode Samples.incompleteValue)) = true
  /\ didThrow (getAttributeValueDefinitionChildren
                 (Samples.valueNode Samples.completeValue)) = false.
Proof.
  split.
  - exact (proj1 (value_definition_children_need_every_member
                    (Samples.valueNode Samples.incompleteValue)
                    "ObjectAttributeValueDefinition" Samples.incompleteValue
                    eq_refl)).
  - exact (proj1 (value_definition_children_need_every_member
                    (Samples.valueNode Samples.completeValue)
                    "ObjectAttributeValueDefinition" Samples.completeValue
                    eq_refl)).
Defined.

Lemma definition_children_start_with_a_gap_witness :
  exists found,
    fst (run (getAttributeDefinitionChildren
                Samples.expandedAttribute Samples.valueDefinitionFields
                Samples.a2Node)) = Returned found
    /\ List.length found = 33
    /\ hd_error found = Some None.
Proof.
  eexists. split; [reflexivity|].
  exact (definition_children_start_with_a_gap
           Samples.expandedAttribute Samples.valueDefinitionFields
           Samples.a2Node
           [("id", JStr "a2"); ("value_type", JStr "enum_of_int")]
           "enum_of_int" _ eq_refl eq_refl eq_refl).
Defined.

Lemma getAllPreferences_without_data_witness :
  fst (run (getAllPreferences Samples.anySetup
              (Samples.respondWith Samples.faultResponse)
              Samples.newObjectAttributeGroup))
  = Returned None
  /\ fst (run (getAllPreferences Samples.anySetup
                 (Samples.respondWith Samples.emptyResponse)
                 Samples.newObjectAttributeGroup))
     = Returned (Some [messageNode "No attribute groups defined"
                                   "sitePreferences"]).
Proof.
  split.
  - exact (getAllPreferences_without_data
             Samples.anySetup (Samples.respondWith Samples.faultResponse)
             Samples.newObjectAttributeGroup Samples.someSetup
             Samples.faultResponse (fun _ => eq_refl) eq_refl eq_refl eq_refl).
  - exact (getAllPreferences_without_data
             Samples.anySetup (Samples.respondWith Samples.emptyResponse)
             Samples.newObjectAttributeGroup Samples.someSetup
             Samples.emptyResponse (fun _ => eq_refl) eq_refl eq_refl eq_refl).
Defined.

End MoreExamples.

Section SerialiserExamples.

Import XMLHandler.

Lemma export_value_definitions_are_pairs_witness :
  exists pairs,
    In (Element "value-definitions" [] None pairs)
       (elements (getObjectAttributeXML "Order" Samples.sizeAttr))
    /\ List.length pairs = 2.
Proof.
  destruct (export_value_definitions_are_pairs "Order" Samples.sizeAttr
              eq_refl eq_refl ltac:(discriminate))
    as [pairs [Hin [Hlen _]]].
  exists pairs. split; [exact Hin | exact Hlen].
Defined.

Lemma export_root_is_always_namespaced_witness :
  (exists document,
     getXMLFromNode Samples.pricingGroupNode = Returned document
     /\ tagOf document = "metadata"
     /\ attributesOf document
        = [("xmlns", "http://www.demandware.com/xml/impex/metadata/2006-10-31")]
     /\ exists kids,
          childrenOf document
          = [Element "type-extension" [("type-id", "Product")] None kids])
  /\ (exists document,
        getXMLFromNode Samples.valueListNode = Returned document
        /\ childrenOf document = []).
Proof.
  split.
  - eexists. split; [reflexivity|].
    destruct (export_root_is_always_namespaced Samples.pricingGroupNode _
                eq_refl) as [Htag [Hns [_ Hkids]]].
    split; [exact Htag|]. split; [exact Hns|]. exact Hkids.
  - eexists. split; [reflexivity|].
    destruct (export_root_is_always_namespaced Samples.valueListNode _
                eq_refl) as [_ [_ [_ Hkids]]].
    exact Hkids.
Defined.

Lemma export_type_id_follows_lineage_witness :
  getXMLFromNode Samples.sizeAttrNode
  = Returned (Element "metadata" [("xmlns", NAMESPACE_STRING)] None
                [getObjectAttributeXML "Order" Samples.sizeAttr]).
Proof.
  exact (export_type_id_follows_lineage
           Samples.sizeAttrNode Samples.sizeAttr
           "root.systemObjectDefinitions.Order" "Order"
           eq_refl eq_refl eq_refl eq_refl).
Defined.

End SerialiserExamples.
